(** * Smartsheet <-> Bind ERP service: reconciliation engine and scheduler

    A shallow embedding of [main.py]: the text helpers ([_slug], [_iso],
    [_parse_iso]), the signature ([_coerce_total], [_make_signature]), the
    fetch aggregator ([_traer_facturas_por_empresas]), the reconciliation
    pass of [_push_to_sheet] and the due test of [_job_runner].

    Conventions.
    - A Python [str] is a [string] holding its UTF-8 bytes.
    - A Python [float] is a binary64 [spec_float]; [==] on floats is [SFeqb].
    - A Python [dict] is an association list kept in insertion order, with
      the key equality of the keys' type.
    - An exception is a value of [exn]; code that can raise returns
      [result].
    - Smartsheet object ids (rows, columns) are positive integers. *)

From Stdlib Require Import String Ascii List Bool ZArith NArith Lia DecimalString.
From Stdlib Require Import Floats.SpecFloat QArith.
Import ListNotations.
Close Scope Q_scope.
Open Scope string_scope.
Open Scope Z_scope.

Set Implicit Arguments.

(** ** Exceptions *)

Inductive exn : Type :=
| AttributeError
| TypeError
| ValueError
| OverflowError
| HTTPError (status : Z)
| TransportError
| TimeoutError.

Inductive result (A : Type) : Type :=
| Ok (a : A)
| Raise (e : exn).

Arguments Ok {A} a.
Arguments Raise {A} e.

Definition bind {A B : Type} (m : result A) (k : A -> result B) : result B :=
  match m with
  | Ok a => k a
  | Raise e => Raise e
  end.

Notation "x <- m ;; k" := (bind m (fun x => k))
  (at level 61, m at next level, right associativity).

(** [try: m except Exception: d] *)
Definition try_except {A : Type} (m : result A) (d : A) : A :=
  match m with
  | Ok a => a
  | Raise _ => d
  end.

(** ** Text *)

Module Text.

Definition code (c : ascii) : N := N_of_ascii c.
Definition chr (n : N) : ascii := ascii_of_N n.

Definition in_range (lo hi n : N) : bool := (N.leb lo n && N.leb n hi)%bool.

(** One-byte white space of [str.isspace]: U+0009..U+000D, U+001C..U+0020. *)
Definition is_ws1 (a : N) : bool :=
  (in_range 9 13 a || in_range 28 32 a)%bool.

(** Two-byte white space: U+0085 and U+00A0. *)
Definition is_ws2 (a b : N) : bool :=
  (N.eqb a 194 && (N.eqb b 133 || N.eqb b 160))%bool.

(** Three-byte white space: U+1680, U+2000..U+200A, U+2028, U+2029, U+202F,
    U+205F, U+3000. *)
Definition is_ws3 (a b c : N) : bool :=
  ((N.eqb a 225 && N.eqb b 154 && N.eqb c 128)
   || (N.eqb a 226 && N.eqb b 128
       && (in_range 128 138 c || N.eqb c 168 || N.eqb c 169 || N.eqb c 175))
   || (N.eqb a 226 && N.eqb b 129 && N.eqb c 159)
   || (N.eqb a 227 && N.eqb b 128 && N.eqb c 128))%bool.

Fixpoint lstrip (s : string) : string :=
  match s with
  | EmptyString => EmptyString
  | String a s1 =>
      if is_ws1 (code a) then lstrip s1 else
      match s1 with
      | EmptyString => s
      | String b s2 =>
          if is_ws2 (code a) (code b) then lstrip s2 else
          match s2 with
          | EmptyString => s
          | String c s3 =>
              if is_ws3 (code a) (code b) (code c) then lstrip s3 else s
          end
      end
  end.

Fixpoint rev_append (s acc : string) : string :=
  match s with
  | EmptyString => acc
  | String a s1 => rev_append s1 (String a acc)
  end.

Definition rev (s : string) : string := rev_append s EmptyString.

(** [lstrip] on the reversed text: the bytes of a character come last first. *)
Fixpoint lstrip_rev (s : string) : string :=
  match s with
  | EmptyString => EmptyString
  | String a s1 =>
      if is_ws1 (code a) then lstrip_rev s1 else
      match s1 with
      | EmptyString => s
      | String b s2 =>
          if is_ws2 (code b) (code a) then lstrip_rev s2 else
          match s2 with
          | EmptyString => s
          | String c s3 =>
              if is_ws3 (code c) (code b) (code a) then lstrip_rev s3 else s
          end
      end
  end.

Definition rstrip (s : string) : string := rev (lstrip_rev (rev s)).

(** [s.strip()] *)
Definition strip (s : string) : string := rstrip (lstrip s).

Definition lower_ascii (c : ascii) : ascii :=
  if in_range 65 90 (code c) then chr (code c + 32) else c.

Definition upper_ascii (c : ascii) : ascii :=
  if in_range 97 122 (code c) then chr (code c - 32) else c.

(** [s.lower()], exact on ASCII text; other bytes are kept. *)
Fixpoint lower (s : string) : string :=
  match s with
  | EmptyString => EmptyString
  | String a s1 => String (lower_ascii a) (lower s1)
  end.

(** [s.upper()], exact on code points up to U+00FF: ASCII letters, the
    letters of Latin-1 (U+00E0..U+00FE but U+00F7), and the three special
    cases U+00DF (to SS), U+00FF (to U+0178) and U+00B5 (to U+039C). Bytes
    of other characters are kept. *)
Fixpoint upper (s : string) : string :=
  match s with
  | EmptyString => EmptyString
  | String a s1 =>
      match s1 with
      | EmptyString => String (upper_ascii a) EmptyString
      | String b s2 =>
          if N.eqb (code a) 195 then
            if N.eqb (code b) 159 then String "S" (String "S" (upper s2))
            else if N.eqb (code b) 191 then String (chr 197) (String (chr 184) (upper s2))
            else if (in_range 160 190 (code b) && negb (N.eqb (code b) 183))%bool
                 then String a (String (chr (code b - 32)) (upper s2))
            else String a (String b (upper s2))
          else if (N.eqb (code a) 194 && N.eqb (code b) 181)%bool
               then String (chr 206) (String (chr 156) (upper s2))
          else String (upper_ascii a) (upper s1)
      end
  end.

Fixpoint prefix (p s : string) : bool :=
  match p, s with
  | EmptyString, _ => true
  | String a p1, String b s1 => (Ascii.eqb a b && prefix p1 s1)%bool
  | String _ _, EmptyString => false
  end.

(** [s.startswith(p)] and [s.endswith(p)] *)
Definition startswith (s p : string) : bool := prefix p s.
Definition endswith (s p : string) : bool := prefix (rev p) (rev s).

(** [p in s] *)
Fixpoint contains (s p : string) : bool :=
  (prefix p s ||
   match s with
   | EmptyString => false
   | String _ s1 => contains s1 p
   end)%bool.

(** [s.replace(old, new)] for a non-empty [old]: occurrences are replaced
    from the left and do not overlap; [skip] counts the bytes of the
    occurrence being replaced that are still to be dropped. *)
Fixpoint replace_from (old new : string) (skip : nat) (s : string) : string :=
  match s with
  | EmptyString => EmptyString
  | String a s1 =>
      match skip with
      | S k => replace_from old new k s1
      | O =>
          if prefix old s
          then new ++ replace_from old new (Nat.pred (String.length old)) s1
          else String a (replace_from old new O s1)
      end
  end.

Definition replace (s old new : string) : string := replace_from old new O s.

(** [s[:n]] on ASCII text. A slice that cuts a longer character leaves a
    byte above 127 in the result, which no parser of dates accepts. *)
Definition take (n : nat) (s : string) : string := String.substring 0 n s.

(** [s[:-n]] for [n <= len(s)] *)
Definition drop_last (n : nat) (s : string) : string :=
  String.substring 0 (String.length s - n) s.

(** The ASCII base letter of the canonical decomposition of the character
    U+00C0 + ([b] - 128), encoded as the bytes 195 [b]; [None] for the
    characters of that block that do not decompose. *)
Definition latin1_base (b : N) : option ascii :=
  if in_range 128 133 b then Some "A"%char
  else if N.eqb b 135 then Some "C"%char
  else if in_range 136 139 b then Some "E"%char
  else if in_range 140 143 b then Some "I"%char
  else if N.eqb b 145 then Some "N"%char
  else if in_range 146 150 b then Some "O"%char
  else if in_range 153 156 b then Some "U"%char
  else if N.eqb b 157 then Some "Y"%char
  else if in_range 160 165 b then Some "a"%char
  else if N.eqb b 167 then Some "c"%char
  else if in_range 168 171 b then Some "e"%char
  else if in_range 172 175 b then Some "i"%char
  else if N.eqb b 177 then Some "n"%char
  else if in_range 178 182 b then Some "o"%char
  else if in_range 185 188 b then Some "u"%char
  else if (N.eqb b 189 || N.eqb b 191)%bool then Some "y"%char
  else None.

(** [unicodedata.normalize("NFD", s).encode("ascii", "ignore").decode()],
    exact on code points up to U+00FF: ASCII is kept, an accented Latin-1
    letter leaves its base letter, every other byte is dropped. *)
Fixpoint nfd_ascii (s : string) : string :=
  match s with
  | EmptyString => EmptyString
  | String a s1 =>
      if N.ltb (code a) 128 then String a (nfd_ascii s1)
      else
        match s1 with
        | EmptyString => EmptyString
        | String b s2 =>
            if N.eqb (code a) 195 then
              match latin1_base (code b) with
              | Some c => String c (nfd_ascii s2)
              | None => nfd_ascii s2
              end
            else nfd_ascii s1
        end
  end.

End Text.

(** [_slug]: [normalize("NFD", text).encode("ascii", "ignore").decode()
    .replace(" ", "").lower()] *)
Definition _slug (text : string) : string :=
  Text.lower (Text.replace (Text.nfd_ascii text) " " "").

(** ** Floats *)

Module Float.

Definition prec : Z := 53.
Definition emax : Z := 1024.

Definition float : Type := spec_float.

Definition zero : float := S754_zero false.
Definition nan : float := S754_nan.
Definition infinity (neg : bool) : float := S754_infinity neg.

(** The double nearest to the integer [z], ties to even. *)
Definition of_Z (z : Z) : float := binary_normalize prec emax z 0 false.

Definition one : float := of_Z 1.

(** The double nearest to [n / d] with the sign [neg], ties to even. *)
Definition of_ratio (neg : bool) (n : Z) (d : positive) : float :=
  match n with
  | Zpos p => SFdiv prec emax (S754_finite neg p 0) (S754_finite false d 0)
  | _ => S754_zero neg
  end.

(** The double nearest to [m * 10 ^ k] with the sign [neg], for [0 <= m]:
    the value of the decimal literal of digits [m] and exponent [k]. *)
Definition of_decimal (neg : bool) (m k : Z) : float :=
  if 0 <=? k
  then (if neg then SFopp (of_Z (m * 10 ^ k)) else of_Z (m * 10 ^ k))
  else of_ratio neg m (Z.to_pos (10 ^ (- k))).

(** [x == y] *)
Definition eqb (x y : float) : bool := SFeqb x y.

Definition is_finite (x : float) : bool :=
  match x with
  | S754_zero _ | S754_finite _ _ _ => true
  | _ => false
  end.

(** The integer nearest to [n / d], ties to even, for [0 <= n]. *)
Definition div_half_even (n : Z) (d : positive) : Z :=
  let q := n / Zpos d in
  let r := n mod Zpos d in
  match 2 * r ?= Zpos d with
  | Lt => q
  | Gt => q + 1
  | Eq => if Z.even q then q else q + 1
  end.

(** [round(x, 2)]: the exact value of [x] is rounded to two decimals, ties
    to even, and the double nearest to that decimal is returned; infinities
    and nan round to themselves, and so does a double with no fraction. *)
Definition round2 (x : float) : float :=
  match x with
  | S754_finite s m (Zneg e) =>
      of_ratio s (div_half_even (Zpos m * 100) (2 ^ e)%positive) 100
  | _ => x
  end.

(** [int(x)]: truncation towards zero. *)
Definition trunc (x : float) : option Z :=
  match x with
  | S754_zero _ => Some 0
  | S754_finite s m e =>
      let a := match e with
               | Zneg k => Zpos m / Zpos (2 ^ k)%positive
               | _ => Zpos m * 2 ^ e
               end in
      Some (if s then - a else a)
  | _ => None
  end.

End Float.

(** ** Python values *)

(** The values of JSON documents and of Smartsheet cells. *)
#[local] Unset Elimination Schemes.
Inductive value : Type :=
| VNone
| VBool (b : bool)
| VInt (z : Z)
| VFloat (f : Float.float)
| VStr (s : string)
| VList (l : list value)
| VDict (d : list (string * value)).
#[local] Set Elimination Schemes.

Module Py.

(** [bool(v)] *)
Definition truthy (v : value) : bool :=
  match v with
  | VNone => false
  | VBool b => b
  | VInt z => negb (z =? 0)
  | VFloat f => negb (Float.eqb f Float.zero)
  | VStr s => negb (String.eqb s "")
  | VList l => match l with [] => false | _ => true end
  | VDict d => match d with [] => false | _ => true end
  end.

(** [a or b] *)
Definition or (a b : value) : value := if truthy a then a else b.

(** [d.get(k)] on a mapping with text keys; [None] when the key is absent. *)
Fixpoint get {A : Type} (d : list (string * A)) (k : string) : option A :=
  match d with
  | [] => None
  | (k', v) :: d' => if String.eqb k k' then Some v else get d' k
  end.

(** [d.get(k)] as a value: an absent key gives [None]. *)
Definition get_val (d : list (string * value)) (k : string) : value :=
  match get d k with
  | Some v => v
  | None => VNone
  end.

Definition is_digit (c : ascii) : bool := Text.in_range 48 57 (Text.code c).
Definition digit_val (c : ascii) : Z := Z.of_N (Text.code c) - 48.

(** The leading decimal digits of [s]: their value after [acc], how many
    they are, and the rest of the text. *)
Fixpoint digits (s : string) (acc : Z) (n : nat) : Z * nat * string :=
  match s with
  | String c s1 =>
      if is_digit c then digits s1 (10 * acc + digit_val c) (S n)
      else (acc, n, s)
  | EmptyString => (acc, n, s)
  end.

(** Underscores in a numeric literal stand between two digits only; [prev]
    is the character before [s]. The literal without them, or [None]. *)
Fixpoint drop_underscores (prev : ascii) (s : string) : option string :=
  match s with
  | EmptyString => if Ascii.eqb prev "_" then None else Some EmptyString
  | String c s1 =>
      if Ascii.eqb c "_" then
        if is_digit prev then drop_underscores c s1 else None
      else if (Ascii.eqb prev "_" && negb (is_digit c))%bool then None
      else option_map (String c) (drop_underscores c s1)
  end.

(** An optional sign: whether it is a minus, and the rest. *)
Definition sign (s : string) : bool * string :=
  match s with
  | String "-" s1 => (true, s1)
  | String "+" s1 => (false, s1)
  | _ => (false, s)
  end.

(** The exponent part [e[+-]digits] of a float literal, read only when it
    has a digit; the exponent and the rest. *)
Definition exponent (s : string) : Z * string :=
  match s with
  | String c s1 =>
      if (Ascii.eqb c "e" || Ascii.eqb c "E")%bool then
        let '(neg, s2) := sign s1 in
        let '(e, n, s3) := digits s2 0 O in
        match n with
        | O => (0, s)
        | S _ => (if neg then - e else e, s3)
        end
      else (0, s)
  | EmptyString => (0, s)
  end.

(** [float(s)] for a text [s]: white space around is dropped; the literal
    is [inf], [infinity] or [nan] in any case, or decimal digits with an
    optional point and exponent; the result is the nearest double. ASCII
    digits only. *)
Definition float_of_str (s : string) : option Float.float :=
  match drop_underscores "000" (Text.strip s) with
  | None => None
  | Some t =>
      let '(neg, body) := sign t in
      let low := Text.lower body in
      if (String.eqb low "inf" || String.eqb low "infinity")%bool
      then Some (Float.infinity neg)
      else if String.eqb low "nan" then Some Float.nan
      else
        let '(ip, n1, r1) := digits body 0 O in
        let '(m, n2, r2) :=
          match r1 with
          | String "." r => let '(m, n, r') := digits r ip O in (m, n, r')
          | _ => (ip, O, r1)
          end in
        match (n1 + n2)%nat with
        | O => None
        | S _ =>
            let '(e, r3) := exponent r2 in
            if String.eqb r3 ""
            then Some (Float.of_decimal neg m (e - Z.of_nat n2))
            else None
        end
  end.

(** [int(s)] for a text [s], base 10: white space around is dropped, then
    an optional sign and decimal digits. ASCII digits only, and without the
    interpreter's limit on the number of digits. *)
Definition int_of_str (s : string) : option Z :=
  match drop_underscores "000" (Text.strip s) with
  | None => None
  | Some t =>
      let '(neg, body) := sign t in
      let '(z, n, r) := digits body 0 O in
      match n with
      | O => None
      | S _ => if String.eqb r "" then Some (if neg then - z else z) else None
      end
  end.

(** [float(v)] *)
Definition float (v : value) : result Float.float :=
  match v with
  | VFloat f => Ok f
  | VInt z => if Float.is_finite (Float.of_Z z) then Ok (Float.of_Z z)
              else Raise OverflowError
  | VBool b => Ok (if b then Float.one else Float.zero)
  | VStr s => match float_of_str s with
              | Some f => Ok f
              | None => Raise ValueError
              end
  | VNone | VList _ | VDict _ => Raise TypeError
  end.

(** [int(v)] *)
Definition int (v : value) : result Z :=
  match v with
  | VInt z => Ok z
  | VBool b => Ok (if b then 1 else 0)
  | VFloat f => match Float.trunc f with
                | Some z => Ok z
                | None => Raise (match f with
                                 | S754_nan => ValueError
                                 | _ => OverflowError
                                 end)
                end
  | VStr s => match int_of_str s with
              | Some z => Ok z
              | None => Raise ValueError
              end
  | VNone | VList _ | VDict _ => Raise TypeError
  end.

(** [x == z] for a float and an integer: the exact values are compared. *)
Definition float_eqb_int (x : Float.float) (z : Z) : bool :=
  match x with
  | S754_zero _ => z =? 0
  | S754_finite s m e =>
      let a := if s then Zneg m else Zpos m in
      match e with
      | Zneg k => ((a mod Zpos (2 ^ k)%positive =? 0) && (a / Zpos (2 ^ k)%positive =? z))%bool
      | _ => a * 2 ^ e =? z
      end
  | _ => false
  end.

(** [hash(v)] is defined: lists and dicts are not hashable. *)
Definition hashable (v : value) : bool :=
  match v with
  | VList _ | VDict _ => false
  | _ => true
  end.

(** [a == b] for hashable values; a [bool] counts as the integer 0 or 1. *)
Definition eqb (a b : value) : bool :=
  let num v := match v with
               | VBool c => Some (inl (if c then 1 else 0))
               | VInt z => Some (inl z)
               | VFloat f => Some (inr f)
               | _ => None
               end in
  match a, b with
  | VNone, VNone => true
  | VStr s, VStr t => String.eqb s t
  | _, _ =>
      match num a, num b with
      | Some (inl x), Some (inl y) => x =? y
      | Some (inr x), Some (inr y) => Float.eqb x y
      | Some (inl x), Some (inr y) => float_eqb_int y x
      | Some (inr x), Some (inl y) => float_eqb_int x y
      | _, _ => false
      end
  end.

End Py.

(** ** The interpreter and its libraries

    What the program calls and does not define: the text of a float or of a
    container, the parsers of the [datetime] and [json] modules, and the
    conversion to the zone America/Mexico_City. A parser that raises is
    [None]. *)

(** A [datetime]: the wall clock in microseconds since 0001-01-01T00:00,
    and the offset from UTC in microseconds when the value is aware. *)
Record datetime : Type := mk_datetime {
  wall : Z;
  utcoffset : option Z
}.

Class Runtime : Type := {
  (** [str(v)] for a float, a list or a dict *)
  repr_obj : value -> string;
  (** [date.fromisoformat(s).isoformat()] *)
  date_isoformat : string -> option string;
  (** [json.loads(s)] *)
  json_loads : string -> option value;
  (** [datetime.fromisoformat(s)] *)
  datetime_fromisoformat : string -> option datetime;
  (** [dt.astimezone(MX_TZ)] for an aware [dt]: its wall clock in that zone *)
  astimezone_mx : datetime -> option Z
}.

Section Helpers.

Context {RT : Runtime}.

(** [str(v)] *)
Definition str (v : value) : string :=
  match v with
  | VStr s => s
  | VNone => "None"
  | VBool true => "True"
  | VBool false => "False"
  | VInt z => NilZero.string_of_int (Z.to_int z)
  | VFloat _ | VList _ | VDict _ => repr_obj v
  end.

(** [_iso]: nothing for a falsy [d]; the ISO date of the first ten
    characters when they parse; [d] itself otherwise (slicing or parsing
    raised). *)
Definition _iso (d : value) : value :=
  if negb (Py.truthy d) then VNone
  else
    match d with
    | VStr s =>
        match date_isoformat (Text.take 10 s) with
        | Some t => VStr t
        | None => d
        end
    | _ => d
    end.

(** [_parse_iso]: the wall clock in America/Mexico_City of the timestamp
    [s], or [None]. A value that is not text has no [replace] and raises
    inside the [try]. *)
Definition _parse_iso (s : value) : option Z :=
  if negb (Py.truthy s) then None
  else
    match s with
    | VStr t =>
        match datetime_fromisoformat (Text.replace t "Z" "") with
        | Some dt =>
            match utcoffset dt with
            | None => Some (wall dt)
            | Some _ => astimezone_mx dt
            end
        | None => None
        end
    | _ => None
    end.

(** [_coerce_total] *)
Definition _coerce_total (val : value) : Float.float :=
  try_except (f <- Py.float val ;; Ok (Float.round2 f)) Float.zero.

(** A signature: [(date, rfc, total, cfdi)]. *)
Definition signature : Type := value * string * Float.float * string.

(** [(rfc or "").strip().upper()]: a truthy [rfc] that is not text has no
    [strip]. *)
Definition norm_rfc (rfc : value) : result string :=
  match Py.or rfc (VStr "") with
  | VStr s => Ok (Text.upper (Text.strip s))
  | _ => Raise AttributeError
  end.

(** [_make_signature] *)
Definition _make_signature (date rfc total cfdi : value) : result signature :=
  let d := Py.or (_iso (Py.or date (VStr ""))) (VStr "") in
  r <- norm_rfc rfc ;;
  let t := _coerce_total total in
  let c := Text.strip (str (Py.or cfdi (VStr ""))) in
  Ok (d, r, t, c).

End Helpers.

(** ** Dictionaries *)

Section Dict.

Variables K V : Type.
Variable keq : K -> K -> bool.

Definition dict : Type := list (K * V).

(** [d.get(k)] *)
Fixpoint dict_get (d : dict) (k : K) : option V :=
  match d with
  | [] => None
  | (k', v) :: d' => if keq k k' then Some v else dict_get d' k
  end.

(** [d[k] = v]: the value of an equal key is replaced where it stands, a
    new key goes last. *)
Fixpoint dict_set (d : dict) (k : K) (v : V) : dict :=
  match d with
  | [] => [(k, v)]
  | (k', v') :: d' =>
      if keq k k' then (k', v) :: d' else (k', v') :: dict_set d' k v
  end.

(** [{k: v for (k, v) in l}] *)
Definition dict_of (l : list (K * V)) : dict :=
  fold_left (fun d kv => dict_set d (fst kv) (snd kv)) l [].

End Dict.

(** ** Sheets *)

Record column : Type := mk_column {
  col_id : positive;
  title : string
}.

Record cell : Type := mk_cell {
  column_id : positive;
  cell_value : value;
  display_value : option string
}.

Record row : Type := mk_row {
  row_id : positive;
  cells : list cell
}.

Record sheet : Type := mk_sheet {
  columns : list column;
  rows : list row
}.

(** [c.display_value or c.value] *)
Definition shown (c : cell) : value :=
  match display_value c with
  | Some s => Py.or (VStr s) (cell_value c)
  | None => cell_value c
  end.

(** [c.value or c.display_value] *)
Definition raw_or_shown (c : cell) : value :=
  if Py.truthy (cell_value c) then cell_value c
  else match display_value c with
       | Some s => VStr s
       | None => VNone
       end.

(** [{_slug(c.title): c.id for c in sheet.columns}] *)
Definition col_map_of (cols : list column) : dict string positive :=
  dict_of String.eqb (map (fun c => (_slug (title c), col_id c)) cols).

(** [cid and c.column_id == cid] *)
Definition is_col (cid : option positive) (c : cell) : bool :=
  match cid with
  | Some i => Pos.eqb (column_id c) i
  | None => false
  end.

(** ** Reconciliation: [_push_to_sheet] *)

(** A source record, [fac]: a JSON object. *)
Definition factura : Type := list (string * value).

(** [{"columnId": cid, "value": val}] *)
Definition cell_write : Type := (positive * value)%type.

(** [{"toBottom": True, "cells": cells}] *)
Record insert : Type := mk_insert { ins_cells : list cell_write }.

(** [{"id": row_id, "cells": cells}] *)
Record update : Type := mk_update { upd_id : positive; upd_cells : list cell_write }.

Definition default_rules : value :=
  VDict [("UUID", VStr "UUID");
         ("Date", VStr "Fecha emisión");
         ("RFC", VStr "RFC Receptor");
         ("Total", VStr "Total");
         ("CFDIUse", VStr "Tipo CFDI")].

Fixpoint foldM {A B : Type} (f : A -> B -> result A) (l : list B) (a : A)
  : result A :=
  match l with
  | [] => Ok a
  | b :: l' => a' <- f a b ;; foldM f l' a'
  end.

(** The annotation [str | None] of the date and the tax id. *)
Definition text_or_none (v : value) : bool :=
  match v with
  | VNone | VStr _ => true
  | _ => false
  end.

(** The text of [v or ""] for such a value. *)
Definition text_of (v : value) : string :=
  match v with
  | VStr s => s
  | _ => ""
  end.

(** A signature whose date is text. *)
Definition text_dated (k : signature) : Prop :=
  match k with
  | (VStr _, _, _, _) => True
  | _ => False
  end.

Section Push.

Context {RT : Runtime}.

(** [json.loads(rules_json).get("map") if rules_json else {}] *)
Definition load_map (rules_json : value) : result value :=
  if Py.truthy rules_json then
    match rules_json with
    | VStr s =>
        match json_loads s with
        | Some (VDict d) => Ok (Py.get_val d "map")
        | Some _ => Raise AttributeError
        | None => Raise ValueError
        end
    | _ => Raise TypeError
    end
  else Ok (VDict []).

(** The [try] of the mapping rules: [rules]. *)
Definition rules_of (rules_json : value) : value :=
  try_except (m <- load_map rules_json ;; Ok (Py.or m default_rules))
             default_rules.

(** [rules.items()], as [slug_rules] walks them: [rules] has to be a dict
    and [_slug] takes text only. *)
Fixpoint text_items (d : list (string * value)) : result (list (string * string)) :=
  match d with
  | [] => Ok []
  | (src, VStr dst) :: d' => l <- text_items d' ;; Ok ((src, dst) :: l)
  | (_, _) :: _ => Raise TypeError
  end.

Definition rule_items (rules : value) : result (list (string * string)) :=
  match rules with
  | VDict d => text_items d
  | _ => Raise AttributeError
  end.

(** [slug_rules.get(k, "")] for [slug_rules = {src: _slug(dst) ...}] *)
Definition slug_rule (items : list (string * string)) (k : string) : string :=
  match Py.get items k with
  | Some dst => _slug dst
  | None => ""
  end.

Definition sig_eqb (a b : signature) : bool :=
  let '(d1, r1, t1, c1) := a in
  let '(d2, r2, t2, c2) := b in
  (Py.eqb d1 d2 && String.eqb r1 r2 && Float.eqb t1 t2 && String.eqb c1 c2)%bool.

Definition sig_hashable (k : signature) : bool :=
  let '(d, _, _, _) := k in Py.hashable d.

(** [sig_to_row.get(k)] and [sig_to_row[k] = v] *)
Definition sig_get (d : dict signature positive) (k : signature)
  : result (option positive) :=
  if sig_hashable k then Ok (dict_get sig_eqb d k) else Raise TypeError.

Definition sig_set (d : dict signature positive) (k : signature) (v : positive)
  : result (dict signature positive) :=
  if sig_hashable k then Ok (dict_set sig_eqb d k v) else Raise TypeError.

(** The body of [for c in r.cells]: [row_uuid] and [sig_vals] after [c]. *)
Definition scan_cell (uuid_col_id : option positive)
    (sig_cols : list (option positive))
    (st : option string * list value) (c : cell) : option string * list value :=
  let '(row_uuid, sig_vals) := st in
  (if (is_col uuid_col_id c && Py.truthy (cell_value c))%bool
   then Some (Text.strip (str (cell_value c)))
   else row_uuid,
   map (fun p => if is_col (fst p) c then shown c else snd p)
       (combine sig_cols sig_vals)).

Definition scan_row (uuid_col_id : option positive)
    (sig_cols : list (option positive)) (r : row) : option string * list value :=
  fold_left (scan_cell uuid_col_id sig_cols) (cells r)
            (None, [VNone; VNone; VNone; VNone]).

(** [if row_uuid:] *)
Definition some_text (o : option string) : option string :=
  match o with
  | Some s => if String.eqb s "" then None else Some s
  | None => None
  end.

Definition row_signature (sig_vals : list value) : result signature :=
  _make_signature (nth 0 sig_vals VNone) (nth 1 sig_vals VNone)
                  (nth 2 sig_vals VNone) (nth 3 sig_vals VNone).

Definition indexes : Type :=
  (dict string positive * dict signature positive)%type.

(** The body of [for r in dest_sheet.rows]. *)
Definition index_row (uuid_col_id : option positive)
    (sig_cols : list (option positive)) (ix : indexes) (r : row)
  : result indexes :=
  let '(uuid_to_row, sig_to_row) := ix in
  let '(row_uuid, sig_vals) := scan_row uuid_col_id sig_cols r in
  let uuid_to_row' :=
    match some_text row_uuid with
    | Some u => dict_set String.eqb uuid_to_row u (row_id r)
    | None => uuid_to_row
    end in
  k <- row_signature sig_vals ;;
  sig_to_row' <- sig_set sig_to_row k (row_id r) ;;
  Ok (uuid_to_row', sig_to_row').

Definition index_rows (uuid_col_id : option positive)
    (sig_cols : list (option positive)) (rs : list row) : result indexes :=
  foldM (index_row uuid_col_id sig_cols) rs ([], []).

(** The cells of one record: the body of [for src_key, dest_col in
    rules.items()]. *)
Definition cell_of (col_map : dict string positive) (fac : factura)
    (rule : string * string) : list cell_write :=
  let '(src_key, dest_col) := rule in
  match dict_get String.eqb col_map (_slug dest_col) with
  | None => []
  | Some cid =>
      match Py.get_val fac src_key with
      | VNone => []
      | val =>
          [(cid, if Text.startswith (Text.lower src_key) "date"
                 then _iso (VStr (str val)) else val)]
      end
  end.

Definition cells_of (col_map : dict string positive)
    (items : list (string * string)) (fac : factura) : list cell_write :=
  flat_map (cell_of col_map fac) items.

(** [str(fac.get("UUID") or "").strip()] *)
Definition uuid_of (fac : factura) : string :=
  Text.strip (str (Py.or (Py.get_val fac "UUID") (VStr ""))).

Definition fac_signature (fac : factura) : result signature :=
  _make_signature (Py.get_val fac "Date") (Py.get_val fac "RFC")
                  (Py.get_val fac "Total") (Py.get_val fac "CFDIUse").

(** Lines 336 to 340: the row of a record. The signature index is read
    only when the identity gave no row. *)
Definition find_row (ix : indexes) (uuid_val : string) (sig_key : signature)
  : result (option positive) :=
  let '(uuid_to_row, sig_to_row) := ix in
  let row_id :=
    if String.eqb uuid_val "" then None
    else dict_get String.eqb uuid_to_row uuid_val in
  match row_id with
  | Some r => Ok (Some r)
  | None => sig_get sig_to_row sig_key
  end.

Definition batches : Type := (list insert * list update)%type.

(** The body of [for fac in facturas]. *)
Definition reconcile_fac (col_map : dict string positive)
    (items : list (string * string)) (ix : indexes)
    (acc : batches) (fac : factura) : result batches :=
  let '(inserts, updates) := acc in
  let uuid_val := uuid_of fac in
  sig_key <- fac_signature fac ;;
  match cells_of col_map items fac with
  | [] => Ok acc
  | cs =>
      row_id <- find_row ix uuid_val sig_key ;;
      match row_id with
      | Some r => Ok (inserts, (updates ++ [mk_update r cs])%list)
      | None => Ok ((inserts ++ [mk_insert cs])%list, updates)
      end
  end.

(** [uuid_col_id] and [sig_cols] *)
Definition uuid_col_of (col_map : dict string positive)
    (items : list (string * string)) : option positive :=
  dict_get String.eqb col_map (slug_rule items "UUID").

Definition sig_cols_of (col_map : dict string positive)
    (items : list (string * string)) : list (option positive) :=
  [dict_get String.eqb col_map (slug_rule items "Date");
   dict_get String.eqb col_map (slug_rule items "RFC");
   dict_get String.eqb col_map (slug_rule items "Total");
   dict_get String.eqb col_map (slug_rule items "CFDIUse")].

(** [_push_to_sheet] from [col_map] to the two batches. *)
Definition reconcile (dest_sheet : sheet) (facturas : list factura)
    (rules_json : value) : result batches :=
  let col_map := col_map_of (columns dest_sheet) in
  let rules := rules_of rules_json in
  items <- rule_items rules ;;
  let uuid_col_id := uuid_col_of col_map items in
  let sig_cols := sig_cols_of col_map items in
  ix <- index_rows uuid_col_id sig_cols (rows dest_sheet) ;;
  foldM (reconcile_fac col_map items ix) facturas ([], []).

(** What the pass does with one record. *)
Inductive outcome : Type :=
| Skipped
| Inserted (i : insert)
| Updated (u : update).

(** The outcome of [fac] alone, as the body of the loop decides it. *)
Definition classify (col_map : dict string positive)
    (items : list (string * string)) (ix : indexes) (fac : factura)
  : result outcome :=
  sig_key <- fac_signature fac ;;
  match cells_of col_map items fac with
  | [] => Ok Skipped
  | cs =>
      row_id <- find_row ix (uuid_of fac) sig_key ;;
      Ok (match row_id with
          | Some r => Updated (mk_update r cs)
          | None => Inserted (mk_insert cs)
          end)
  end.

Definition inserts_of (os : list outcome) : list insert :=
  flat_map (fun o => match o with Inserted i => [i] | _ => [] end) os.

Definition updates_of (os : list outcome) : list update :=
  flat_map (fun o => match o with Updated u => [u] | _ => [] end) os.

(** The record maps to a cell at least. *)
Definition has_cells (col_map : dict string positive)
    (items : list (string * string)) (fac : factura) : bool :=
  match cells_of col_map items fac with
  | [] => false
  | _ => true
  end.

(** The annotation [str | None] on the date and the tax id of a record. *)
Definition fac_typed (fac : factura) : bool :=
  (text_or_none (Py.get_val fac "Date") &&
   text_or_none (Py.get_val fac "RFC"))%bool.

(** A call of [_smartsheet_call]: [POST] of the inserts, [PUT] of the
    updates. *)
Inductive api_call : Type :=
| POST (payload : list insert)
| PUT (payload : list update).

(** [_push_to_sheet]: the write calls it issues. [dest] is the outcome of
    [ss.Sheets.get_sheet]; when that raised, the error is logged and
    nothing is written. *)
Definition _push_to_sheet (dest : result sheet) (facturas : list factura)
    (rules_json : value) : result (list api_call) :=
  match dest with
  | Raise _ => Ok []
  | Ok dest_sheet =>
      b <- reconcile dest_sheet facturas rules_json ;;
      let '(inserts, updates) := b in
      Ok ((match inserts with [] => [] | _ => [POST inserts] end)
          ++ (match updates with [] => [] | _ => [PUT updates] end))%list
  end.

End Push.

(** ** The fetch aggregator: [_traer_facturas_por_empresas] *)

(** A row of the configuration sheet, as [rows_as_dict] gives it. *)
Definition config_row : Type := list (string * value).

(** What the loop over the configuration keeps of a row with a token: the
    label, the entry of [metas] and the arguments of [bind_get_all]. *)
Record task : Type := mk_task {
  etiqueta : value;
  dest_sheet : value;
  rules : value;
  base_url : string;
  token : value;
  filtro : string
}.

(** An entry of the returned mapping: the exception of the account, or
    [{"count": len(res)}]. *)
Inductive sync_result : Type :=
| Failed (e : exn)
| Count (n : nat).

Section Aggregator.

Context {RT : Runtime}.

(** The outcome of the task created for the [i]-th kept row, with the
    arguments of [bind_get_all]: the records fetched, or the exception. *)
Variable bind_get_all : nat -> string -> value -> string -> result (list factura).

(** The outcome of [ss.Sheets.get_sheet(int(dest_sheet_id))] at the push of
    the [i]-th kept row. *)
Variable get_sheet : nat -> value -> result sheet.

(** A method of [str] called on [v]. *)
Definition as_text (v : value) : result string :=
  match v with
  | VStr s => Ok s
  | _ => Raise AttributeError
  end.

(** The two rewrites of [base_url]. *)
Definition fix_url (u : string) : string :=
  let u1 := if Text.endswith (Text.lower u) "/invoices"
            then Text.drop_last 8 u ++ "Invoices" else u in
  if (Text.contains u1 "/v1/" && negb (Text.contains u1 "/api/"))%bool
  then Text.replace u1 "/v1/" "/api/" else u1.

(** [id_fila and row.get("ID") != id_fila] *)
Definition other_row (id_fila : option string) (r : config_row) : bool :=
  match id_fila with
  | Some i =>
      (negb (String.eqb i "") &&
       negb (match Py.get_val r "ID" with
             | VStr s => String.eqb s i
             | _ => false
             end))%bool
  | None => false
  end.

(** The body of [for row in cfg]: the task of the row, if it is kept. *)
Definition plan_row (id_fila : option string) (r : config_row)
  : result (option task) :=
  if other_row id_fila r then Ok None
  else
    let tok := Py.get_val r "API Token" in
    let url := Py.or (Py.get_val r "API URL")
                     (VStr "https://api.bind.com.mx/api/Invoices") in
    f <- as_text (Py.or (Py.get_val r "Filtro") (VStr "")) ;;
    let cliente := Py.or (Py.get_val r "Cliente")
                         (VStr ("ID-" ++ str (Py.get_val r "ID"))) in
    if negb (Py.truthy tok) then Ok None
    else
      u <- as_text url ;;
      Ok (Some (mk_task cliente (Py.get_val r "Hoja destino ID")
                        (Py.get_val r "Reglas JSON")
                        (fix_url u) tok (Text.strip f))).

Fixpoint plan (id_fila : option string) (cfg : list config_row)
  : result (list task) :=
  match cfg with
  | [] => Ok []
  | r :: cfg' =>
      o <- plan_row id_fila r ;;
      ts <- plan id_fila cfg' ;;
      Ok (match o with Some t => t :: ts | None => ts end)
  end.

(** [asyncio.gather] with [return_exceptions=True]: the outcome of
    every task, in the order of the tasks; [i] is the index of the first. *)
Fixpoint gather (i : nat) (ts : list task) : list (result (list factura)) :=
  match ts with
  | [] => []
  | t :: ts' =>
      bind_get_all i (base_url t) (token t) (filtro t) :: gather (S i) ts'
  end.

Definition summary (res : result (list factura)) : sync_result :=
  match res with
  | Raise e => Failed e
  | Ok l => Count (List.length l)
  end.

(** The loop of [push_mode]: the write calls issued, in order. *)
Fixpoint push_all (i : nat) (ts : list task)
    (resultados : list (result (list factura))) : result (list api_call) :=
  match ts, resultados with
  | t :: ts', res :: rs' =>
      calls <-
        match res with
        | Raise _ => Ok []
        | Ok data =>
            if Py.truthy (dest_sheet t)
            then _push_to_sheet (get_sheet i (dest_sheet t)) data (rules t)
            else Ok []
        end ;;
      more <- push_all (S i) ts' rs' ;;
      Ok (calls ++ more)%list
  | _, _ => Ok []
  end.

(** The returned mapping, [{etiquetas[i]: ...}]: a label has to hash. *)
Fixpoint mapping (ts : list task) (resultados : list (result (list factura)))
    (d : dict value sync_result) : result (dict value sync_result) :=
  match ts, resultados with
  | t :: ts', res :: rs' =>
      if Py.hashable (etiqueta t)
      then mapping ts' rs' (dict_set Py.eqb d (etiqueta t) (summary res))
      else Raise TypeError
  | _, _ => Ok d
  end.

(** [_traer_facturas_por_empresas], from the rows of the configuration: the
    write calls issued and the mapping returned. *)
Definition _traer_facturas_por_empresas (cfg : list config_row)
    (id_fila : option string) (push_mode : bool)
  : result (list api_call * dict value sync_result) :=
  ts <- plan id_fila cfg ;;
  let resultados := gather O ts in
  calls <- (if push_mode then push_all O ts resultados else Ok []) ;;
  m <- mapping ts resultados [] ;;
  Ok (calls, m).

End Aggregator.

(** A cell of the configuration that holds text or is empty. *)
Definition falsy_or_text (v : value) : bool :=
  match v with
  | VStr _ => true
  | _ => negb (Py.truthy v)
  end.

(** The filter, the URL and the client of a row are text or empty. *)
Definition cfg_typed (r : config_row) : bool :=
  (falsy_or_text (Py.get_val r "Filtro") &&
   falsy_or_text (Py.get_val r "API URL") &&
   falsy_or_text (Py.get_val r "Cliente"))%bool.

Definition is_text (v : value) : Prop :=
  match v with
  | VStr _ => True
  | _ => False
  end.

(** ** The scheduler: [_job_runner] *)

Section Scheduler.

Context {RT : Runtime}.

(** [c.value is not None] *)
Definition has_value (c : cell) : bool :=
  match cell_value c with
  | VNone => false
  | _ => true
  end.

(** The body of [for c in row.cells]: [intervalo] and [ult_ejec] after
    [c]. *)
Definition scan_config_cell (col_int col_last : option positive)
    (st : Z * option Z) (c : cell) : Z * option Z :=
  let '(intervalo, ult_ejec) := st in
  (if (is_col col_int c && has_value c)%bool
   then try_except (Py.int (cell_value c)) 0
   else intervalo,
   if is_col col_last c then _parse_iso (raw_or_shown c) else ult_ejec).

Definition scan_config_row (col_int col_last : option positive) (r : row)
  : Z * option Z :=
  fold_left (scan_config_cell col_int col_last) (cells r) (0, None).

(** [(now_aware - ult_ejec).total_seconds() / 60 if ult_ejec else None].
    The two datetimes carry the same zone, so the difference is the one of
    their wall clocks, in microseconds; the quotient is taken exactly. *)
Definition mins_passed (now_aware : Z) (ult_ejec : option Z) : option Q :=
  match ult_ejec with
  | Some t => Some (Qmake (now_aware - t) 60000000)
  | None => None
  end.

(** [mins_passed is None or mins_passed >= intervalo] *)
Definition due (intervalo : Z) (mins : option Q) : bool :=
  match mins with
  | None => true
  | Some m => Qle_bool (inject_Z intervalo) m
  end.

(** What a tick does with a row. *)
Inductive decision : Type :=
| Idle     (** [intervalo <= 0]: the row is passed over *)
| Run      (** the cycle of the row is started *)
| Waiting. (** the interval has not elapsed *)

Definition row_decision (col_int col_last : option positive) (now_aware : Z)
    (r : row) : decision :=
  let '(intervalo, ult_ejec) := scan_config_row col_int col_last r in
  if intervalo <=? 0 then Idle
  else if due intervalo (mins_passed now_aware ult_ejec) then Run
  else Waiting.

End Scheduler.

(** ** The elapsed minutes as doubles *)

(** [x >= z] for a float and an integer: the exact values are compared. *)
Definition float_geb_int (x : Float.float) (z : Z) : bool :=
  match x with
  | S754_zero _ => z <=? 0
  | S754_infinity neg => negb neg
  | S754_nan => false
  | S754_finite s m e =>
      let a := if s then Zneg m else Zpos m in
      match e with
      | Zneg k => z * Zpos (2 ^ k)%positive <=? a
      | _ => z <=? a * 2 ^ e
      end
  end.

(** [td.total_seconds()] for a difference of [us] microseconds: the double
    nearest to [us / 10**6]. *)
Definition total_seconds (us : Z) : Float.float :=
  Float.of_ratio (us <? 0) (Z.abs us) 1000000.

(** [(now_aware - ult_ejec).total_seconds() / 60 if ult_ejec else None] as
    the interpreter computes it: the difference of the wall clocks is
    exact, and each of the two quotients is rounded to a double. *)
Definition mins_passed64 (now_aware : Z) (ult_ejec : option Z)
  : option Float.float :=
  match ult_ejec with
  | Some t =>
      Some (SFdiv Float.prec Float.emax (total_seconds (now_aware - t))
                  (Float.of_Z 60))
  | None => None
  end.

(** [mins_passed is None or mins_passed >= intervalo] on that double. *)
Definition due64 (intervalo : Z) (mins : option Float.float) : bool :=
  match mins with
  | None => true
  | Some m => float_geb_int m intervalo
  end.

(** What a tick does with a row, the minutes being doubles. *)
Definition row_decision64 {RT : Runtime} (col_int col_last : option positive)
    (now_aware : Z) (r : row) : decision :=
  let '(intervalo, ult_ejec) := scan_config_row col_int col_last r in
  if intervalo <=? 0 then Idle
  else if due64 intervalo (mins_passed64 now_aware ult_ejec) then Run
  else Waiting.

(** The ticks around the interval for a last execution read six hours
    ahead of the clock; they are taken [n] minutes after the write, one
    microsecond before the clock reaches the time read plus [n] minutes,
    and at that time. *)
Definition late_by_six_hours (n : Z) : bool :=
  (negb (due64 n (mins_passed64 (n * 60000000 - 21600000000) (Some 0)))
   && negb (due64 n (mins_passed64 (n * 60000000 - 1) (Some 0)))
   && due64 n (mins_passed64 (n * 60000000) (Some 0)))%bool.

(** ** The destination after the writes of a pass *)

(** The value a row holds in a column: the one of its last cell there. *)
Definition cell_at (r : row) (cid : positive) : option value :=
  option_map cell_value
    (find (fun c => Pos.eqb (column_id c) cid) (List.rev (cells r))).

(** [r] holds every cell of [cs]. *)
Definition row_holds (r : row) (cs : list cell_write) : Prop :=
  forall cid v, In (cid, v) cs -> cell_at r cid = Some v.

(** The sheet [after] reflects the inserts and the updates [b] made to the
    sheet [before]: the columns are the same, every insert is a row that
    holds its cells, and every update is held by the row of its id. *)
Definition reflects (before after : sheet) (b : batches) : Prop :=
  columns after = columns before /\
  (forall i, In i (fst b) ->
     exists r, In r (rows after) /\ row_holds r (ins_cells i)) /\
  (forall u, In u (snd b) ->
     exists r, In r (rows after) /\ row_id r = upd_id u /\
               row_holds r (upd_cells u)).

(** ** The destination once the writes of a pass are committed *)

(** The cell a write leaves: its value, shown as it is when it is text. *)
Definition written_cell (w : cell_write) : cell :=
  mk_cell (fst w) (snd w) (match snd w with VStr s => Some s | _ => None end).

(** A write replaces the cell of its column, or adds one. *)
Definition set_cell (cs : list cell) (w : cell_write) : list cell :=
  if existsb (fun c => Pos.eqb (column_id c) (fst w)) cs
  then map (fun c => if Pos.eqb (column_id c) (fst w) then written_cell w else c) cs
  else (cs ++ [written_cell w])%list.

(** An update rewrites the cells it names in the row of its id. *)
Definition apply_update (rs : list row) (u : update) : list row :=
  map (fun r => if Pos.eqb (row_id r) (upd_id u)
                then mk_row (row_id r) (fold_left set_cell (upd_cells u) (cells r))
                else r) rs.

(** An insert adds a row at the bottom, under the next free id. *)
Fixpoint append_rows (rs : list row) (next : positive) (ins : list insert)
  : list row :=
  match ins with
  | [] => rs
  | i :: ins' =>
      append_rows (rs ++ [mk_row next (fold_left set_cell (ins_cells i) [])])%list
                  (Pos.succ next) ins'
  end.

(** The sheet after the two calls of a pass: the inserts, then the updates,
    each batch in its order, so that of two updates of one row the later
    one is what the row holds. *)
Definition commit (sh : sheet) (b : batches) (next : positive) : sheet :=
  mk_sheet (columns sh)
           (fold_left apply_update (snd b) (append_rows (rows sh) next (fst b))).

(** ** A runtime for the examples

    The parsers of the interpreter on the inputs the examples use: JSON
    texts, dates [YYYY-MM-DD] and timestamps [YYYY-MM-DD?HH:MM:SS] with an
    optional offset [+HH:MM]. *)

Module Ref.

Definition dq : ascii := Text.chr 34.
Definition backslash : ascii := Text.chr 92.

(** The UTF-8 bytes of a code point; a lone surrogate is encoded like any
    other code point of its range. *)
Definition utf8 (n : N) : string :=
  let b (k : N) := Text.chr k in
  if N.ltb n 128 then String (b n) ""
  else if N.ltb n 2048 then
    String (b (192 + n / 64)%N) (String (b (128 + n mod 64)%N) "")
  else if N.ltb n 65536 then
    String (b (224 + n / 4096)%N)
      (String (b (128 + (n / 64) mod 64)%N) (String (b (128 + n mod 64)%N) ""))
  else
    String (b (240 + n / 262144)%N)
      (String (b (128 + (n / 4096) mod 64)%N)
         (String (b (128 + (n / 64) mod 64)%N) (String (b (128 + n mod 64)%N) ""))).

Definition hex_val (c : ascii) : option N :=
  let n := Text.code c in
  if Text.in_range 48 57 n then Some (n - 48)%N
  else if Text.in_range 97 102 n then Some (n - 87)%N
  else if Text.in_range 65 70 n then Some (n - 55)%N
  else None.

(** Four hexadecimal digits: their value and the rest. *)
Definition hex4 (s : string) : option (N * string) :=
  match s with
  | String a (String b (String c (String d r))) =>
      match hex_val a, hex_val b, hex_val c, hex_val d with
      | Some x, Some y, Some z, Some w =>
          Some (((x * 16 + y) * 16 + z) * 16 + w, r)%N
      | _, _, _, _ => None
      end
  | _ => None
  end.

(** The body of a JSON string, after its opening quote: the text and the
    rest after the closing quote. *)
Fixpoint json_string (fuel : nat) (s : string) : option (string * string) :=
  match fuel, s with
  | S n, String c r =>
      if Ascii.eqb c dq then Some ("", r)
      else if Ascii.eqb c backslash then
        match r with
        | String e r1 =>
            let lit (t : string) := option_map (fun p => (t ++ fst p, snd p))
                                               (json_string n r1) in
            if Ascii.eqb e dq then lit (String dq "")
            else if Ascii.eqb e backslash then lit (String backslash "")
            else if Ascii.eqb e "/" then lit "/"
            else if Ascii.eqb e "b" then lit (String (Text.chr 8) "")
            else if Ascii.eqb e "f" then lit (String (Text.chr 12) "")
            else if Ascii.eqb e "n" then lit (String (Text.chr 10) "")
            else if Ascii.eqb e "r" then lit (String (Text.chr 13) "")
            else if Ascii.eqb e "t" then lit (String (Text.chr 9) "")
            else if Ascii.eqb e "u" then
              match hex4 r1 with
              | Some (hi, r2) =>
                  let single := option_map (fun p => (utf8 hi ++ fst p, snd p))
                                           (json_string n r2) in
                  if Text.in_range 55296 56319 hi then
                    match r2 with
                    | String b1 (String b2 r3) =>
                        if (Ascii.eqb b1 backslash && Ascii.eqb b2 "u")%bool then
                          match hex4 r3 with
                          | Some (lo, r4) =>
                              if Text.in_range 56320 57343 lo then
                                option_map
                                  (fun p => (utf8 (65536 + (hi - 55296) * 1024
                                                   + (lo - 56320))%N ++ fst p, snd p))
                                  (json_string n r4)
                              else single
                          | None => single
                          end
                        else single
                    | _ => single
                    end
                  else single
              | None => None
              end
            else None
        | EmptyString => None
        end
      else if N.ltb (Text.code c) 32 then None
      else option_map (fun p => (String c (fst p), snd p)) (json_string n r)
  | _, _ => None
  end.

Fixpoint skip_ws (s : string) : string :=
  match s with
  | String c r =>
      let n := Text.code c in
      if (N.eqb n 32 || N.eqb n 9 || N.eqb n 10 || N.eqb n 13)%bool
      then skip_ws r else s
  | EmptyString => s
  end.

(** The longest prefix of decimal digits and the rest. *)
Fixpoint span_digits (s : string) : string * string :=
  match s with
  | String c r =>
      if Py.is_digit c
      then let '(d, r') := span_digits r in (String c d, r')
      else ("", s)
  | EmptyString => ("", s)
  end.

(** A JSON number: an optional minus, the digits of an integer that has
    no leading zero, then an optional fraction and an optional exponent; an
    integer when it has no fraction and no exponent. *)
Definition json_number (s : string) : option (value * string) :=
  let '(neg, s1) := match s with
                    | String "-" r => (true, r)
                    | _ => (false, s)
                    end in
  let '(ip, s2) := span_digits s1 in
  let '(ip, s2) := match ip with
                   | String "0" (String _ _) => ("0", String.substring 1 (String.length s1) s1)
                   | _ => (ip, s2)
                   end in
  match ip with
  | EmptyString => None
  | _ =>
      let '(fp, s3) :=
        match s2 with
        | String "." r =>
            let '(d, r') := span_digits r in
            match d with
            | EmptyString => ("", s2)
            | _ => (String "." d, r')
            end
        | _ => ("", s2)
        end in
      let '(ep, s4) :=
        match s3 with
        | String c r =>
            if (Ascii.eqb c "e" || Ascii.eqb c "E")%bool then
              let '(sg, r1) := match r with
                               | String "-" r1 => ("-", r1)
                               | String "+" r1 => ("+", r1)
                               | _ => ("", r)
                               end in
              let '(d, r2) := span_digits r1 in
              match d with
              | EmptyString => ("", s3)
              | _ => (String c (sg ++ d), r2)
              end
            else ("", s3)
        | EmptyString => ("", s3)
        end in
      let txt := (if neg then "-" else "") ++ ip ++ fp ++ ep in
      match fp, ep with
      | EmptyString, EmptyString =>
          option_map (fun z => (VInt z, s4)) (Py.int_of_str txt)
      | _, _ => option_map (fun f => (VFloat f, s4)) (Py.float_of_str txt)
      end
  end.

(** A JSON value at the head of [s], and the rest. *)
Fixpoint json_value (fuel : nat) (s : string) : option (value * string) :=
  match fuel with
  | O => None
  | S n =>
      match skip_ws s with
      | String c r =>
          if Ascii.eqb c "{" then
            match skip_ws r with
            | String "}" r' => Some (VDict [], r')
            | _ => json_members n r []
            end
          else if Ascii.eqb c "[" then
            match skip_ws r with
            | String "]" r' => Some (VList [], r')
            | _ => json_elements n r []
            end
          else if Ascii.eqb c dq then
            option_map (fun p => (VStr (fst p), snd p))
                       (json_string (String.length r) r)
          else if Text.prefix "null" (String c r)
               then Some (VNone, String.substring 4 (String.length r) (String c r))
          else if Text.prefix "true" (String c r)
               then Some (VBool true, String.substring 4 (String.length r) (String c r))
          else if Text.prefix "false" (String c r)
               then Some (VBool false, String.substring 5 (String.length r) (String c r))
          else if Text.prefix "NaN" (String c r)
               then Some (VFloat Float.nan, String.substring 3 (String.length r) (String c r))
          else if Text.prefix "Infinity" (String c r)
               then Some (VFloat (Float.infinity false),
                          String.substring 8 (String.length r) (String c r))
          else if Text.prefix "-Infinity" (String c r)
               then Some (VFloat (Float.infinity true),
                          String.substring 9 (String.length r) (String c r))
          else json_number (String c r)
      | EmptyString => None
      end
  end
with json_elements (fuel : nat) (s : string) (acc : list value)
  : option (value * string) :=
  match fuel with
  | O => None
  | S n =>
      match json_value n s with
      | Some (v, r) =>
          match skip_ws r with
          | String "," r' => json_elements n r' (acc ++ [v])
          | String "]" r' => Some (VList (acc ++ [v]), r')
          | _ => None
          end
      | None => None
      end
  end
with json_members (fuel : nat) (s : string) (acc : list (string * value))
  : option (value * string) :=
  match fuel with
  | O => None
  | S n =>
      match skip_ws s with
      | String c r =>
          if Ascii.eqb c dq then
            match json_string (String.length r) r with
            | Some (k, r1) =>
                match skip_ws r1 with
                | String ":" r2 =>
                    match json_value n r2 with
                    | Some (v, r3) =>
                        match skip_ws r3 with
                        | String "," r4 =>
                            json_members n r4 (dict_set String.eqb acc k v)
                        | String "}" r4 =>
                            Some (VDict (dict_set String.eqb acc k v), r4)
                        | _ => None
                        end
                    | None => None
                    end
                | _ => None
                end
            | None => None
            end
          else None
      | EmptyString => None
      end
  end.

(** [json.loads(s)] *)
Definition loads (s : string) : option value :=
  match json_value (2 * String.length s + 2) s with
  | Some (v, r) => match skip_ws r with
                   | EmptyString => Some v
                   | _ => None
                   end
  | None => None
  end.

Definition is_leap (y : Z) : bool :=
  ((y mod 4 =? 0) && (negb (y mod 100 =? 0) || (y mod 400 =? 0)))%bool.

Definition days_in_month (y m : Z) : Z :=
  if m =? 2 then (if is_leap y then 29 else 28)
  else if ((m =? 4) || (m =? 6) || (m =? 9) || (m =? 11))%bool then 30
  else 31.

Fixpoint days_before_month (y : Z) (m : nat) : Z :=
  match m with
  | O => 0
  | S k => days_before_month y k + days_in_month y (Z.of_nat k + 1)
  end.

(** The days from 0001-01-01 to the given day. *)
Definition days_from_civil (y m d : Z) : Z :=
  365 * (y - 1) + (y - 1) / 4 - (y - 1) / 100 + (y - 1) / 400
  + days_before_month y (Z.to_nat (m - 1)) + (d - 1).

(** A number of exactly [n] decimal digits at the head of [s]. *)
Fixpoint number (n : nat) (s : string) (acc : Z) : option (Z * string) :=
  match n with
  | O => Some (acc, s)
  | S k =>
      match s with
      | String c r =>
          if Py.is_digit c then number k r (10 * acc + Py.digit_val c) else None
      | EmptyString => None
      end
  end.

(** A date [YYYY-MM-DD] at the head of [s]: its day number and the rest. *)
Definition civil (s : string) : option (Z * string) :=
  match number 4 s 0 with
  | Some (y, String "-" s1) =>
      match number 2 s1 0 with
      | Some (m, String "-" s2) =>
          match number 2 s2 0 with
          | Some (d, r) =>
              if ((1 <=? y) && (1 <=? m) && (m <=? 12)
                  && (1 <=? d) && (d <=? days_in_month y m))%bool
              then Some (days_from_civil y m d, r) else None
          | None => None
          end
      | _ => None
      end
  | _ => None
  end.

(** [date.fromisoformat(s).isoformat()] for [s] of the form [YYYY-MM-DD] *)
Definition date_iso (s : string) : option string :=
  match civil s with
  | Some (_, EmptyString) => Some s
  | _ => None
  end.

(** A time [HH:MM] or [HH:MM:SS] at the head of [s], in microseconds. *)
Definition clock (s : string) : option (Z * string) :=
  match number 2 s 0 with
  | Some (h, String ":" s1) =>
      match number 2 s1 0 with
      | Some (m, r) =>
          if ((h <=? 23) && (m <=? 59))%bool then
            match r with
            | String ":" s2 =>
                match number 2 s2 0 with
                | Some (sec, r') =>
                    if sec <=? 59
                    then Some (((h * 60 + m) * 60 + sec) * 1000000, r')
                    else None
                | None => None
                end
            | _ => Some ((h * 60 + m) * 60 * 1000000, r)
            end
          else None
      | None => None
      end
  | _ => None
  end.

(** [datetime.fromisoformat(s)] for [s] of the form [YYYY-MM-DD], or that
    followed by one character, a time and an optional offset [+HH:MM]. *)
Definition datetime_iso (s : string) : option datetime :=
  match civil s with
  | Some (days, EmptyString) => Some (mk_datetime (days * 86400000000) None)
  | Some (days, String _ s1) =>
      match clock s1 with
      | Some (t, r) =>
          let w := days * 86400000000 + t in
          match r with
          | EmptyString => Some (mk_datetime w None)
          | String c s2 =>
              if (Ascii.eqb c "+" || Ascii.eqb c "-")%bool then
                match clock s2 with
                | Some (off, EmptyString) =>
                    Some (mk_datetime w (Some (if Ascii.eqb c "-" then - off else off)))
                | _ => None
                end
              else None
          end
      | None => None
      end
  | None => None
  end.

(** [astimezone]: the zone is six hours behind UTC, as it is at every date
    from 2022-10-30 on. *)
Definition to_mx (dt : datetime) : option Z :=
  match utcoffset dt with
  | Some off => Some (wall dt - off - 6 * 3600000000)
  | None => None
  end.

(** No example takes the text of a float or of a container. *)
#[export] Instance runtime : Runtime := {
  repr_obj := fun _ => "";
  date_isoformat := date_iso;
  json_loads := loads;
  datetime_fromisoformat := datetime_iso;
  astimezone_mx := to_mx
}.

End Ref.

(** ** The record and the sheet of the scenario *)

Module Scenario.

(** The double of the literal [100.004]. *)
Definition total : Float.float := Float.of_decimal false 100004 (-3).

(** The double of the literal [100.00]. *)
Definition rounded : Float.float := Float.of_decimal false 10000 (-2).

(** [{UUID: "A1", Date: "2025-07-01", RFC: "abc123", Total: 100.004,
    CFDIUse: "G01"}] *)
Definition fac : factura :=
  [("UUID", VStr "A1"); ("Date", VStr "2025-07-01"); ("RFC", VStr "abc123");
   ("Total", VFloat total); ("CFDIUse", VStr "G01")].

(** An empty sheet with the columns of the default rules. *)
Definition empty_sheet : sheet :=
  mk_sheet [mk_column 11 "UUID"; mk_column 12 "Fecha emisión";
            mk_column 13 "RFC Receptor"; mk_column 14 "Total";
            mk_column 15 "Tipo CFDI"] [].

(** A second record, new to the sheet, and a record that maps to no
    cell. *)
Definition fac_new : factura :=
  [("UUID", VStr "B2"); ("Date", VStr "2025-07-02"); ("RFC", VStr "def456");
   ("Total", VInt 250); ("CFDIUse", VStr "G03")].

Definition fac_unmapped : factura := [("Folio", VStr "77")].

Definition text_cell (col : positive) (s : string) : cell :=
  mk_cell col (VStr s) (Some s).

(** A sheet of three rows: row 101 holds the UUID of [fac] under another
    signature; rows 102 and 103 hold the signature of [fac] and no UUID;
    row 104 has no cell in a signature column. *)
Definition sheet3 : sheet :=
  mk_sheet (columns empty_sheet)
    [mk_row 101 [text_cell 11 "A1"; text_cell 12 "2025-06-01";
                 text_cell 13 "XYZ010101AAA";
                 mk_cell 14 (VInt 50) (Some "50"); text_cell 15 "G03"];
     mk_row 102 [text_cell 12 "2025-07-01"; text_cell 13 "ABC123";
                 mk_cell 14 (VInt 100) (Some "100"); text_cell 15 "G01"];
     mk_row 103 [text_cell 12 "2025-07-01"; text_cell 13 " abc123";
                 mk_cell 14 (VFloat rounded) None; text_cell 15 "G01"];
     mk_row 104 [mk_cell 16 (VStr "nota") None]].

Definition items : list (string * string) :=
  [("UUID", "UUID"); ("Date", "Fecha emisión"); ("RFC", "RFC Receptor");
   ("Total", "Total"); ("CFDIUse", "Tipo CFDI")].

Definition col_map : dict string positive := col_map_of (columns empty_sheet).

(** The signature of [fac]. *)
Definition key : signature := (VStr "2025-07-01", "ABC123", rounded, "G01").

(** [sheet3] after a pass over [fac] and [fac_new]: row 101 holds the
    cells of [fac], and the new row 105 those of [fac_new]. *)
Definition sheet3_after : sheet :=
  mk_sheet (columns empty_sheet)
    [mk_row 101 [text_cell 11 "A1"; text_cell 12 "2025-07-01";
                 text_cell 13 "abc123";
                 mk_cell 14 (VFloat total) (Some "100.004"); text_cell 15 "G01"];
     mk_row 102 [text_cell 12 "2025-07-01"; text_cell 13 "ABC123";
                 mk_cell 14 (VInt 100) (Some "100"); text_cell 15 "G01"];
     mk_row 103 [text_cell 12 "2025-07-01"; text_cell 13 " abc123";
                 mk_cell 14 (VFloat rounded) None; text_cell 15 "G01"];
     mk_row 104 [mk_cell 16 (VStr "nota") None];
     mk_row 105 [text_cell 11 "B2"; text_cell 12 "2025-07-02";
                 text_cell 13 "def456";
                 mk_cell 14 (VInt 250) (Some "250"); text_cell 15 "G03"]].

(** The writes of that pass. *)
Definition first_pass : batches :=
  ([mk_insert [(11%positive, VStr "B2"); (12%positive, VStr "2025-07-02");
               (13%positive, VStr "def456"); (14%positive, VInt 250);
               (15%positive, VStr "G03")]],
   [mk_update 101 [(11%positive, VStr "A1"); (12%positive, VStr "2025-07-01");
                   (13%positive, VStr "abc123"); (14%positive, VFloat total);
                   (15%positive, VStr "G01")]]).

(** Three accounts, and two accounts under one name. *)
Definition account (id name tok : string) : config_row :=
  [("ID", VStr id); ("Cliente", VStr name); ("API Token", VStr tok);
   ("API URL", VNone); ("Filtro", VNone); ("Hoja destino ID", VNone);
   ("Reglas JSON", VNone)].

Definition cfg3 : list config_row :=
  [account "1" "Norte" "t1"; account "2" "Centro" "t2"; account "3" "Sur" "t3"].

Definition cfg_same_name : list config_row :=
  [account "1" "ACME" "t1"; account "2" "ACME" "t2"].

(** The fetch of the second account times out. *)
Definition second_times_out (i : nat) (_ : string) (_ : value) (_ : string)
  : result (list factura) :=
  match i with
  | 1%nat => Raise TimeoutError
  | _ => Ok [fac; fac_new]
  end.

(** The fetch of the first account times out. *)
Definition first_times_out (i : nat) (_ : string) (_ : value) (_ : string)
  : result (list factura) :=
  match i with
  | O => Raise TimeoutError
  | _ => Ok [fac; fac_new]
  end.

Definition no_sheet (_ : nat) (_ : value) : result sheet := Raise (HTTPError 404).

(** The rules [{"map": 5}]. *)
Definition rules_map_5 : string :=
  "{" ++ String Ref.dq "map" ++ String Ref.dq ": 5}".

(** A row of the configuration sheet: the interval in column 21, the last
    execution in column 22. *)
Definition config_row_at (last : string) : row :=
  mk_row 201 [mk_cell 21 (VInt 30) (Some "30"); text_cell 22 last].

(** 2025-07-05T10:00:00 on the wall clock, in microseconds. *)
Definition ten_o_clock : Z := 63887306400000000.

End Scenario.

(** ** Vocabulary of the properties *)

Section DictVocabulary.

Variables K V : Type.
Variable keq : K -> K -> bool.

(** The keys of [d] are among the keys in use [P]. *)
Definition keys_in (P : K -> Prop) (d : dict K V) : Prop :=
  Forall (fun kv => P (fst kv)) d.

(** The entries written one after the other: a key reads the value of the
    last entry written under an equal key. *)
Definition last_written (kvs : list (K * V)) (k : K) : option V :=
  option_map snd (find (fun kv => keq k (fst kv)) (List.rev kvs)).

Definition write_all (d : dict K V) (kvs : list (K * V)) : dict K V :=
  fold_left (fun d kv => dict_set keq d (fst kv) (snd kv)) kvs d.

End DictVocabulary.

(** Two floats that compare equal. *)
Definition same_float (x y : Float.float) : Prop :=
  match x, y with
  | S754_zero _, S754_zero _ => True
  | S754_infinity s1, S754_infinity s2 => s1 = s2
  | S754_finite s1 m1 e1, S754_finite s2 m2 e2 => s1 = s2 /\ m1 = m2 /\ e1 = e2
  | _, _ => False
  end.

Section Vocabulary.

Context {RT : Runtime}.

(** The date of a signature: [_iso(date or "") or ""] is text when [date]
    is text or nothing. *)
Definition iso_date (date : value) : value :=
  Py.or (_iso (Py.or date (VStr ""))) (VStr "").

Definition apply_outcome (acc : batches) (o : outcome) : batches :=
  match o with
  | Skipped => acc
  | Inserted i => ((fst acc ++ [i])%list, snd acc)
  | Updated u => (fst acc, (snd acc ++ [u])%list)
  end.


Section Rows.

Variable uuid_col_id : option positive.
Variable sig_cols : list (option positive).

(** The identity and the signature a row is indexed under. *)
Definition row_uuid (r : row) : option string :=
  some_text (fst (scan_row uuid_col_id sig_cols r)).

Definition row_sig (r : row) : result signature :=
  row_signature (snd (scan_row uuid_col_id sig_cols r)).

(** The cells read as date and tax id are text or nothing. *)
Definition row_typed (r : row) : bool :=
  let vals := snd (scan_row uuid_col_id sig_cols r) in
  (text_or_none (nth 0 vals VNone) && text_or_none (nth 1 vals VNone))%bool.

Definition uuid_entries (rs : list row) : list (string * positive) :=
  flat_map (fun r => match row_uuid r with
                     | Some u => [(u, row_id r)]
                     | None => []
                     end) rs.

Definition sig_entries (rs : list row) : list (signature * positive) :=
  flat_map (fun r => match row_sig r with
                     | Ok k => [(k, row_id r)]
                     | Raise _ => []
                     end) rs.

(** [r] is indexed under a signature equal to [k]. *)
Definition has_sig (k : signature) (r : row) : bool :=
  match row_sig r with
  | Ok k' => sig_eqb k k'
  | Raise _ => false
  end.

(** No cell of [r] stands in a signature column. *)
Definition no_sig_cell (r : row) : Prop :=
  forall c cid, In c (cells r) -> In cid sig_cols -> is_col cid c = false.

End Rows.

Section Tasks.

Variable bind_get_all : nat -> string -> value -> string -> result (list factura).

(** The entry of a task: the summary of its own outcome. *)
Definition entry_of (i : nat) (t : task) : sync_result :=
  summary (bind_get_all i (base_url t) (token t) (filtro t)).

End Tasks.

End Vocabulary.

(** ** The fetch of one account: [build_url] and [bind_get_all] *)

(** [build_url] *)
Definition build_url (base : string) (filtro : option string) : string :=
  match filtro with
  | None => base
  | Some f =>
      if String.eqb f "" then base
      else
        let clean := Text.strip f in
        let clean := if Text.startswith clean "?"
                     then String.substring 1 (String.length clean) clean
                     else clean in
        let clean := if Text.startswith (Text.lower clean) "$filter="
                     then clean else "$filter=" ++ clean in
        let sep := if Text.contains base "?" then "&" else "?" in
        base ++ sep ++ clean
  end.

(** The characters of a text, one text each: a byte from 128 to 191
    continues the character before it. *)
Fixpoint chars (s : string) : list string :=
  match s with
  | EmptyString => []
  | String a r =>
      match r with
      | String b _ =>
          if Text.in_range 128 191 (Text.code b) then
            match chars r with
            | c :: cs => String a c :: cs
            | [] => [String a ""]
            end
          else String a "" :: chars r
      | EmptyString => [String a ""]
      end
  end.

(** [list.extend(v)]: the items of a list, the characters of a text, the
    keys of a dict; any other value is not iterable. *)
Definition iterate (v : value) : result (list value) :=
  match v with
  | VList l => Ok l
  | VStr s => Ok (map VStr (chars s))
  | VDict d => Ok (map (fun kv => VStr (fst kv)) d)
  | VNone | VBool _ | VInt _ | VFloat _ => Raise TypeError
  end.

Section Fetch.

(** The client of one call of [bind_get_all]: the outcome of the request
    number [page] to [url], after [raise_for_status] and [r.json()]. *)
Variable client_get : nat -> string -> result value.

(** What one turn of the loop does with the page it got: the items to add
    and the next [url]. *)
Definition read_page (page : nat) (url : value) : result (list value * value) :=
  match url with
  | VStr u =>
      js <- client_get page u ;;
      match js with
      | VDict d =>
          items <- iterate (match Py.get d "value" with
                            | Some v => v
                            | None => VList []
                            end) ;;
          Ok (items, Py.get_val d "nextLink")
      | _ => Raise AttributeError
      end
  | _ => Raise TypeError
  end.

(** [while url: ...]: [None] when [fuel] turns of the loop do not end it. *)
Fixpoint fetch_pages (fuel : nat) (page : nat) (url : value)
    (facturas : list value) : option (result (list value)) :=
  if negb (Py.truthy url) then Some (Ok facturas)
  else
    match fuel with
    | O => None
    | S n =>
        match read_page page url with
        | Raise e => Some (Raise e)
        | Ok (items, next) =>
            fetch_pages n (S page) next (facturas ++ items)%list
        end
    end.

(** [bind_get_all] *)
Definition bind_get_all (fuel : nat) (base_url : string)
    (filtro : option string) : option (result (list value)) :=
  fetch_pages fuel 1 (VStr (build_url base_url filtro)) [].

(** The pages served from [url] on: each request succeeds with an object
    whose [value] can be iterated, and the last page has no [nextLink]. *)
Inductive serves : nat -> value -> list (list value) -> Prop :=
| serves_end page url :
    Py.truthy url = false -> serves page url []
| serves_page page url items next rest :
    Py.truthy url = true ->
    read_page page url = Ok (items, next) ->
    serves (S page) next rest ->
    serves page url (items :: rest).

(** The request that fails after [n] pages served. *)
Inductive breaks : nat -> value -> nat -> exn -> Prop :=
| breaks_here page url e :
    Py.truthy url = true ->
    read_page page url = Raise e -> breaks page url O e
| breaks_later page url items next n e :
    Py.truthy url = true ->
    read_page page url = Ok (items, next) ->
    breaks (S page) next n e ->
    breaks page url (S n) e.

End Fetch.

(** ** The configuration as JSON: [sheet_to_json], [bind_config] *)

(** [c.display_value if c.display_value is not None else c.value] *)
Definition cell_json (c : cell) : value :=
  match display_value c with
  | Some s => VStr s
  | None => cell_value c
  end.

(** [{h: ... for h, c in zip(headers, r.cells)}] *)
Definition row_json (headers : list string) (r : row) : list (string * value) :=
  dict_of String.eqb (combine headers (map cell_json (cells r))).

(** [sheet_to_json]: [header] and [data]. *)
Definition sheet_to_json (sh : sheet) : list string * list (list (string * value)) :=
  let headers := map title (columns sh) in
  (headers, map (row_json headers) (rows sh)).

(** [rows_as_dict] of the sheet read. *)
Definition rows_as_dict (sh : sheet) : list config_row := snd (sheet_to_json sh).

(** [bind_config]: the keys of the first row, and the rows. *)
Definition bind_config (sh : sheet) : list string * list config_row :=
  let data := rows_as_dict sh in
  (match data with
   | r :: _ => map fst r
   | [] => []
   end, data).

(** ** Vocabulary of the further properties *)

(** Every byte of [s] satisfies [p]. *)
Fixpoint all_bytes (p : ascii -> bool) (s : string) : bool :=
  match s with
  | EmptyString => true
  | String a r => (p a && all_bytes p r)%bool
  end.

(** A byte of a slug: ASCII, no space, no capital letter. *)
Definition slug_byte (c : ascii) : bool :=
  (N.ltb (Text.code c) 128 && negb (N.eqb (Text.code c) 32)
   && negb (Text.in_range 65 90 (Text.code c)))%bool.

(** [row.get("ID") == i] *)
Definition has_id (i : string) (r : config_row) : bool :=
  match Py.get_val r "ID" with
  | VStr s => String.eqb s i
  | _ => false
  end.

Section PushVocabulary.

Context {RT : Runtime}.

Variable get_sheet : nat -> value -> result sheet.

(** What the loop of [push_mode] does for the [i]-th kept row. *)
Definition push_of (i : nat) (t : task) (res : result (list factura))
  : result (list api_call) :=
  match res with
  | Raise _ => Ok []
  | Ok data =>
      if Py.truthy (dest_sheet t)
      then _push_to_sheet (get_sheet i (dest_sheet t)) data (rules t)
      else Ok []
  end.

End PushVocabulary.

(** The cells of an entry: one at least, each in a column of the sheet. *)
Definition cells_in (sh : sheet) (cs : list cell_write) : Prop :=
  cs <> [] /\
  Forall (fun cw => In (fst cw) (map col_id (columns sh))) cs.

(** A call that the sheet can take: entries, each with cells of the sheet,
    and every update on a row of the sheet. *)
Definition well_formed (sh : sheet) (c : api_call) : Prop :=
  match c with
  | POST ins =>
      ins <> [] /\ Forall (fun i => cells_in sh (ins_cells i)) ins
  | PUT upd =>
      upd <> [] /\
      Forall (fun u => In (upd_id u) (map row_id (rows sh)) /\
                       cells_in sh (upd_cells u)) upd
  end.

(** ** The timestamps of a row: [_actualizar_timestamps] *)

(** [fila]: the row sent to [update_rows], with its two cells. A column
    that the sheet does not have leaves [None] as the column id. *)
Record fila : Type := mk_fila {
  fila_id : positive;
  fila_cells : list (option positive * value)
}.

(** The last microsecond of the year 9999, [datetime.max]. *)
Definition max_wall : Z := 3652059 * 86400000000 - 1.

(** [dt + timedelta(minutes=n)]: the delta has at most 999999999 days, and
    the sum is a date of the years 1 to 9999. *)
Definition add_minutes (dt n : Z) : result Z :=
  if 999999999 <? Z.abs (n / 1440) then Raise OverflowError
  else
    let r := dt + n * 60000000 in
    if ((0 <=? r) && (r <=? max_wall))%bool then Ok r else Raise OverflowError.

Section Timestamps.

(** [dt.isoformat()] for the UTC datetime of wall clock [dt]. *)
Variable utc_isoformat : Z -> string.

(** [dt.isoformat().replace("+00:00", "Z")] *)
Definition stamp_text (dt : Z) : string :=
  Text.replace (utc_isoformat dt) "+00:00" "Z".

(** [_actualizar_timestamps] at the UTC time [now_utc]: the row it sends. *)
Definition _actualizar_timestamps (now_utc : Z) (r : row)
    (col_last col_next : option positive) (intervalo_minutos : Z)
  : result fila :=
  let ahora_dt := now_utc - now_utc mod 1000000 in
  let ahora := stamp_text ahora_dt in
  prox_dt <- add_minutes ahora_dt intervalo_minutos ;;
  let prox := stamp_text prox_dt in
  Ok (mk_fila (row_id r) [(col_last, VStr ahora); (col_next, VStr prox)]).

End Timestamps.

(** A byte that is neither [+] nor [Z]. *)
Definition plain_byte (c : ascii) : bool :=
  (negb (Ascii.eqb "+" c) && negb (Ascii.eqb "Z" c))%bool.

(** [fila_id] of [_job_runner]: [row.cells[0].display_value if row.cells
    else None], the [id_fila] of the cycle of the row. *)
Definition job_id (r : row) : option string :=
  match cells r with
  | c :: _ => display_value c
  | [] => None
  end.

(** ** The cycle of a due row *)

Section Cycle.

Context {RT : Runtime}.

Variable bind_get_all : nat -> string -> value -> string -> result (list factura).
Variable get_sheet : nat -> value -> result sheet.
Variable utc_isoformat : Z -> string.

(** The [try] of [_job_runner] for a due row: the aggregator in push mode
    on the configuration [cfg], then the timestamps. An exception of either
    is logged; the result is the row sent to [update_rows], if any. *)
Definition cycle (cfg : list config_row) (now_utc : Z) (r : row)
    (col_last col_next : option positive) (intervalo : Z) : option fila :=
  match (_ <- _traer_facturas_por_empresas bind_get_all get_sheet cfg
                (job_id r) true ;;
         _actualizar_timestamps utc_isoformat now_utc r col_last col_next
                                intervalo) with
  | Ok sent => Some sent
  | Raise _ => None
  end.

End Cycle.

(** ** Sample data of the further properties *)

Module Samples.

(** A server whose every page links to the URL it was asked for. *)
Definition self_link (_ : nat) (url : string) : result value :=
  Ok (VDict [("value", VList [VInt 1]); ("nextLink", VStr url)]).

(** An account that writes to sheet 7 under the rules [{"map": 5}], and
    one that writes to sheet 8 under the default rules. *)
Definition bad_rules : config_row :=
  [("ID", VStr "1"); ("Cliente", VStr "Norte"); ("API Token", VStr "t1");
   ("API URL", VNone); ("Filtro", VNone); ("Hoja destino ID", VStr "7");
   ("Reglas JSON", VStr Scenario.rules_map_5)].

Definition good_rules : config_row :=
  [("ID", VStr "2"); ("Cliente", VStr "Sur"); ("API Token", VStr "t2");
   ("API URL", VNone); ("Filtro", VNone); ("Hoja destino ID", VStr "8");
   ("Reglas JSON", VNone)].

Definition fetched (_ : nat) (_ : string) (_ : value) (_ : string)
  : result (list factura) := Ok [Scenario.fac].

Definition opened (_ : nat) (_ : value) : result sheet := Ok Scenario.sheet3.

(** Every fetch times out. *)
Definition all_time_out (_ : nat) (_ : string) (_ : value) (_ : string)
  : result (list factura) := Raise TimeoutError.

(** [n] decimal digits of [z], the last ones. *)
Fixpoint digits (n : nat) (z : Z) : string :=
  match n with
  | O => EmptyString
  | S k => digits k (z / 10) ++ String (Text.chr (Z.to_N (48 + z mod 10))) ""
  end.

(** The date of the day number [n], counted from 0001-01-01. *)
Definition civil_of_days (n : Z) : Z * Z * Z :=
  let z := n + 306 in
  let era := z / 146097 in
  let doe := z - era * 146097 in
  let yoe := (doe - doe / 1460 + doe / 36524 - doe / 146096) / 365 in
  let doy := doe - (365 * yoe + yoe / 4 - yoe / 100) in
  let mp := (5 * doy + 2) / 153 in
  let d := doy - (153 * mp + 2) / 5 + 1 in
  let m := if mp <? 10 then mp + 3 else mp - 9 in
  (yoe + era * 400 + (if m <=? 2 then 1 else 0), m, d).

(** [isoformat()] of a UTC datetime without microseconds. *)
Definition utc_isoformat (w : Z) : string :=
  let secs := w / 1000000 in
  let '(y, m, d) := civil_of_days (secs / 86400) in
  let t := secs mod 86400 in
  digits 4 y ++ "-" ++ digits 2 m ++ "-" ++ digits 2 d ++ "T"
  ++ digits 2 (t / 3600) ++ ":" ++ digits 2 (t / 60 mod 60) ++ ":"
  ++ digits 2 (t mod 60) ++ "+00:00".

(** A row of the configuration with no interval that can be read. *)
Definition no_interval : row :=
  mk_row 202 [mk_cell 21 (VStr "cada hora") (Some "cada hora");
              Scenario.text_cell 22 "2025-07-05T10:00:00"].

(** A sheet whose one row holds the UUID of [Scenario.fac_new] and the
    signature of [Scenario.fac]. *)
Definition shared_row : sheet :=
  mk_sheet (columns Scenario.empty_sheet)
    [mk_row 201 [Scenario.text_cell 11 "B2"; Scenario.text_cell 12 "2025-07-01";
                 Scenario.text_cell 13 "ABC123";
                 mk_cell 14 (VInt 100) (Some "100"); Scenario.text_cell 15 "G01"]].

(** The cells of [Scenario.fac] and of [Scenario.fac_new], and the writes
    of a pass over the two records on [shared_row]. *)
Definition cells_a1 : list cell_write :=
  [(11%positive, VStr "A1"); (12%positive, VStr "2025-07-01");
   (13%positive, VStr "abc123"); (14%positive, VFloat Scenario.total);
   (15%positive, VStr "G01")].

Definition cells_b2 : list cell_write :=
  [(11%positive, VStr "B2"); (12%positive, VStr "2025-07-02");
   (13%positive, VStr "def456"); (14%positive, VInt 250);
   (15%positive, VStr "G03")].

Definition shared_writes : batches :=
  ([], [mk_update 201 cells_a1; mk_update 201 cells_b2]).

(** A configuration sheet of two accounts; the second row shows no id. *)
Definition first_account : row :=
  mk_row 201 [Scenario.text_cell 20 "1"; Scenario.text_cell 23 "t1";
              mk_cell 21 (VInt 30) (Some "30")].

Definition config_sheet : sheet :=
  mk_sheet [mk_column 20 "ID"; mk_column 23 "API Token";
            mk_column 21 "Intervalo (minutos)"]
    [first_account;
     mk_row 202 [mk_cell 20 VNone None; Scenario.text_cell 23 "t2";
                 mk_cell 21 (VInt 60) (Some "60")]].

(** The row of the first account once its cycle of 16:00 UTC is stamped. *)
Definition stamped_row : row :=
  mk_row 201 [Scenario.text_cell 20 "1"; Scenario.text_cell 23 "t1";
              mk_cell 21 (VInt 30) (Some "30");
              Scenario.text_cell 22 "2025-07-05T16:00:00Z"].

(** 2025-07-05T16:00:00.250000 in UTC, which is 10:00 in Mexico City. *)
Definition four_utc : Z := Scenario.ten_o_clock + 6 * 3600000000 + 250000.

End Samples.

Section ResolutionVocabulary.

Context {RT : Runtime}.

Variable uuid_col_id : option positive.
Variable sig_cols : list (option positive).

(** [r] is indexed under the identity [uuid_val]. *)
Definition has_uuid (uuid_val : string) (r : row) : bool :=
  match row_uuid uuid_col_id sig_cols r with
  | Some u => String.eqb uuid_val u
  | None => false
  end.

(** The row of a record with the identity [uuid_val] and the signature
    [k]: the last row of that identity, if the identity is not empty and
    a row has it, else the last row of an equal signature. *)
Definition resolved_row (rs : list row) (uuid_val : string) (k : signature)
  : option row :=
  match (if String.eqb uuid_val "" then None
         else find (has_uuid uuid_val) (List.rev rs)) with
  | Some r => Some r
  | None => find (has_sig uuid_col_id sig_cols k) (List.rev rs)
  end.

End ResolutionVocabulary.

(** * Properties *)

Lemma find_snoc {A : Type} (f : A -> bool) (l : list A) (x : A) :
  find f (l ++ [x]) =
  match find f l with
  | Some y => Some y
  | None => if f x then Some x else None
  end.
Proof.
  induction l as [|a l IH]; simpl; [reflexivity|].
  destruct (f a); [reflexivity | exact IH].
Qed.

(** ** Dictionaries under a partial equivalence of keys *)

Section DictFacts.

Variables K V : Type.
Variable keq : K -> K -> bool.

(** The keys in use: [keq] is symmetric and transitive on them. It need not
    be reflexive: a key that holds a nan equals no key. *)
Variable P : K -> Prop.
Hypothesis keq_sym : forall a b, P a -> P b -> keq a b = true -> keq b a = true.
Hypothesis keq_trans :
  forall a b c, P a -> P b -> P c ->
    keq a b = true -> keq b c = true -> keq a c = true.


Lemma keys_in_set (d : dict K V) k v : keys_in P d -> P k -> keys_in P (dict_set keq d k v).
Proof.
  unfold keys_in. induction d as [|[k' v'] d IH]; simpl; intros Hd Hk.
  - constructor; [exact Hk | constructor].
  - inversion Hd; subst. destruct (keq k k'); constructor; auto.
Qed.

Lemma keq_congr a b c :
  P a -> P b -> P c -> keq a b = true -> keq a c = keq b c.
Proof.
  intros Ha Hb Hc Hab.
  destruct (keq b c) eqn:Hbc.
  - eapply keq_trans; eauto.
  - destruct (keq a c) eqn:Hac; [|reflexivity].
    rewrite <- Hbc. symmetry. eapply keq_trans; eauto.
Qed.

(** Reading after writing. *)
Lemma dict_get_set (d : dict K V) k v k2 :
  keys_in P d -> P k -> P k2 ->
  dict_get keq (dict_set keq d k v) k2 =
  if keq k2 k then Some v else dict_get keq d k2.
Proof.
  intros Hd Hk Hk2. induction d as [|[k' v'] d IH]; simpl.
  - destruct (keq k2 k); reflexivity.
  - inversion Hd as [|? ? Hk' Hd']; subst. simpl in Hk'.
    destruct (keq k k') eqn:Hkk'; simpl.
    + destruct (keq k2 k') eqn:H2.
      * assert (keq k2 k = true) as ->; [|reflexivity].
        eapply keq_trans; eauto.
      * destruct (keq k2 k) eqn:H3; [|reflexivity].
        rewrite (keq_congr Hk2 Hk Hk' H3) in H2. congruence.
    + destruct (keq k2 k') eqn:H2.
      * destruct (keq k2 k) eqn:H3; [|reflexivity].
        assert (keq k k' = true); [|congruence].
        eapply keq_trans; eauto.
      * apply IH; assumption.
Qed.



Lemma keys_in_write_all kvs : forall d : dict K V,
  keys_in P d -> Forall (fun kv => P (fst kv)) kvs -> keys_in P (write_all keq d kvs).
Proof.
  induction kvs as [|[k v] kvs IH]; simpl; intros d Hd Hkvs; [exact Hd|].
  inversion Hkvs; subst. apply IH; [apply keys_in_set|]; assumption.
Qed.

Lemma dict_get_write_all kvs : forall (d : dict K V) k,
  keys_in P d -> Forall (fun kv => P (fst kv)) kvs -> P k ->
  dict_get keq (write_all keq d kvs) k =
  match last_written keq kvs k with
  | Some v => Some v
  | None => dict_get keq d k
  end.
Proof.
  unfold last_written, write_all.
  induction kvs as [|[k1 v1] kvs IH]; simpl; intros d k Hd Hkvs Hk.
  - reflexivity.
  - inversion Hkvs as [|? ? Hk1 Hkvs']; subst. simpl in Hk1.
    rewrite IH; auto using keys_in_set.
    rewrite find_snoc.
    destruct (find (fun kv => keq k (fst kv)) (List.rev kvs)) as [[k2 v2]|];
      simpl; [reflexivity|].
    rewrite dict_get_set by assumption.
    destruct (keq k k1); reflexivity.
Qed.

End DictFacts.

(** ** Equality of floats, values and signatures *)


Lemma float_eqb_iff x y : Float.eqb x y = true <-> same_float x y.
Proof.
  unfold Float.eqb, SFeqb, SFcompare, same_float.
  destruct x as [s1|s1| |s1 m1 e1], y as [s2|s2| |s2 m2 e2];
    try (destruct s1); try (destruct s2);
    try (split; [discriminate | tauto]);
    try (split; [reflexivity | tauto]);
    try (split; [discriminate | intros H; try destruct H; discriminate]);
    try (split; [intros _; exact I | reflexivity]);
    try (split; discriminate).
  all: destruct (Z.compare_spec e1 e2) as [He|He|He];
    try (split; [discriminate | intros (_ & _ & He'); lia]).
  all: change (PosDef.Pos.compare_cont Eq m1 m2) with (Pos.compare m1 m2);
    destruct (Pos.compare_spec m1 m2) as [Hm|Hm|Hm]; simpl;
    try (split; [discriminate | intros (_ & Hm' & _); lia]).
  all: subst; split; auto.
Qed.

Lemma float_eqb_sym x y : Float.eqb x y = true -> Float.eqb y x = true.
Proof.
  rewrite !float_eqb_iff. unfold same_float.
  destruct x, y; intuition congruence.
Qed.

Lemma float_eqb_trans x y z :
  Float.eqb x y = true -> Float.eqb y z = true -> Float.eqb x z = true.
Proof.
  rewrite !float_eqb_iff. unfold same_float.
  destruct x, y, z; intuition congruence.
Qed.


Section SignatureFacts.

Context {RT : Runtime}.

Lemma sig_eqb_sym a b :
  text_dated a -> text_dated b -> sig_eqb a b = true -> sig_eqb b a = true.
Proof.
  destruct a as [[[d1 r1] t1] c1], b as [[[d2 r2] t2] c2].
  destruct d1; simpl; try contradiction. destruct d2; simpl; try contradiction.
  intros _ _. rewrite !andb_true_iff. intros [[[Hd Hr] Ht] Hc].
  rewrite String.eqb_sym, Hd, (String.eqb_sym r2), Hr, (String.eqb_sym c2), Hc.
  rewrite (float_eqb_sym _ _ Ht). auto.
Qed.

Lemma sig_eqb_trans a b c :
  text_dated a -> text_dated b -> text_dated c ->
  sig_eqb a b = true -> sig_eqb b c = true -> sig_eqb a c = true.
Proof.
  destruct a as [[[d1 r1] t1] c1], b as [[[d2 r2] t2] c2],
           c as [[[d3 r3] t3] c3].
  destruct d1; simpl; try contradiction. destruct d2; simpl; try contradiction.
  destruct d3; simpl; try contradiction.
  intros _ _ _. rewrite !andb_true_iff. intros [[[Hd Hr] Ht] Hc] [[[Hd' Hr'] Ht'] Hc'].
  apply String.eqb_eq in Hd, Hr, Hc, Hd', Hr', Hc'. subst.
  rewrite !String.eqb_refl, (float_eqb_trans _ _ _ Ht Ht'). auto.
Qed.


Lemma text_dated_hashable k : text_dated k -> sig_hashable k = true.
Proof.
  destruct k as [[[d r] t] c]. destruct d; simpl; try contradiction; auto.
Qed.


Lemma iso_date_text date :
  text_or_none date = true -> exists d, iso_date date = VStr d.
Proof.
  destruct date; try discriminate; intros _.
  - exists "". reflexivity.
  - unfold iso_date. destruct (String.eqb s "") eqn:Hs.
    + apply String.eqb_eq in Hs. subst. exists "". reflexivity.
    + assert (Py.or (VStr s) (VStr "") = VStr s) as ->
        by (unfold Py.or; simpl; rewrite Hs; reflexivity).
      unfold _iso. simpl Py.truthy. rewrite Hs. simpl.
      destruct (date_isoformat (Text.take 10 s)) as [t|].
      * unfold Py.or. destruct (Py.truthy (VStr t)); eauto.
      * unfold Py.or. simpl. rewrite Hs. simpl. eauto.
Qed.


Lemma norm_rfc_text rfc :
  text_or_none rfc = true ->
  norm_rfc rfc = Ok (Text.upper (Text.strip (text_of rfc))).
Proof.
  unfold norm_rfc, Py.or. destruct rfc; try discriminate; intros _; simpl.
  - reflexivity.
  - destruct (String.eqb s "") eqn:Hs; simpl; [|reflexivity].
    apply String.eqb_eq in Hs. subst. reflexivity.
Qed.

Lemma make_signature_typed date rfc total cfdi :
  text_or_none date = true -> text_or_none rfc = true ->
  _make_signature date rfc total cfdi =
  Ok (iso_date date, Text.upper (Text.strip (text_of rfc)),
      _coerce_total total, Text.strip (str (Py.or cfdi (VStr "")))).
Proof.
  intros Hd Hr. unfold _make_signature. rewrite (norm_rfc_text _ Hr).
  reflexivity.
Qed.

Lemma make_signature_text_dated date rfc total cfdi k :
  text_or_none date = true ->
  _make_signature date rfc total cfdi = Ok k -> text_dated k.
Proof.
  intros Hd. unfold _make_signature.
  destruct (norm_rfc rfc); simpl; [|discriminate].
  intros H; inversion H; subst; clear H.
  destruct (iso_date_text _ Hd) as [d Hd']. unfold iso_date in Hd'.
  rewrite Hd'. exact I.
Qed.

End SignatureFacts.

(** ** The indexes of the destination *)

Section IndexFacts.

Context {RT : Runtime}.

Variable uuid_col_id : option positive.
Variable sig_cols : list (option positive).

Lemma row_typed_sig r :
  row_typed uuid_col_id sig_cols r = true ->
  exists k, row_sig uuid_col_id sig_cols r = Ok k /\ text_dated k.
Proof.
  unfold row_typed, row_sig, row_signature. rewrite andb_true_iff.
  intros [Hd Hr]. rewrite make_signature_typed by assumption.
  eexists; split; [reflexivity|].
  destruct (iso_date_text _ Hd) as [d ->]. exact I.
Qed.

Lemma index_rows_from rs : forall ix,
  Forall (fun r => row_typed uuid_col_id sig_cols r = true) rs ->
  foldM (index_row uuid_col_id sig_cols) rs ix =
  Ok (write_all String.eqb (fst ix) (uuid_entries uuid_col_id sig_cols rs),
      write_all sig_eqb (snd ix) (sig_entries uuid_col_id sig_cols rs)).
Proof.
  induction rs as [|r rs IH]; intros [u2r s2r] Hrs; simpl; [reflexivity|].
  inversion Hrs as [|? ? Hr Hrs']; subst.
  destruct (row_typed_sig _ Hr) as (k & Hk & Hdated).
  unfold index_row at 1.
  assert (Hscan : scan_row uuid_col_id sig_cols r =
                  (fst (scan_row uuid_col_id sig_cols r),
                   snd (scan_row uuid_col_id sig_cols r)))
    by (destruct (scan_row uuid_col_id sig_cols r); reflexivity).
  rewrite Hscan. unfold row_sig in Hk. rewrite Hk. simpl.
  unfold sig_set. rewrite (text_dated_hashable _ Hdated). simpl.
  rewrite IH by assumption. simpl.
  unfold write_all. rewrite !fold_left_app.
  unfold row_uuid, row_sig. rewrite Hk.
  destruct (some_text (fst (scan_row uuid_col_id sig_cols r))); reflexivity.
Qed.

Lemma sig_entries_dated rs :
  Forall (fun r => row_typed uuid_col_id sig_cols r = true) rs ->
  Forall (fun kv => text_dated (fst kv)) (sig_entries uuid_col_id sig_cols rs).
Proof.
  induction 1 as [|r rs Hr _ IH]; simpl; [constructor|].
  destruct (row_typed_sig _ Hr) as (k & -> & Hk). constructor; assumption.
Qed.

(** The last row written under a key is the last row that has it. *)
Lemma last_written_sig rs k :
  Forall (fun r => row_typed uuid_col_id sig_cols r = true) rs ->
  last_written sig_eqb (sig_entries uuid_col_id sig_cols rs) k =
  option_map row_id (find (has_sig uuid_col_id sig_cols k) (List.rev rs)).
Proof.
  unfold last_written. induction 1 as [|r rs Hr _ IH]; simpl; [reflexivity|].
  destruct (row_typed_sig _ Hr) as (k' & Hk' & _).
  rewrite Hk'. simpl. rewrite !find_snoc. simpl.
  destruct (find (fun kv => sig_eqb k (fst kv)) (List.rev (sig_entries uuid_col_id sig_cols rs)))
    as [kv|] eqn:Hf; simpl in IH |- *.
  - destruct (find (has_sig uuid_col_id sig_cols k) (List.rev rs)); simpl in IH |- *;
      [exact IH | discriminate IH].
  - destruct (find (has_sig uuid_col_id sig_cols k) (List.rev rs)); simpl in IH |- *;
      [discriminate IH|].
    unfold has_sig. rewrite Hk'.
    destruct (sig_eqb k k'); reflexivity.
Qed.

End IndexFacts.

Section DictEntries.

Variables K V : Type.
Variable keq : K -> K -> bool.

Lemma dict_set_keeps (d : dict K V) k v k1 v1 :
  In (k1, v1) d -> exists v2, In (k1, v2) (dict_set keq d k v).
Proof.
  induction d as [|[k' v'] d IH]; simpl; [intros []|].
  intros [H|H].
  - inversion H; subst. destruct (keq k k1); eexists; left; reflexivity.
  - destruct (keq k k').
    + eexists; right; exact H.
    + destruct (IH H) as [v2 Hv2]. eexists; right; exact Hv2.
Qed.

Lemma dict_set_has (d : dict K V) k v :
  exists k', In (k', v) (dict_set keq d k v) /\ (k' = k \/ keq k k' = true).
Proof.
  induction d as [|[k' v'] d IH]; simpl.
  - exists k. auto.
  - destruct (keq k k') eqn:H.
    + exists k'. simpl. auto.
    + destruct IH as (k1 & Hin & Hk). exists k1. simpl. auto.
Qed.

(** Every entry written leaves an entry under its key or an equal one. *)
Lemma write_all_has (kvs : list (K * V)) : forall (d : dict K V) k v,
  In (k, v) kvs ->
  exists k' v', In (k', v') (write_all keq d kvs) /\ (k' = k \/ keq k k' = true).
Proof.
  assert (Hkeep : forall kvs (d : dict K V) k1 v1, In (k1, v1) d ->
            exists v2, In (k1, v2) (write_all keq d kvs)).
  { clear. induction kvs as [|[k v] kvs IH]; simpl; intros d k1 v1 H; [eauto|].
    destruct (dict_set_keeps d k v k1 v1 H) as [v2 H2].
    exact (IH _ _ _ H2). }
  induction kvs as [|[k1 v1] kvs IH]; simpl; intros d k v; [intros []|].
  intros [H|H].
  - inversion H; subst.
    destruct (dict_set_has d k v) as (k' & Hin & Hk).
    destruct (Hkeep kvs _ _ _ Hin) as [v2 H2].
    exists k', v2. split; assumption.
  - exact (IH _ _ _ H).
Qed.

End DictEntries.

Section IndexDefaults.

Context {RT : Runtime}.

Variable uuid_col_id : option positive.
Variable sig_cols : list (option positive).


Lemma scan_cells_no_sig cs : forall st,
  (forall c cid, In c cs -> In cid sig_cols -> is_col cid c = false) ->
  List.length (snd st) = List.length sig_cols ->
  snd (fold_left (scan_cell uuid_col_id sig_cols) cs st) = snd st.
Proof.
  induction cs as [|c cs IH]; intros [u vals] Hno Hlen; simpl; [reflexivity|].
  rewrite IH.
  - simpl. simpl in Hlen. clear IH.
    assert (Hc : forall cid, In cid sig_cols -> is_col cid c = false)
      by (intros; apply Hno; simpl; auto).
    clear Hno. revert vals Hlen.
    induction sig_cols as [|cid sc IHsc]; intros [|v vals] Hlen;
      simpl in *; try discriminate; [reflexivity|].
    rewrite Hc by auto. f_equal. apply IHsc; auto.
  - intros; apply Hno; simpl; auto.
  - simpl. rewrite length_map, length_combine. simpl in Hlen. lia.
Qed.

Lemma row_sig_default r :
  List.length sig_cols = 4%nat -> no_sig_cell sig_cols r ->
  row_sig uuid_col_id sig_cols r = Ok (VStr "", "", Float.zero, "").
Proof.
  intros Hlen Hno. unfold row_sig, scan_row.
  rewrite scan_cells_no_sig; [reflexivity | exact Hno | simpl; lia].
Qed.

End IndexDefaults.

(** C9. Index of the signatures: when the cells read as date and tax id
    are text or nothing in every row, indexing succeeds and, for each row
    [r] of the sheet with signature [k], (1) the index holds an entry under
    [k] or under an equal key, (2) reading the index at [k] gives the id of
    the last row of the sheet whose signature equals [k], so a later row
    shadows an earlier one, and (3) a row with no cell in a signature column
    is indexed under [("", "", 0.0, "")]. *)
Theorem sig_index_last_row_wins {RT : Runtime}
    (uuid_col_id : option positive) (sig_cols : list (option positive))
    (rs : list row) :
  List.length sig_cols = 4%nat ->
  Forall (fun r => row_typed uuid_col_id sig_cols r = true) rs ->
  exists uuid_to_row sig_to_row,
    index_rows uuid_col_id sig_cols rs = Ok (uuid_to_row, sig_to_row) /\
    forall r, In r rs ->
      exists k,
        row_sig uuid_col_id sig_cols r = Ok k /\
        (exists k' i, In (k', i) sig_to_row /\ (k' = k \/ sig_eqb k k' = true)) /\
        dict_get sig_eqb sig_to_row k =
          option_map row_id
            (find (has_sig uuid_col_id sig_cols k) (List.rev rs)) /\
        (no_sig_cell sig_cols r -> k = (VStr "", "", Float.zero, "")).
Proof.
  intros Hlen Hrs.
  exists (write_all String.eqb [] (uuid_entries uuid_col_id sig_cols rs)),
         (write_all sig_eqb [] (sig_entries uuid_col_id sig_cols rs)).
  split; [exact (@index_rows_from RT uuid_col_id sig_cols rs ([], []) Hrs)|].
  intros r Hr.
  assert (Htyped : row_typed uuid_col_id sig_cols r = true)
    by (rewrite Forall_forall in Hrs; auto).
  destruct (@row_typed_sig RT uuid_col_id sig_cols r Htyped) as (k & Hk & Hdated).
  exists k. split; [exact Hk|]. split; [|split].
  - eapply write_all_has with (v := row_id r). unfold sig_entries.
    apply in_flat_map.
    exists r. split; [exact Hr|]. rewrite Hk. simpl. auto.
  - rewrite (@dict_get_write_all _ _ sig_eqb text_dated sig_eqb_sym sig_eqb_trans);
      try assumption; [| constructor | apply sig_entries_dated; assumption].
    rewrite last_written_sig by assumption.
    destruct (find (has_sig uuid_col_id sig_cols k) (List.rev rs)); reflexivity.
  - intros Hno. rewrite (@row_sig_default RT uuid_col_id sig_cols r Hlen Hno) in Hk.
    inversion Hk; reflexivity.
Qed.

(** ** The pass over the records *)

Section PassFacts.

Context {RT : Runtime}.

Variable col_map : dict string positive.
Variable items : list (string * string).
Variable ix : indexes.


Lemma reconcile_fac_classify acc fac :
  reconcile_fac col_map items ix acc fac =
  (o <- classify col_map items ix fac ;; Ok (apply_outcome acc o)).
Proof.
  unfold reconcile_fac, classify. destruct acc as [ins upd].
  destruct (fac_signature fac) as [k|e]; simpl; [|reflexivity].
  destruct (cells_of col_map items fac) as [|c cs]; [reflexivity|].
  destruct (find_row ix (uuid_of fac) k) as [[r|]|e]; reflexivity.
Qed.

Lemma foldM_classify facs : forall outs acc,
  Forall2 (fun fac o => classify col_map items ix fac = Ok o) facs outs ->
  foldM (reconcile_fac col_map items ix) facs acc =
  Ok ((fst acc ++ inserts_of outs)%list, (snd acc ++ updates_of outs)%list).
Proof.
  induction facs as [|fac facs IH]; intros outs [ins upd] H;
    inversion H as [|? o ? outs' Ho Hrest]; subst.
  - simpl. rewrite !app_nil_r. reflexivity.
  - cbn [foldM]. rewrite reconcile_fac_classify, Ho. cbn [bind].
    rewrite (IH _ _ Hrest).
    destruct o; simpl; rewrite <- ?app_assoc; reflexivity.
Qed.

Lemma classify_typed fac :
  fac_typed fac = true -> exists o, classify col_map items ix fac = Ok o.
Proof.
  unfold fac_typed, classify, fac_signature. rewrite andb_true_iff.
  intros [Hd Hr]. rewrite make_signature_typed by assumption. simpl.
  destruct (cells_of col_map items fac) as [|c cs]; [eauto|].
  destruct ix as [u2r s2r]. unfold find_row.
  destruct (if String.eqb (uuid_of fac) "" then None
            else dict_get String.eqb u2r (uuid_of fac)) as [r|]; simpl; [eauto|].
  unfold sig_get. destruct (iso_date_text _ Hd) as [d ->]. simpl. eauto.
Qed.

Lemma classify_all facs :
  Forall (fun fac => fac_typed fac = true) facs ->
  exists outs,
    Forall2 (fun fac o => classify col_map items ix fac = Ok o) facs outs.
Proof.
  induction 1 as [|fac facs Hfac _ [outs IH]]; [exists []; constructor|].
  destruct (classify_typed _ Hfac) as [o Ho].
  exists (o :: outs). constructor; assumption.
Qed.

Lemma classify_skipped fac o :
  classify col_map items ix fac = Ok o ->
  (o = Skipped <-> has_cells col_map items fac = false).
Proof.
  unfold classify, has_cells.
  destruct (fac_signature fac) as [k|e]; simpl; [|discriminate].
  destruct (cells_of col_map items fac) as [|c cs].
  - intros H; inversion H; subst. split; reflexivity.
  - destruct (find_row ix (uuid_of fac) k) as [[r|]|e]; simpl;
      try discriminate; intros H; inversion H; subst;
      split; discriminate.
Qed.

Lemma count_outcomes facs : forall outs,
  Forall2 (fun fac o => classify col_map items ix fac = Ok o) facs outs ->
  (List.length (inserts_of outs) + List.length (updates_of outs))%nat =
  List.length (filter (has_cells col_map items) facs).
Proof.
  induction facs as [|fac facs IH]; intros outs H;
    inversion H as [|? o ? outs' Ho Hrest]; subst; simpl; [reflexivity|].
  pose proof (classify_skipped _ Ho) as Hs.
  specialize (IH _ Hrest). unfold inserts_of, updates_of in *.
  destruct o; simpl.
  - destruct Hs as [Hs _]. rewrite (Hs eq_refl). exact IH.
  - destruct (has_cells col_map items fac) eqn:Hc.
    + simpl. lia.
    + destruct Hs as [_ Hs]. discriminate (Hs eq_refl).
  - destruct (has_cells col_map items fac) eqn:Hc.
    + simpl. lia.
    + destruct Hs as [_ Hs]. discriminate (Hs eq_refl).
Qed.

End PassFacts.

(** C1. Identity before signature: a record whose trimmed UUID is not
    empty and stands in the identity index is given the row of that index,
    whatever the signature index holds (also when it maps the signature of
    the record to another row), and, when the record has a cell, the pass
    adds one update of that row and no insert; and the signature index is
    read exactly when the UUID is empty or is not in the identity index. *)
Theorem identity_precedence {RT : Runtime}
    (col_map : dict string positive) (items : list (string * string))
    (uuid_to_row : dict string positive) (sig_to_row : dict signature positive)
    (inserts : list insert) (updates : list update)
    (fac : factura) (k : signature) (r1 : positive) :
  fac_signature fac = Ok k ->
  uuid_of fac <> "" ->
  dict_get String.eqb uuid_to_row (uuid_of fac) = Some r1 ->
  find_row (uuid_to_row, sig_to_row) (uuid_of fac) k = Ok (Some r1) /\
  (cells_of col_map items fac <> [] ->
   reconcile_fac col_map items (uuid_to_row, sig_to_row) (inserts, updates) fac =
   Ok (inserts,
       (updates ++ [mk_update r1 (cells_of col_map items fac)])%list)) /\
  (forall uuid_val k',
     uuid_val = "" \/ dict_get String.eqb uuid_to_row uuid_val = None ->
     find_row (uuid_to_row, sig_to_row) uuid_val k' = sig_get sig_to_row k').
Proof.
  intros Hk Hne Hget.
  assert (Hfind : find_row (uuid_to_row, sig_to_row) (uuid_of fac) k = Ok (Some r1)).
  { unfold find_row. destruct (String.eqb_spec (uuid_of fac) "") as [E|_];
      [contradiction|]. rewrite Hget. reflexivity. }
  split; [exact Hfind|]. split.
  - intros Hcells. unfold reconcile_fac. rewrite Hk. cbn [bind].
    destruct (cells_of col_map items fac) as [|c cs]; [contradiction|].
    rewrite Hfind. reflexivity.
  - intros uuid_val k' [E|E]; unfold find_row.
    + subst. reflexivity.
    + rewrite E. destruct (String.eqb uuid_val ""); reflexivity.
Qed.

(** C2. Partition of the batch: when the rules are a mapping of text to
    text and the date and tax id of every row and record are text or
    nothing, the pass returns two batches; every record has one outcome
    (skipped, one insert or one update), the inserts and the updates are
    those of the outcomes in the order of the records, a record is skipped
    exactly when it maps to no cell, and the two batches together count the
    records that map to a cell. *)
Theorem partition_complete {RT : Runtime}
    (dest_sheet : sheet) (facturas : list factura) (rules_json : value)
    (items : list (string * string)) :
  let col_map := col_map_of (columns dest_sheet) in
  rule_items (rules_of rules_json) = Ok items ->
  Forall (fun r => row_typed (uuid_col_of col_map items)
                             (sig_cols_of col_map items) r = true)
         (rows dest_sheet) ->
  Forall (fun fac => fac_typed fac = true) facturas ->
  exists ix outs,
    index_rows (uuid_col_of col_map items) (sig_cols_of col_map items)
               (rows dest_sheet) = Ok ix /\
    Forall2 (fun fac o => classify col_map items ix fac = Ok o) facturas outs /\
    reconcile dest_sheet facturas rules_json =
      Ok (inserts_of outs, updates_of outs) /\
    (forall fac o, In (fac, o) (combine facturas outs) ->
       (o = Skipped <-> has_cells col_map items fac = false)) /\
    (List.length (inserts_of outs) + List.length (updates_of outs))%nat =
      List.length (filter (has_cells col_map items) facturas).
Proof.
  intros col_map Hitems Hrows Hfacs.
  pose proof (@index_rows_from RT _ _ (rows dest_sheet) ([], []) Hrows) as Hix.
  cbn [fst snd] in Hix.
  remember (write_all String.eqb []
              (uuid_entries (uuid_col_of col_map items)
                            (sig_cols_of col_map items) (rows dest_sheet)),
            write_all sig_eqb []
              (sig_entries (uuid_col_of col_map items)
                           (sig_cols_of col_map items) (rows dest_sheet)))
    as ix eqn:Eix.
  destruct (@classify_all RT col_map items ix facturas Hfacs) as [outs Houts].
  exists ix, outs. split; [exact Hix|]. split; [exact Houts|]. split; [|split].
  - unfold reconcile. fold col_map. rewrite Hitems. cbn [bind].
    unfold index_rows. rewrite Hix. cbn [bind].
    rewrite (@foldM_classify RT col_map items ix facturas outs ([], []) Houts).
    reflexivity.
  - intros fac o Hin. clear Hix.
    revert outs Houts Hin. induction facturas as [|f fs IH]; intros outs Houts Hin;
      inversion Houts as [|? o' ? outs' Ho Hrest]; subst; simpl in Hin; [contradiction|].
    destruct Hin as [E|Hin].
    + inversion E; subst. eapply classify_skipped; eassumption.
    + inversion Hfacs; subst. eapply IH; eassumption.
  - eapply count_outcomes; eassumption.
Qed.

(** ** The signature *)



(** ** The scheduler *)

Lemma due_spec (intervalo now_aware : Z) (ult_ejec : option Z) :
  due intervalo (mins_passed now_aware ult_ejec) = true <->
  ult_ejec = None \/
  exists t, ult_ejec = Some t /\ intervalo * 60000000 <= now_aware - t.
Proof.
  destruct ult_ejec as [t|]; simpl.
  - unfold Qle_bool. simpl. rewrite Z.leb_le, Z.mul_1_r. split.
    + intros H. right. exists t. auto.
    + intros [H|(t' & E & H)]; [discriminate|]. inversion E; subst. exact H.
  - split; auto.
Qed.


(** The decision on the interval and the last execution that the cell loop
    extracts, the quotient being exact: a row whose interval is positive
    starts a cycle on a tick if and only if it has no last execution or the
    time elapsed since it, in minutes, is at least the interval; otherwise
    it waits. The last execution is the one [_parse_iso] reads on the clock
    of the zone, not the instant the cell was written at. Times are in
    microseconds. *)
Theorem due_iff_interval_elapsed {RT : Runtime}
    (col_int col_last : option positive) (now_aware : Z) (r : row) :
  let intervalo := fst (scan_config_row col_int col_last r) in
  let ult_ejec := snd (scan_config_row col_int col_last r) in
  0 < intervalo ->
  (row_decision col_int col_last now_aware r = Run <->
   ult_ejec = None \/
   exists t, ult_ejec = Some t /\ intervalo * 60000000 <= now_aware - t) /\
  (row_decision col_int col_last now_aware r <> Run ->
   row_decision col_int col_last now_aware r = Waiting) /\
  (intervalo = 30 -> ult_ejec = Some (now_aware - 30 * 60000000) ->
   row_decision col_int col_last now_aware r = Run) /\
  (intervalo = 30 -> ult_ejec = Some (now_aware - (29 * 60 + 59) * 1000000) ->
   row_decision col_int col_last now_aware r = Waiting).
Proof.
  intros intervalo ult_ejec Hpos. unfold row_decision.
  destruct (scan_config_row col_int col_last r) as [i u] eqn:E.
  simpl in intervalo, ult_ejec. subst intervalo ult_ejec.
  destruct (Z.leb_spec i 0) as [H|_]; [lia|].
  pose proof (due_spec i now_aware u) as Hdue.
  destruct (due i (mins_passed now_aware u)) eqn:Hd.
  - split; [split; [intros _; apply Hdue; reflexivity | reflexivity]|].
    split; [intros H; elim H; reflexivity|].
    split; [reflexivity|].
    intros -> ->. destruct Hdue as [Hdue _].
    destruct (Hdue eq_refl) as [H|(t & H1 & H2)]; [discriminate|].
    inversion H1; subst. lia.
  - split; [split; [discriminate | intros H; apply Hdue in H; discriminate]|].
    split; [reflexivity|].
    split; [|reflexivity].
    intros -> ->. destruct Hdue as [_ Hdue].
    assert (true = false); [|discriminate].
    rewrite <- Hd. symmetry. apply due_spec. right. eexists. split; [reflexivity|]. lia.
Qed.

Section ParseFacts.

Context {RT : Runtime}.




End ParseFacts.


(** ** The mapping rules *)

Section RulesFacts.

Context {RT : Runtime}.

(** The rules fall back to the default ones: on no text, on a text that is
    not JSON, on a JSON value that is no object, and on an object whose
    [map] is missing or falsy. *)
Lemma rules_fallback (rules_json : value) :
  (Py.truthy rules_json = false -> rules_of rules_json = default_rules) /\
  (text_or_none rules_json = false -> rules_of rules_json = default_rules) /\
  (forall s, rules_json = VStr s -> json_loads s = None ->
     rules_of rules_json = default_rules) /\
  (forall s j, rules_json = VStr s -> json_loads s = Some j ->
     (forall d, j <> VDict d) -> rules_of rules_json = default_rules) /\
  (forall s d, rules_json = VStr s -> json_loads s = Some (VDict d) ->
     Py.truthy (Py.get_val d "map") = false ->
     rules_of rules_json = default_rules).
Proof.
  unfold rules_of, load_map. repeat split.
  - intros ->. reflexivity.
  - destruct rules_json; try discriminate; intros _;
      destruct (Py.truthy _); reflexivity.
  - intros s -> ->. destruct (Py.truthy (VStr s)); reflexivity.
  - intros s j -> -> Hj. destruct (Py.truthy (VStr s)); [|reflexivity].
    destruct j; try reflexivity. elim (Hj d). reflexivity.
  - intros s d -> -> Hm. destruct (Py.truthy (VStr s)); [|reflexivity].
    simpl. unfold Py.or. rewrite Hm. reflexivity.
Qed.

(** A truthy [map] is taken as it is. *)
Lemma rules_of_map (s : string) (d : list (string * value)) :
  s <> "" -> json_loads s = Some (VDict d) ->
  Py.truthy (Py.get_val d "map") = true ->
  rules_of (VStr s) = Py.get_val d "map".
Proof.
  intros Hs Hj Hm. unfold rules_of, load_map. simpl.
  destruct (String.eqb_spec s "") as [E|_]; [contradiction|]. simpl.
  rewrite Hj. simpl. unfold Py.or. rewrite Hm. reflexivity.
Qed.

(** The default rules are walked without error. *)
Lemma default_rule_items :
  rule_items default_rules =
  Ok [("UUID", "UUID"); ("Date", "Fecha emisión"); ("RFC", "RFC Receptor");
      ("Total", "Total"); ("CFDIUse", "Tipo CFDI")].
Proof. reflexivity. Qed.

End RulesFacts.

(** C7, at the rules [{"map": 5}] and the like: a [map] that is truthy and
    is no object is bound to [rules] as it is; [rules.items()] then raises,
    and the exception leaves [_push_to_sheet]. *)
Theorem rules_non_mapping_raises {RT : Runtime}
    (s : string) (d : list (string * value))
    (dest_sheet : sheet) (facturas : list factura) :
  s <> "" ->
  json_loads s = Some (VDict d) ->
  Py.truthy (Py.get_val d "map") = true ->
  (forall m, Py.get_val d "map" <> VDict m) ->
  rules_of (VStr s) = Py.get_val d "map" /\
  rules_of (VStr s) <> default_rules /\
  reconcile dest_sheet facturas (VStr s) = Raise AttributeError /\
  _push_to_sheet (Ok dest_sheet) facturas (VStr s) = Raise AttributeError.
Proof.
  intros Hs Hj Hm Hnd.
  pose proof (rules_of_map Hs Hj Hm) as Hr.
  assert (Hrec : reconcile dest_sheet facturas (VStr s) = Raise AttributeError).
  { unfold reconcile. rewrite Hr. unfold rule_items.
    destruct (Py.get_val d "map") as [| | | | |l|m]; try reflexivity.
    elim (Hnd m). reflexivity. }
  split; [exact Hr|]. split.
  - rewrite Hr. intros E. unfold default_rules in E. elim (Hnd _ E).
  - split; [exact Hrec|]. unfold _push_to_sheet. rewrite Hrec. reflexivity.
Qed.

(** ** The scenario of one new record *)

Section ScenarioFacts.

Context {RT : Runtime}.

Variable cols : list column.
Variables c1 c2 c3 c4 c5 : positive.

Hypothesis date_ok : date_isoformat "2025-07-01" = Some "2025-07-01".
Hypothesis col_uuid : dict_get String.eqb (col_map_of cols) "uuid" = Some c1.
Hypothesis col_date : dict_get String.eqb (col_map_of cols) "fechaemision" = Some c2.
Hypothesis col_rfc : dict_get String.eqb (col_map_of cols) "rfcreceptor" = Some c3.
Hypothesis col_total : dict_get String.eqb (col_map_of cols) "total" = Some c4.
Hypothesis col_cfdi : dict_get String.eqb (col_map_of cols) "tipocfdi" = Some c5.

Let items : list (string * string) :=
  [("UUID", "UUID"); ("Date", "Fecha emisión"); ("RFC", "RFC Receptor");
   ("Total", "Total"); ("CFDIUse", "Tipo CFDI")].

Lemma scenario_cells :
  cells_of (col_map_of cols) items Scenario.fac =
  [(c1, VStr "A1"); (c2, VStr "2025-07-01"); (c3, VStr "abc123");
   (c4, VFloat Scenario.total); (c5, VStr "G01")].
Proof.
  unfold cells_of, items. cbn [flat_map app]. unfold cell_of.
  change (_slug "UUID") with "uuid".
  change (_slug "Fecha emisión") with "fechaemision".
  change (_slug "RFC Receptor") with "rfcreceptor".
  change (_slug "Total") with "total".
  change (_slug "Tipo CFDI") with "tipocfdi".
  rewrite col_uuid, col_date, col_rfc, col_total, col_cfdi.
  change (Py.get_val Scenario.fac "UUID") with (VStr "A1").
  change (Py.get_val Scenario.fac "Date") with (VStr "2025-07-01").
  change (Py.get_val Scenario.fac "RFC") with (VStr "abc123").
  change (Py.get_val Scenario.fac "Total") with (VFloat Scenario.total).
  change (Py.get_val Scenario.fac "CFDIUse") with (VStr "G01").
  change (Text.startswith (Text.lower "UUID") "date") with false.
  change (Text.startswith (Text.lower "Date") "date") with true.
  change (Text.startswith (Text.lower "RFC") "date") with false.
  change (Text.startswith (Text.lower "Total") "date") with false.
  change (Text.startswith (Text.lower "CFDIUse") "date") with false.
  cbv iota.
  assert (_iso (VStr (str (VStr "2025-07-01"))) = VStr "2025-07-01") as ->.
  { unfold _iso. change (Text.take 10 "2025-07-01") with "2025-07-01".
    change (Py.truthy (VStr (str (VStr "2025-07-01")))) with true.
    cbn [negb str]. change (Text.take 10 "2025-07-01") with "2025-07-01".
    rewrite date_ok. reflexivity. }
  reflexivity.
Qed.

Lemma scenario_signature :
  fac_signature Scenario.fac =
  Ok (VStr "2025-07-01", "ABC123", Float.of_Z 100, "G01").
Proof.
  unfold fac_signature, _make_signature.
  change (Py.get_val Scenario.fac "Date") with (VStr "2025-07-01").
  change (Py.get_val Scenario.fac "RFC") with (VStr "abc123").
  change (Py.get_val Scenario.fac "Total") with (VFloat Scenario.total).
  change (Py.get_val Scenario.fac "CFDIUse") with (VStr "G01").
  change (norm_rfc (VStr "abc123")) with (Ok (A := string) "ABC123").
  cbn [bind].
  change (Py.or (VStr "2025-07-01") (VStr "")) with (VStr "2025-07-01").
  assert (_iso (VStr "2025-07-01") = VStr "2025-07-01") as ->.
  { unfold _iso. change (Text.take 10 "2025-07-01") with "2025-07-01".
    change (Py.truthy (VStr "2025-07-01")) with true. cbn [negb].
    rewrite date_ok. reflexivity. }
  reflexivity.
Qed.

End ScenarioFacts.

(** C8, as the code has it. The record [{UUID: "A1", Date: "2025-07-01",
    RFC: "abc123", Total: 100.004, CFDIUse: "G01"}] against a sheet with no
    row whose columns resolve the five default rules gives one insert and
    no update; its cells are, in the order of the rules, the UUID ["A1"],
    the date ["2025-07-01"], the tax id ["abc123"] as it came, the total
    [100.004] as it came, and the document type ["G01"]. Only the signature
    of the record holds the upper-cased tax id and the total rounded to
    [100.0]. *)
Theorem scenario_one_insert {RT : Runtime}
    (cols : list column) (c1 c2 c3 c4 c5 : positive) :
  date_isoformat "2025-07-01" = Some "2025-07-01" ->
  dict_get String.eqb (col_map_of cols) "uuid" = Some c1 ->
  dict_get String.eqb (col_map_of cols) "fechaemision" = Some c2 ->
  dict_get String.eqb (col_map_of cols) "rfcreceptor" = Some c3 ->
  dict_get String.eqb (col_map_of cols) "total" = Some c4 ->
  dict_get String.eqb (col_map_of cols) "tipocfdi" = Some c5 ->
  reconcile (mk_sheet cols []) [Scenario.fac] VNone =
    Ok ([mk_insert [(c1, VStr "A1"); (c2, VStr "2025-07-01");
                    (c3, VStr "abc123"); (c4, VFloat Scenario.total);
                    (c5, VStr "G01")]], []) /\
  fac_signature Scenario.fac =
    Ok (VStr "2025-07-01", "ABC123", Scenario.rounded, "G01") /\
  Float.eqb Scenario.total Scenario.rounded = false.
Proof.
  intros Hdate H1 H2 H3 H4 H5.
  pose proof (scenario_cells cols Hdate H1 H2 H3 H4 H5) as Hcells.
  pose proof (scenario_signature Hdate) as Hsig.
  split; [|split; [exact Hsig | reflexivity]].
  unfold reconcile. cbn [columns rows].
  change (rules_of VNone) with default_rules.
  rewrite default_rule_items. cbn [bind index_rows foldM].
  unfold reconcile_fac. rewrite Hsig. cbn [bind]. rewrite Hcells.
  reflexivity.
Qed.

(** C8 at the sheet [Scenario.empty_sheet]: the cell of the total holds
    [100.004], which is not [100.00]. *)
Lemma scenario_total_cell_not_rounded :
  reconcile (RT := Ref.runtime) Scenario.empty_sheet [Scenario.fac] VNone =
    Ok ([mk_insert [(11%positive, VStr "A1"); (12%positive, VStr "2025-07-01");
                    (13%positive, VStr "abc123");
                    (14%positive, VFloat Scenario.total);
                    (15%positive, VStr "G01")]], []) /\
  Float.eqb Scenario.total Scenario.rounded = false /\
  VFloat Scenario.total <> VFloat Scenario.rounded.
Proof.
  split; [vm_compute; reflexivity|]. split; [vm_compute; reflexivity|].
  vm_compute. discriminate.
Qed.

Lemma scenario_one_insert_witness :
  reconcile (RT := Ref.runtime) Scenario.empty_sheet [Scenario.fac] VNone =
    Ok ([mk_insert [(11%positive, VStr "A1"); (12%positive, VStr "2025-07-01");
                    (13%positive, VStr "abc123");
                    (14%positive, VFloat Scenario.total);
                    (15%positive, VStr "G01")]], []) /\
  fac_signature (RT := Ref.runtime) Scenario.fac =
    Ok (VStr "2025-07-01", "ABC123", Scenario.rounded, "G01") /\
  Float.eqb Scenario.total Scenario.rounded = false.
Proof.
  apply (@scenario_one_insert Ref.runtime (columns Scenario.empty_sheet)
           11 12 13 14 15); reflexivity.
Defined.

(** ** The theorems at the rows and records of [Scenario] *)

(** [fac] stands in row 101 by its UUID and in row 103 by its signature:
    the update goes to row 101. *)
Lemma identity_precedence_witness :
  dict_get sig_eqb [(Scenario.key, 103%positive)] Scenario.key = Some 103%positive /\
  reconcile_fac (RT := Ref.runtime) Scenario.col_map Scenario.items
    ([("A1", 101%positive)], [(Scenario.key, 103%positive)]) ([], [])
    Scenario.fac =
  Ok ([], [mk_update 101 (cells_of (RT := Ref.runtime) Scenario.col_map
                                   Scenario.items Scenario.fac)]).
Proof.
  split; [reflexivity|].
  refine (proj1 (proj2 (@identity_precedence Ref.runtime Scenario.col_map
            Scenario.items [("A1", 101%positive)]
            [(Scenario.key, 103%positive)] [] [] Scenario.fac Scenario.key
            101%positive _ _ _)) _).
  - reflexivity.
  - vm_compute. discriminate.
  - reflexivity.
  - vm_compute. discriminate.
Defined.

Lemma partition_complete_witness :
  exists inserts updates,
    reconcile (RT := Ref.runtime) Scenario.sheet3
      [Scenario.fac; Scenario.fac_new; Scenario.fac_unmapped] VNone =
      Ok (inserts, updates) /\
    (List.length inserts + List.length updates)%nat = 2%nat.
Proof.
  destruct (@partition_complete Ref.runtime Scenario.sheet3
              [Scenario.fac; Scenario.fac_new; Scenario.fac_unmapped] VNone
              Scenario.items)
    as (ix & outs & _ & _ & Hrec & _ & Hcount).
  - reflexivity.
  - repeat constructor.
  - repeat constructor.
  - exists (inserts_of outs), (updates_of outs).
    split; [exact Hrec|]. rewrite Hcount. reflexivity.
Defined.

Lemma sig_index_last_row_wins_witness :
  exists uuid_to_row sig_to_row,
    index_rows (RT := Ref.runtime)
      (uuid_col_of Scenario.col_map Scenario.items)
      (sig_cols_of Scenario.col_map Scenario.items)
      (rows Scenario.sheet3) = Ok (uuid_to_row, sig_to_row) /\
    dict_get sig_eqb sig_to_row Scenario.key = Some 103%positive.
Proof.
  destruct (@sig_index_last_row_wins Ref.runtime
              (uuid_col_of Scenario.col_map Scenario.items)
              (sig_cols_of Scenario.col_map Scenario.items)
              (rows Scenario.sheet3))
    as (u2r & s2r & Hix & Hall).
  - reflexivity.
  - repeat constructor.
  - exists u2r, s2r. split; [exact Hix|].
    destruct (Hall (mk_row 102 [Scenario.text_cell 12 "2025-07-01";
                                Scenario.text_cell 13 "ABC123";
                                mk_cell 14 (VInt 100) (Some "100");
                                Scenario.text_cell 15 "G01"]))
      as (k & Hk & _ & Hget & _).
    + simpl. auto.
    + assert (E : Ok k = Ok Scenario.key) by (rewrite <- Hk; reflexivity).
      inversion E; subst k. rewrite Hget. reflexivity.
Defined.


Lemma rules_non_mapping_raises_witness :
  json_loads (Runtime := Ref.runtime) Scenario.rules_map_5 =
    Some (VDict [("map", VInt 5)]) /\
  _push_to_sheet (RT := Ref.runtime) (Ok Scenario.sheet3) [Scenario.fac]
                 (VStr Scenario.rules_map_5) = Raise AttributeError.
Proof.
  split; [reflexivity|].
  refine (proj2 (proj2 (proj2 (@rules_non_mapping_raises Ref.runtime
            Scenario.rules_map_5 [("map", VInt 5)] Scenario.sheet3
            [Scenario.fac] _ _ _ _)))).
  - discriminate.
  - reflexivity.
  - reflexivity.
  - intros m. discriminate.
Defined.

Lemma due_iff_interval_elapsed_witness :
  row_decision (RT := Ref.runtime) (Some 21%positive) (Some 22%positive)
    (Scenario.ten_o_clock + 30 * 60000000)
    (Scenario.config_row_at "2025-07-05T10:00:00") = Run /\
  row_decision (RT := Ref.runtime) (Some 21%positive) (Some 22%positive)
    (Scenario.ten_o_clock + (29 * 60 + 59) * 1000000)
    (Scenario.config_row_at "2025-07-05T10:00:00") = Waiting.
Proof.
  split.
  - refine (proj1 (proj2 (proj2 (@due_iff_interval_elapsed Ref.runtime
              (Some 21%positive) (Some 22%positive)
              (Scenario.ten_o_clock + 30 * 60000000)
              (Scenario.config_row_at "2025-07-05T10:00:00") _))) _ _);
      reflexivity.
  - refine (proj2 (proj2 (proj2 (@due_iff_interval_elapsed Ref.runtime
              (Some 21%positive) (Some 22%positive)
              (Scenario.ten_o_clock + (29 * 60 + 59) * 1000000)
              (Scenario.config_row_at "2025-07-05T10:00:00") _))) _ _);
      reflexivity.
Defined.


(** ** A second pass over the same records *)

Section SecondPass.

Context {RT : Runtime}.

Variable col_map : dict string positive.
Variable items : list (string * string).

(** The rule of the identity resolves to the column [u]. *)
Variable u : positive.
Variable dst : string.
Hypothesis uuid_rule : Py.get items "UUID" = Some dst.
Hypothesis uuid_col : dict_get String.eqb col_map (_slug dst) = Some u.

Lemma get_in (A : Type) (d : list (string * A)) k v :
  Py.get d k = Some v -> In (k, v) d.
Proof.
  induction d as [|[k' v'] d IH]; simpl; [discriminate|].
  destruct (String.eqb_spec k k') as [->|_].
  - intros H; inversion H; auto.
  - auto.
Qed.

Lemma uuid_truthy fac :
  uuid_of fac <> "" -> Py.truthy (Py.get_val fac "UUID") = true.
Proof.
  unfold uuid_of, Py.or. destruct (Py.truthy (Py.get_val fac "UUID"));
    [reflexivity|]. intros H. elim H. reflexivity.
Qed.

Lemma uuid_of_truthy fac :
  Py.truthy (Py.get_val fac "UUID") = true ->
  uuid_of fac = Text.strip (str (Py.get_val fac "UUID")).
Proof. unfold uuid_of, Py.or. intros ->. reflexivity. Qed.

(** A record with an identity maps to the cell of its identity. *)
Lemma uuid_cell_mapped fac :
  uuid_of fac <> "" ->
  In (u, Py.get_val fac "UUID") (cells_of col_map items fac).
Proof.
  intros Hne. pose proof (uuid_truthy _ Hne) as Ht.
  unfold cells_of. apply in_flat_map. exists ("UUID", dst).
  split; [apply get_in; exact uuid_rule|].
  unfold cell_of. rewrite uuid_col.
  change (Text.startswith (Text.lower "UUID") "date") with false.
  destruct (Py.get_val fac "UUID"); try discriminate; simpl; auto.
Qed.

Lemma uuid_col_of_rule : uuid_col_of col_map items = Some u.
Proof. unfold uuid_col_of, slug_rule. rewrite uuid_rule. exact uuid_col. Qed.

Variable sig_cols : list (option positive).

(** The row that holds an identity is indexed under it. *)
Lemma scan_cells_uuid cs : forall st c,
  find (fun c => Pos.eqb (column_id c) u) (List.rev cs) = Some c ->
  Py.truthy (cell_value c) = true ->
  fst (fold_left (scan_cell (Some u) sig_cols) cs st) =
  Some (Text.strip (str (cell_value c))).
Proof.
  induction cs as [|c0 cs IH] using rev_ind; intros st c Hfind Ht;
    [discriminate|].
  rewrite fold_left_app. simpl.
  destruct (fold_left (scan_cell (Some u) sig_cols) cs st) as [ru sv] eqn:E.
  rewrite rev_app_distr in Hfind. simpl in Hfind. simpl.
  destruct (Pos.eqb (column_id c0) u) eqn:Hc.
  - inversion Hfind; subst. rewrite Ht. reflexivity.
  - simpl. specialize (IH st c Hfind Ht). rewrite E in IH. exact IH.
Qed.

Lemma row_uuid_holds r fac :
  uuid_of fac <> "" ->
  cell_at r u = Some (Py.get_val fac "UUID") ->
  row_uuid (Some u) sig_cols r = Some (uuid_of fac).
Proof.
  intros Hne Hat. pose proof (uuid_truthy _ Hne) as Ht.
  unfold cell_at in Hat.
  destruct (find (fun c => Pos.eqb (column_id c) u) (List.rev (cells r)))
    as [c|] eqn:Hfind; [|discriminate].
  simpl in Hat. inversion Hat as [Hv].
  unfold row_uuid, scan_row.
  rewrite (scan_cells_uuid _ _ Hfind) by (rewrite Hv; exact Ht).
  rewrite Hv, <- uuid_of_truthy by exact Ht.
  unfold some_text. destruct (String.eqb_spec (uuid_of fac) ""); [contradiction|].
  reflexivity.
Qed.

End SecondPass.

Lemma last_written_in (K V : Type) (keq : K -> K -> bool)
    (kvs : list (K * V)) k v :
  In (k, v) kvs -> keq k k = true ->
  exists v', last_written keq kvs k = Some v'.
Proof.
  intros Hin Hk. unfold last_written.
  destruct (find (fun kv => keq k (fst kv)) (List.rev kvs)) as [[k' v']|] eqn:E.
  - exists v'. reflexivity.
  - apply find_none with (x := (k, v)) in E; [|apply in_rev in Hin; exact Hin].
    simpl in E. congruence.
Qed.

Section PassRecords.

Context {RT : Runtime}.

Variable col_map : dict string positive.
Variable items : list (string * string).
Variable ix : indexes.

Lemma classify_shape fac o :
  classify col_map items ix fac = Ok o ->
  (exists k, fac_signature fac = Ok k) /\
  match o with
  | Skipped => cells_of col_map items fac = []
  | Inserted i => i = mk_insert (cells_of col_map items fac)
  | Updated w => upd_cells w = cells_of col_map items fac
  end.
Proof.
  unfold classify. destruct (fac_signature fac) as [k|e]; [|discriminate].
  cbn [bind]. intros H. split; [eauto|].
  destruct (cells_of col_map items fac) as [|c cs];
    [inversion H; reflexivity|].
  destruct (find_row ix (uuid_of fac) k) as [[r|]|e]; inversion H; reflexivity.
Qed.

(** What a pass that returns has done with each record. *)
Lemma foldM_records facs : forall acc ins upd,
  foldM (reconcile_fac col_map items ix) facs acc = Ok (ins, upd) ->
  (forall i, In i (fst acc) -> In i ins) /\
  (forall w, In w (snd acc) -> In w upd) /\
  forall fac, In fac facs ->
    (exists k, fac_signature fac = Ok k) /\
    (cells_of col_map items fac = [] \/
     In (mk_insert (cells_of col_map items fac)) ins \/
     exists w, In w upd /\ upd_cells w = cells_of col_map items fac).
Proof.
  induction facs as [|fac facs IH]; intros acc ins upd H.
  - simpl in H. inversion H; subst. simpl.
    split; [auto | split; [auto | intros f []]].
  - cbn [foldM] in H. rewrite reconcile_fac_classify in H.
    destruct (classify col_map items ix fac) as [o|e] eqn:Ho; [|discriminate].
    cbn [bind] in H. destruct (IH _ _ _ H) as (Hi & Hu & Hall).
    destruct (classify_shape _ Ho) as (Hk & Hshape).
    split; [|split].
    + intros i Hin. apply Hi. destruct o; simpl; auto using in_or_app.
    + intros w Hin. apply Hu. destruct o; simpl; auto using in_or_app.
    + intros f [<-|Hin]; [|apply Hall; exact Hin].
      split; [exact Hk|].
      destruct o as [|i|w]; simpl in *.
      * left. exact Hshape.
      * right. left. rewrite <- Hshape. apply Hi. apply in_or_app.
        right. simpl. auto.
      * right. right. exists w. split; [|exact Hshape].
        apply Hu. apply in_or_app. right. simpl. auto.
Qed.

End PassRecords.

(** C3. A second pass makes no insert: let the rules be a mapping of text
    to text whose rule of the UUID resolves to a column of the sheet, let
    every record of the batch have a UUID that is not blank, and let a
    first pass return its inserts and updates. On a sheet that reflects
    these writes (and whose dates and tax ids are text or nothing) the
    pass over the same records returns no insert and one update for each
    record, in the order of the records. A sheet reflects the writes when
    every insert is held by a row and every update by the row of its id;
    a sheet with one row per id cannot do so once two records were written
    to one row with different cells. *)
Theorem second_pass_updates_only {RT : Runtime}
    (dest dest' : sheet) (facturas : list factura) (rules_json : value)
    (items : list (string * string)) (dst : string) (u : positive)
    (inserts : list insert) (updates : list update) :
  let col_map := col_map_of (columns dest) in
  rule_items (rules_of rules_json) = Ok items ->
  Py.get items "UUID" = Some dst ->
  dict_get String.eqb col_map (_slug dst) = Some u ->
  Forall (fun fac => uuid_of fac <> "") facturas ->
  reconcile dest facturas rules_json = Ok (inserts, updates) ->
  reflects dest dest' (inserts, updates) ->
  Forall (fun r => row_typed (uuid_col_of col_map items)
                             (sig_cols_of col_map items) r = true)
         (rows dest') ->
  exists updates',
    reconcile dest' facturas rules_json = Ok ([], updates') /\
    List.length updates' = List.length facturas /\
    map upd_cells updates' = map (cells_of col_map items) facturas.
Proof.
  intros col_map Hitems Hrule Hcol Hids Hrun (Hcols & Hins & Hupd) Htyped.
  pose proof (uuid_col_of_rule col_map items Hrule Hcol) as Hu.
  (* the first pass *)
  unfold reconcile in Hrun. fold col_map in Hrun. rewrite Hitems in Hrun.
  cbn [bind] in Hrun.
  destruct (index_rows (uuid_col_of col_map items) (sig_cols_of col_map items)
                       (rows dest)) as [ix1|e] eqn:Hix1; [|discriminate].
  cbn [bind] in Hrun.
  destruct (foldM_records _ _ _ _ _ Hrun) as (_ & _ & Hrec).
  (* the indexes of the second pass *)
  pose proof (@index_rows_from RT _ _ (rows dest') ([], []) Htyped) as Hix2.
  cbn [fst snd] in Hix2.
  set (sc := sig_cols_of col_map items) in *.
  remember (write_all String.eqb [] (uuid_entries (uuid_col_of col_map items) sc
                                                  (rows dest'))) as u2r.
  remember (write_all sig_eqb [] (sig_entries (uuid_col_of col_map items) sc
                                              (rows dest'))) as s2r.
  (* every record finds a row by its identity *)
  assert (Hfound : forall fac, In fac facturas ->
            exists r, dict_get String.eqb u2r (uuid_of fac) = Some r).
  { intros fac Hin.
    assert (Hne : uuid_of fac <> "") by (rewrite Forall_forall in Hids; auto).
    pose proof (uuid_cell_mapped col_map items Hrule Hcol _ Hne) as Hcell.
    destruct (Hrec fac Hin) as (_ & [Hnil | [Hi | (w & Hw & Hwc)]]).
    - rewrite Hnil in Hcell. destruct Hcell.
    - destruct (Hins _ Hi) as (r & Hr & Hholds).
      pose proof (row_uuid_holds u sc r fac Hne (Hholds _ _ Hcell)) as Hru.
      assert (Hent : In (uuid_of fac, row_id r)
                        (uuid_entries (Some u) sc (rows dest'))).
      { unfold uuid_entries. apply in_flat_map. exists r.
        split; [exact Hr|]. rewrite Hru. simpl. auto. }
      destruct (last_written_in String.eqb _ _ _ Hent (String.eqb_refl _))
        as [v Hv].
      exists v. subst u2r. rewrite Hu.
      rewrite (@dict_get_write_all _ _ String.eqb (fun _ => True));
        [rewrite Hv; reflexivity | | | constructor | | exact I].
      + intros a b _ _ H. rewrite String.eqb_sym. exact H.
      + intros a b c _ _ _ H1 H2. apply String.eqb_eq in H1, H2. subst.
        apply String.eqb_refl.
      + apply Forall_forall. intros; exact I.
    - rewrite <- Hwc in Hcell. destruct (Hupd _ Hw) as (r & Hr & _ & Hholds).
      pose proof (row_uuid_holds u sc r fac Hne (Hholds _ _ Hcell)) as Hru.
      assert (Hent : In (uuid_of fac, row_id r)
                        (uuid_entries (Some u) sc (rows dest'))).
      { unfold uuid_entries. apply in_flat_map. exists r.
        split; [exact Hr|]. rewrite Hru. simpl. auto. }
      destruct (last_written_in String.eqb _ _ _ Hent (String.eqb_refl _))
        as [v Hv].
      exists v. subst u2r. rewrite Hu.
      rewrite (@dict_get_write_all _ _ String.eqb (fun _ => True));
        [rewrite Hv; reflexivity | | | constructor | | exact I].
      + intros a b _ _ H. rewrite String.eqb_sym. exact H.
      + intros a b c _ _ _ H1 H2. apply String.eqb_eq in H1, H2. subst.
        apply String.eqb_refl.
      + apply Forall_forall. intros; exact I. }
  (* so every record is an update *)
  assert (Houts : exists outs,
            Forall2 (fun fac o => classify col_map items (u2r, s2r) fac = Ok o)
                    facturas outs /\
            inserts_of outs = [] /\
            map upd_cells (updates_of outs) =
              map (cells_of col_map items) facturas).
  { clear Hrun Hins Hupd. induction facturas as [|fac facs IH].
    - exists []. repeat split. constructor.
    - inversion Hids as [|? ? Hne Hids']; subst.
      destruct IH as (outs & Hall & Hno & Hcells); auto.
      { intros f Hf. apply Hrec. simpl; auto. }
      { intros f Hf. apply Hfound. simpl; auto. }
      destruct (Hrec fac (or_introl eq_refl)) as ((k & Hk) & _).
      destruct (Hfound fac (or_introl eq_refl)) as (r & Hr).
      pose proof (uuid_cell_mapped col_map items Hrule Hcol _ Hne) as Hcell.
      exists (Updated (mk_update r (cells_of col_map items fac)) :: outs).
      split; [|split].
      + constructor; [|exact Hall].
        unfold classify. rewrite Hk. cbn [bind].
        destruct (cells_of col_map items fac) as [|c cs]; [destruct Hcell|].
        unfold find_row.
        destruct (String.eqb_spec (uuid_of fac) ""); [contradiction|].
        rewrite Hr. reflexivity.
      + simpl. exact Hno.
      + simpl. f_equal. exact Hcells. }
  destruct Houts as (outs & Hall & Hno & Hcells).
  exists (updates_of outs). split; [|split].
  - unfold reconcile. rewrite Hcols. fold col_map. rewrite Hitems. cbn [bind].
    unfold index_rows. fold sc. rewrite Hix2. cbn [bind].
    rewrite (@foldM_classify RT col_map items (u2r, s2r) facturas outs ([], []) Hall).
    cbn [fst snd app]. rewrite Hno. reflexivity.
  - rewrite <- (length_map upd_cells), Hcells, length_map. reflexivity.
  - exact Hcells.
Qed.

Lemma second_pass_updates_only_witness :
  reconcile (RT := Ref.runtime) Scenario.sheet3
    [Scenario.fac; Scenario.fac_new] VNone = Ok Scenario.first_pass /\
  exists updates',
    reconcile (RT := Ref.runtime) Scenario.sheet3_after
      [Scenario.fac; Scenario.fac_new] VNone = Ok ([], updates') /\
    List.length updates' = 2%nat.
Proof.
  assert (Hrun : reconcile (RT := Ref.runtime) Scenario.sheet3
                   [Scenario.fac; Scenario.fac_new] VNone =
                 Ok Scenario.first_pass) by reflexivity.
  split; [exact Hrun|].
  destruct (@second_pass_updates_only Ref.runtime Scenario.sheet3
              Scenario.sheet3_after [Scenario.fac; Scenario.fac_new] VNone
              Scenario.items "UUID" 11%positive
              (fst Scenario.first_pass) (snd Scenario.first_pass)
              eq_refl eq_refl eq_refl)
    as (updates' & Hrun' & Hlen & _).
  - repeat constructor; vm_compute; discriminate.
  - exact Hrun.
  - split; [reflexivity|]. split.
    + intros i [<-|[]]. eexists. split; [do 4 right; left; reflexivity|].
      intros cid v Hin. simpl in Hin.
      repeat (destruct Hin as [E|Hin]; [inversion E; reflexivity|]).
      destruct Hin.
    + intros w [<-|[]]. eexists. split; [left; reflexivity|].
      split; [reflexivity|].
      intros cid v Hin. simpl in Hin.
      repeat (destruct Hin as [E|Hin]; [inversion E; reflexivity|]).
      destruct Hin.
  - repeat constructor.
  - exists updates'. split; [exact Hrun' | exact Hlen].
Defined.

(** C3 without the condition on the destination: the one row of the sheet
    holds the UUID of the second record and the signature of the first.
    The two records have the UUIDs A1 and B2, and the rule of the UUID
    resolves to column 11. The first pass updates row 201 twice, for the
    first record by its signature and for the second by its UUID; once
    the writes are committed the row holds the second record only, and
    the second pass inserts the first record. *)
Lemma shared_row_second_pass_inserts :
  uuid_of (RT := Ref.runtime) Scenario.fac = "A1" /\
  uuid_of (RT := Ref.runtime) Scenario.fac_new = "B2" /\
  uuid_col_of Scenario.col_map Scenario.items = Some 11%positive /\
  reconcile (RT := Ref.runtime) Samples.shared_row
    [Scenario.fac; Scenario.fac_new] VNone =
    Ok ([], [mk_update 201 Samples.cells_a1; mk_update 201 Samples.cells_b2]) /\
  rows (commit Samples.shared_row Samples.shared_writes 202) =
    [mk_row 201 [Scenario.text_cell 11 "B2"; Scenario.text_cell 12 "2025-07-02";
                 Scenario.text_cell 13 "def456"; mk_cell 14 (VInt 250) None;
                 Scenario.text_cell 15 "G03"]] /\
  reconcile (RT := Ref.runtime)
    (commit Samples.shared_row Samples.shared_writes 202)
    [Scenario.fac; Scenario.fac_new] VNone =
    Ok ([mk_insert Samples.cells_a1], [mk_update 201 Samples.cells_b2]).
Proof.
  split; [reflexivity|]. split; [reflexivity|]. split; [reflexivity|].
  split; [vm_compute; reflexivity|]. split; vm_compute; reflexivity.
Qed.

(** ** The fetch aggregator *)

Lemma py_eqb_text_sym a b :
  is_text a -> is_text b -> Py.eqb a b = true -> Py.eqb b a = true.
Proof.
  destruct a, b; simpl; try contradiction. intros _ _.
  rewrite String.eqb_sym. auto.
Qed.

Lemma py_eqb_text_trans a b c :
  is_text a -> is_text b -> is_text c ->
  Py.eqb a b = true -> Py.eqb b c = true -> Py.eqb a c = true.
Proof.
  destruct a, b, c; simpl; try contradiction. intros _ _ _ H1 H2.
  apply String.eqb_eq in H1, H2. subst. apply String.eqb_refl.
Qed.

Lemma py_eqb_text_eq a b :
  is_text a -> is_text b -> (Py.eqb a b = true <-> a = b).
Proof.
  destruct a, b; simpl; try contradiction. intros _ _.
  rewrite String.eqb_eq. split; [intros ->; reflexivity | intros H; inversion H; reflexivity].
Qed.

Section AggregatorFacts.

Context {RT : Runtime}.

Variable bind_get_all : nat -> string -> value -> string -> result (list factura).


Lemma falsy_or_text_or v s : falsy_or_text v = true ->
  exists t, Py.or v (VStr s) = VStr t.
Proof.
  unfold Py.or, falsy_or_text.
  destruct v as [|b|z|f|s0|l|d]; intros H;
    try (apply negb_true_iff in H; rewrite H; eauto).
  destruct (Py.truthy (VStr s0)); eauto.
Qed.

Lemma plan_row_typed id_fila r :
  cfg_typed r = true ->
  exists o, plan_row id_fila r = Ok o /\
            match o with Some t => is_text (etiqueta t) | None => True end.
Proof.
  unfold cfg_typed, plan_row. rewrite !andb_true_iff. intros [[Hf Hu] Hc].
  destruct (other_row id_fila r); [exists None; auto|].
  destruct (falsy_or_text_or _ "" Hf) as [f ->].
  destruct (falsy_or_text_or _ "https://api.bind.com.mx/api/Invoices" Hu) as [url ->].
  destruct (falsy_or_text_or _ ("ID-" ++ str (Py.get_val r "ID")) Hc) as [c ->].
  cbn [as_text bind].
  destruct (negb (Py.truthy (Py.get_val r "API Token"))).
  - exists None. auto.
  - eexists (Some _). split; [reflexivity|]. exact I.
Qed.

Lemma plan_typed id_fila cfg :
  Forall (fun r => cfg_typed r = true) cfg ->
  exists ts, plan id_fila cfg = Ok ts /\ Forall (fun t => is_text (etiqueta t)) ts.
Proof.
  induction 1 as [|r cfg Hr _ (ts & Hts & Htext)]; [exists []; split; [reflexivity|constructor]|].
  destruct (plan_row_typed id_fila r Hr) as (o & Ho & Hlab).
  cbn [plan]. rewrite Ho, Hts. cbn [bind].
  destruct o as [t|]; eexists; split; try reflexivity; auto.
Qed.

Lemma mapping_spec ts : forall i d,
  Forall (fun t => is_text (etiqueta t)) ts ->
  keys_in is_text d ->
  exists m,
    mapping ts (gather bind_get_all i ts) d = Ok m /\
    keys_in is_text m /\
    (forall k, is_text k -> ~ In k (map etiqueta ts) ->
       dict_get Py.eqb m k = dict_get Py.eqb d k) /\
    (NoDup (map etiqueta ts) ->
     forall j t, nth_error ts j = Some t ->
       dict_get Py.eqb m (etiqueta t) = Some (entry_of bind_get_all (i + j) t)).
Proof.
  induction ts as [|t ts IH]; intros i d Htext Hd.
  - exists d. repeat split; auto. intros _ [|j] t H; discriminate H.
  - inversion Htext as [|? ? Ht Htext']; subst.
    cbn [gather mapping].
    assert (Hh : Py.hashable (etiqueta t) = true)
      by (destruct (etiqueta t); try contradiction; reflexivity).
    rewrite Hh.
    set (d' := dict_set Py.eqb d (etiqueta t)
                 (summary (bind_get_all i (base_url t) (token t) (filtro t)))).
    assert (Hd' : keys_in is_text d') by (apply keys_in_set; assumption).
    destruct (IH (S i) d' Htext' Hd') as (m & Hm & Hkeys & Hother & Hget).
    exists m. split; [exact Hm|]. split; [exact Hkeys|]. split.
    + intros k Hk Hnot. rewrite Hother; [|exact Hk|intros H; apply Hnot; simpl; auto].
      unfold d'.
      rewrite (@dict_get_set _ _ Py.eqb is_text py_eqb_text_sym py_eqb_text_trans)
          by assumption.
      destruct (Py.eqb k (etiqueta t)) eqn:E; [|reflexivity].
      apply py_eqb_text_eq in E; try assumption. elim Hnot. simpl. auto.
    + intros Hnodup [|j] t' Hnth.
      * simpl in Hnth. inversion Hnth; subst t'.
        inversion Hnodup as [|? ? Hnotin _]; subst.
        rewrite Hother by assumption. unfold d'.
        rewrite (@dict_get_set _ _ Py.eqb is_text py_eqb_text_sym py_eqb_text_trans)
          by assumption.
        assert (Py.eqb (etiqueta t) (etiqueta t) = true) as ->
          by (apply py_eqb_text_eq; auto).
        rewrite Nat.add_0_r. reflexivity.
      * simpl in Hnth. inversion Hnodup; subst.
        rewrite (Hget ltac:(assumption) j t' Hnth).
        replace (S i + j)%nat with (i + S j)%nat by lia. reflexivity.
Qed.

End AggregatorFacts.

(** C4, as the code has it. The mapping is keyed by the label of the
    account. For a configuration whose filter, URL and client cells are
    text or empty, the call without push raises nothing and returns a
    mapping; when the labels of the attempted accounts differ from one
    another, the mapping holds for every attempted account the exception
    its fetch raised or the count of the records it fetched, and this entry
    is the same under any other outcomes of the other accounts. *)
Theorem fetch_failures_isolated {RT : Runtime}
    (bind_get_all : nat -> string -> value -> string -> result (list factura))
    (get_sheet : nat -> value -> result sheet)
    (cfg : list config_row) (id_fila : option string) :
  Forall (fun r => cfg_typed r = true) cfg ->
  exists ts m,
    plan id_fila cfg = Ok ts /\
    _traer_facturas_por_empresas bind_get_all get_sheet cfg id_fila false =
      Ok ([], m) /\
    (NoDup (map etiqueta ts) ->
     (forall j t, nth_error ts j = Some t ->
        dict_get Py.eqb m (etiqueta t) =
        Some (match bind_get_all j (base_url t) (token t) (filtro t) with
              | Raise e => Failed e
              | Ok l => Count (List.length l)
              end)) /\
     (forall other,
        exists m',
          _traer_facturas_por_empresas other get_sheet cfg id_fila false =
            Ok ([], m') /\
          forall j t, nth_error ts j = Some t ->
            other j (base_url t) (token t) (filtro t) =
            bind_get_all j (base_url t) (token t) (filtro t) ->
            dict_get Py.eqb m' (etiqueta t) = dict_get Py.eqb m (etiqueta t))).
Proof.
  intros Hcfg.
  destruct (plan_typed id_fila Hcfg) as (ts & Hplan & Htext).
  destruct (mapping_spec bind_get_all O (d := []) Htext (Forall_nil _))
    as (m & Hm & _ & _ & Hget).
  exists ts, m. split; [exact Hplan|]. split.
  - unfold _traer_facturas_por_empresas. rewrite Hplan. cbn [bind].
    rewrite Hm. reflexivity.
  - intros Hnodup. split.
    + intros j t Hnth. rewrite (Hget Hnodup j t Hnth). reflexivity.
    + intros other.
      destruct (mapping_spec other O (d := []) Htext (Forall_nil _))
        as (m' & Hm' & _ & _ & Hget').
      exists m'. split.
      * unfold _traer_facturas_por_empresas. rewrite Hplan. cbn [bind].
        rewrite Hm'. reflexivity.
      * intros j t Hnth Hsame.
        rewrite (Hget Hnodup j t Hnth), (Hget' Hnodup j t Hnth).
        unfold entry_of. cbn [Nat.add]. rewrite Hsame. reflexivity.
Qed.

(** C4 with two accounts under the name ACME: the fetch of the first one
    times out, and the mapping holds the count of the second one only. *)
Lemma same_label_hides_failure :
  plan (RT := Ref.runtime) None Scenario.cfg_same_name =
    Ok [mk_task (VStr "ACME") VNone VNone
                "https://api.bind.com.mx/api/Invoices" (VStr "t1") "";
        mk_task (VStr "ACME") VNone VNone
                "https://api.bind.com.mx/api/Invoices" (VStr "t2") ""] /\
  Scenario.first_times_out 0 "https://api.bind.com.mx/api/Invoices"
                           (VStr "t1") "" = Raise TimeoutError /\
  _traer_facturas_por_empresas (RT := Ref.runtime) Scenario.first_times_out
    Scenario.no_sheet Scenario.cfg_same_name None false =
    Ok ([], [(VStr "ACME", Count 2)]) /\
  dict_get Py.eqb [(VStr "ACME", Count 2)] (VStr "ACME") <>
    Some (Failed TimeoutError).
Proof.
  split; [reflexivity|]. split; [reflexivity|]. split; [reflexivity|].
  simpl. discriminate.
Qed.

(** Three accounts, the fetch of the second one times out. *)
Lemma fetch_failures_isolated_witness :
  _traer_facturas_por_empresas (RT := Ref.runtime) Scenario.second_times_out
    Scenario.no_sheet Scenario.cfg3 None false =
  Ok ([], [(VStr "Norte", Count 2); (VStr "Centro", Failed TimeoutError);
           (VStr "Sur", Count 2)]) /\
  exists ts m,
    plan (RT := Ref.runtime) None Scenario.cfg3 = Ok ts /\
    _traer_facturas_por_empresas (RT := Ref.runtime) Scenario.second_times_out
      Scenario.no_sheet Scenario.cfg3 None false = Ok ([], m) /\
    List.length ts = 3%nat.
Proof.
  split; [reflexivity|].
  destruct (@fetch_failures_isolated Ref.runtime Scenario.second_times_out
              Scenario.no_sheet Scenario.cfg3 None)
    as (ts & m & Hplan & Hrun & _).
  - repeat constructor.
  - exists ts, m. split; [exact Hplan|]. split; [exact Hrun|].
    assert (E : Ok ts = plan (RT := Ref.runtime) None Scenario.cfg3)
      by (symmetry; exact Hplan).
    vm_compute in E. inversion E. reflexivity.
Defined.

(** * Further properties of the code *)

(** ** Pages of one fetch *)

Section FetchFacts.

Variable client_get : nat -> string -> result value.

Lemma fetch_pages_serves ps : forall fuel page url acc,
  serves client_get page url ps -> (List.length ps <= fuel)%nat ->
  fetch_pages client_get fuel page url acc = Some (Ok (acc ++ concat ps)%list).
Proof.
  induction ps as [|items ps IH]; intros fuel page url acc Hs Hlen.
  - inversion Hs as [? ? Ht|]; subst.
    destruct fuel; simpl; rewrite Ht; simpl; rewrite app_nil_r; reflexivity.
  - inversion Hs as [|? ? ? next ? Ht Hr Hrest]; subst.
    destruct fuel as [|fuel]; [simpl in Hlen; lia|].
    simpl. rewrite Ht, Hr. simpl.
    rewrite (IH fuel _ _ _ Hrest) by (simpl in Hlen; lia).
    rewrite app_assoc. reflexivity.
Qed.

Lemma fetch_pages_ok fuel : forall page url acc res,
  fetch_pages client_get fuel page url acc = Some (Ok res) ->
  exists ps, serves client_get page url ps /\ (List.length ps <= fuel)%nat /\
             res = (acc ++ concat ps)%list.
Proof.
  induction fuel as [|fuel IH]; intros page url acc res; simpl;
    destruct (Py.truthy url) eqn:Ht; simpl.
  - discriminate.
  - intros H; inversion H; subst. exists []. simpl.
    rewrite app_nil_r. repeat split; [constructor; exact Ht | lia].
  - destruct (read_page client_get page url) as [[items next]|e] eqn:Hr;
      [|discriminate].
    intros H. destruct (IH _ _ _ _ H) as (ps & Hs & Hlen & ->).
    exists (items :: ps). simpl. rewrite app_assoc.
    repeat split; [econstructor; eassumption | lia].
  - intros H; inversion H; subst. exists []. simpl.
    rewrite app_nil_r. repeat split; [constructor; exact Ht | lia].
Qed.

Lemma fetch_pages_breaks n : forall fuel page url acc e,
  breaks client_get page url n e -> (n < fuel)%nat ->
  fetch_pages client_get fuel page url acc = Some (Raise e).
Proof.
  induction n as [|n IH]; intros fuel page url acc e Hb Hlt;
    (destruct fuel as [|fuel]; [lia|]); simpl.
  - inversion Hb as [? ? ? Ht Hr|]; subst. rewrite Ht, Hr. reflexivity.
  - inversion Hb as [|? ? ? next ? ? Ht Hr Hrest]; subst.
    rewrite Ht, Hr. simpl. apply IH; [assumption | lia].
Qed.

Lemma fetch_pages_raise fuel : forall page url acc e,
  fetch_pages client_get fuel page url acc = Some (Raise e) ->
  exists n, breaks client_get page url n e /\ (n < fuel)%nat.
Proof.
  induction fuel as [|fuel IH]; intros page url acc e; simpl;
    destruct (Py.truthy url) eqn:Ht; simpl; try discriminate.
  destruct (read_page client_get page url) as [[items next]|e'] eqn:Hr.
  - intros H. destruct (IH _ _ _ _ H) as (n & Hb & Hlt).
    exists (S n). split; [econstructor; eassumption | lia].
  - intros H; inversion H; subst. exists O.
    split; [constructor; assumption | lia].
Qed.

End FetchFacts.

(** X1. [bind_get_all] returns a list exactly when the pages are served
    from the built URL on and the loop has turns enough for them; the list
    is then the items of the pages, one page after the other, and it is
    empty without any request when the built URL is empty. *)
Theorem bind_get_all_concatenates_pages
    (client_get : nat -> string -> result value)
    (fuel : nat) (base_url : string) (filtro : option string)
    (res : list value) :
  bind_get_all client_get fuel base_url filtro = Some (Ok res) <->
  exists ps,
    serves client_get 1 (VStr (build_url base_url filtro)) ps /\
    (List.length ps <= fuel)%nat /\ res = concat ps.
Proof.
  unfold bind_get_all. split.
  - intros H. destruct (fetch_pages_ok _ _ _ _ _ H) as (ps & Hs & Hlen & ->).
    exists ps. auto.
  - intros (ps & Hs & Hlen & ->).
    rewrite (fetch_pages_serves [] Hs Hlen). reflexivity.
Qed.

(** X2. [bind_get_all] raises exactly when a request fails after some
    pages served (the request raises, the answer is no object, its [value]
    cannot be iterated, or its [nextLink] is no text), and then it raises
    that exception: the items of the pages read before are not returned. *)
Theorem bind_get_all_all_or_nothing
    (client_get : nat -> string -> result value)
    (fuel : nat) (base_url : string) (filtro : option string) (e : exn) :
  bind_get_all client_get fuel base_url filtro = Some (Raise e) <->
  exists n,
    breaks client_get 1 (VStr (build_url base_url filtro)) n e /\
    (n < fuel)%nat.
Proof.
  unfold bind_get_all. split.
  - apply fetch_pages_raise.
  - intros (n & Hb & Hlt). eapply fetch_pages_breaks; eassumption.
Qed.

(** X3. A page whose [nextLink] is its own URL keeps the loop going: when
    every request to the built URL answers with that link, [bind_get_all]
    does not return, whatever the number of turns. *)
Theorem bind_get_all_self_link_never_returns
    (client_get : nat -> string -> result value)
    (base_url : string) (filtro : option string) :
  build_url base_url filtro <> "" ->
  (forall page, exists items,
     read_page client_get page (VStr (build_url base_url filtro)) =
     Ok (items, VStr (build_url base_url filtro))) ->
  forall fuel, bind_get_all client_get fuel base_url filtro = None.
Proof.
  intros Hne Hpage fuel. unfold bind_get_all.
  generalize 1%nat as page. generalize (@nil value) as acc.
  assert (Ht : Py.truthy (VStr (build_url base_url filtro)) = true).
  { simpl. destruct (String.eqb_spec (build_url base_url filtro) "");
      [contradiction | reflexivity]. }
  induction fuel as [|fuel IH]; intros acc page; cbn [fetch_pages];
    rewrite Ht; cbn [negb].
  - reflexivity.
  - destruct (Hpage page) as [items Hr]. rewrite Hr. apply IH.
Qed.

Lemma bind_get_all_self_link_never_returns_witness :
  bind_get_all Samples.self_link 1000 "https://api.bind.com.mx/api/Invoices"
               (Some "Date ge 2025-01-01") = None.
Proof.
  apply bind_get_all_self_link_never_returns.
  - vm_compute. discriminate.
  - intros page. eexists. reflexivity.
Defined.


(** ** The URL of a fetch *)

Lemma prefix_app (p s : string) : Text.prefix p (p ++ s) = true.
Proof.
  induction p as [|a p IH]; simpl; [reflexivity|].
  rewrite Ascii.eqb_refl. exact IH.
Qed.

(** X4. [build_url] never alters the base: the URL built starts with it,
    and is the base itself when there is no filter. Under a filter it is
    the base, one separator ([&] when the base has a question mark, [?]
    when it has none) and a query that starts with [$filter=] in some
    case: the trimmed filter without its leading question mark, as it is
    when its lower-case form starts with [$filter=] (the prefix is never
    doubled), and with [$filter=] put before it exactly when it does not
    start so. *)
Theorem build_url_shape (base : string) (filtro : option string) :
  Text.prefix base (build_url base filtro) = true /\
  (filtro = None \/ filtro = Some "" -> build_url base filtro = base) /\
  (forall f, filtro = Some f -> f <> "" ->
     exists clean q,
       clean = (if Text.startswith (Text.strip f) "?"
                then String.substring 1 (String.length (Text.strip f))
                                      (Text.strip f)
                else Text.strip f) /\
       q = (if Text.startswith (Text.lower clean) "$filter="
            then clean else "$filter=" ++ clean) /\
       Text.startswith (Text.lower q) "$filter=" = true /\
       build_url base filtro =
         base ++ (if Text.contains base "?" then "&" else "?") ++ q).
Proof.
  split; [|split].
  - destruct filtro as [f|]; simpl.
    + destruct (String.eqb f ""); [|apply prefix_app].
      rewrite <- (prefix_app base "") at 1. f_equal.
      clear. induction base as [|a b IH]; simpl; congruence.
    + rewrite <- (prefix_app base "") at 1. f_equal.
      clear. induction base as [|a b IH]; simpl; congruence.
  - intros [->| ->]; reflexivity.
  - intros f -> Hf. unfold build_url.
    destruct (String.eqb_spec f "") as [E|_]; [contradiction|].
    set (clean := if Text.startswith (Text.strip f) "?"
                  then String.substring 1 (String.length (Text.strip f))
                                        (Text.strip f)
                  else Text.strip f).
    exists clean,
      (if Text.startswith (Text.lower clean) "$filter="
       then clean else "$filter=" ++ clean).
    split; [reflexivity|]. split; [reflexivity|]. split; [|reflexivity].
    destruct (Text.startswith (Text.lower clean) "$filter=") eqn:Hs;
      [exact Hs | reflexivity].
Qed.

(** ** The configuration as JSON *)

Lemma map_fst_combine (A B : Type) (a : list A) : forall b : list B,
  map fst (combine a b) = firstn (List.length b) a.
Proof.
  induction a as [|x a IH]; intros [|y b]; simpl; try reflexivity.
  f_equal. apply IH.
Qed.

Lemma NoDup_firstn (A : Type) (l : list A) : forall n,
  NoDup l -> NoDup (firstn n l).
Proof.
  induction l as [|x l IH]; intros [|n] H; simpl; try constructor.
  - inversion H as [|? ? Hx Hl]; subst. intros Hin. apply Hx.
    rewrite <- (firstn_skipn n l). apply in_or_app. auto.
  - inversion H; subst. apply IH; assumption.
Qed.

Lemma dict_set_fresh (V : Type) (d : dict string V) k v :
  ~ In k (map fst d) -> dict_set String.eqb d k v = (d ++ [(k, v)])%list.
Proof.
  induction d as [|[k' v'] d IH]; simpl; intros H; [reflexivity|].
  destruct (String.eqb_spec k k') as [->|_]; [elim H; auto|].
  rewrite IH; auto.
Qed.

(** Distinct keys written to a dict stay as they were written. *)
Lemma dict_of_distinct (V : Type) (l : list (string * V)) :
  NoDup (map fst l) -> dict_of String.eqb l = l.
Proof.
  unfold dict_of.
  assert (H : forall (d : dict string V),
            NoDup (map fst (d ++ l)) ->
            fold_left (fun d kv => dict_set String.eqb d (fst kv) (snd kv)) l d
            = (d ++ l)%list).
  { induction l as [|[k v] l IH]; intros d Hd; simpl.
    - rewrite app_nil_r. reflexivity.
    - rewrite dict_set_fresh.
      + rewrite IH; rewrite <- app_assoc; [reflexivity | exact Hd].
      + rewrite map_app in Hd. simpl in Hd.
        apply NoDup_remove_2 in Hd. intros Hin. apply Hd.
        apply in_or_app. auto. }
  intros Hl. apply (H [] Hl).
Qed.

(** X5. [sheet_to_json] on a sheet whose titles differ from one another:
    the header lists the titles in the order of the columns, and the dict
    of a row pairs the titles with the cells by position (the first title
    with the first cell, whatever the column ids), a cell giving its
    display value and, when it has none, its value; cells beyond the last
    title and titles beyond the last cell give no entry. [bind_config]
    takes its header from the keys of the first row, so it reports no
    header for a sheet with no row. *)
Theorem sheet_to_json_pairs_by_position (sh : sheet) :
  NoDup (map title (columns sh)) ->
  fst (sheet_to_json sh) = map title (columns sh) /\
  snd (sheet_to_json sh) =
    map (fun r => combine (map title (columns sh)) (map cell_json (cells r)))
        (rows sh) /\
  fst (bind_config sh) =
    match rows sh with
    | r :: _ => firstn (List.length (cells r)) (map title (columns sh))
    | [] => []
    end.
Proof.
  intros Hnd.
  assert (Hrow : forall r, row_json (map title (columns sh)) r =
            combine (map title (columns sh)) (map cell_json (cells r))).
  { intros r. unfold row_json. apply dict_of_distinct.
    rewrite map_fst_combine. apply NoDup_firstn. exact Hnd. }
  split; [reflexivity|]. split.
  - unfold sheet_to_json. simpl. apply map_ext. exact Hrow.
  - unfold bind_config, rows_as_dict, sheet_to_json. simpl.
    destruct (rows sh) as [|r rs]; simpl; [reflexivity|].
    rewrite Hrow, map_fst_combine, length_map. reflexivity.
Qed.

Lemma sheet_to_json_pairs_by_position_witness :
  snd (sheet_to_json Scenario.sheet3) =
    map (fun r => combine (map title (columns Scenario.sheet3))
                          (map cell_json (cells r)))
        (rows Scenario.sheet3) /\
  fst (bind_config Scenario.sheet3) =
    ["UUID"; "Fecha emisión"; "RFC Receptor"; "Total"; "Tipo CFDI"].
Proof.
  assert (Hnd : NoDup (map title (columns Scenario.sheet3))).
  { repeat constructor; simpl; intuition discriminate. }
  destruct (sheet_to_json_pairs_by_position Scenario.sheet3 Hnd) as (_ & Hd & Hh).
  split; [exact Hd | exact Hh].
Defined.


(** ** Slugs *)

Lemma code_chr (n : N) : (n < 256)%N -> Text.code (Text.chr n) = n.
Proof. apply N_ascii_embedding. Qed.

Lemma code_lt_256 (c : ascii) : (Text.code c < 256)%N.
Proof. apply N_ascii_bounded. Qed.

Lemma latin1_base_ascii b c :
  Text.latin1_base b = Some c -> (Text.code c < 128)%N.
Proof.
  unfold Text.latin1_base.
  repeat match goal with
         | |- context [if ?x then _ else _] => destruct x
         end;
    intros H; inversion H; subst; reflexivity.
Qed.

(** [str.lower] acts on each byte. *)
Lemma lower_ascii_code c :
  Text.code (Text.lower_ascii c) =
  if Text.in_range 65 90 (Text.code c) then (Text.code c + 32)%N else Text.code c.
Proof.
  unfold Text.lower_ascii.
  destruct (Text.in_range 65 90 (Text.code c)) eqn:H; [|reflexivity].
  apply code_chr. unfold Text.in_range in H.
  apply andb_true_iff in H. destruct H as [_ H]. apply N.leb_le in H. lia.
Qed.

Lemma lower_slug_byte c :
  (Text.code c <? 128)%N = true -> negb (Text.code c =? 32)%N = true ->
  slug_byte (Text.lower_ascii c) = true.
Proof.
  intros Ha Hs. unfold slug_byte. rewrite lower_ascii_code.
  unfold Text.in_range in *.
  apply N.ltb_lt in Ha. apply negb_true_iff, N.eqb_neq in Hs.
  destruct ((65 <=? Text.code c)%N && (Text.code c <=? 90)%N)%bool eqn:H.
  - apply andb_true_iff in H. destruct H as [H1 H2].
    apply N.leb_le in H1, H2.
    repeat (apply andb_true_iff; split).
    + apply N.ltb_lt. lia.
    + apply negb_true_iff, N.eqb_neq. lia.
    + apply negb_true_iff, andb_false_iff. right. apply N.leb_gt. lia.
  - repeat (apply andb_true_iff; split).
    + apply N.ltb_lt. lia.
    + apply negb_true_iff, N.eqb_neq. lia.
    + rewrite H. reflexivity.
Qed.

(** The three steps of [_slug] on the bytes they are given. *)
Lemma nfd_ascii_is_ascii s :
  all_bytes (fun c => N.ltb (Text.code c) 128) (Text.nfd_ascii s) = true.
Proof.
  enough (H : all_bytes (fun c => N.ltb (Text.code c) 128) (Text.nfd_ascii s) = true /\
              forall a, all_bytes (fun c => N.ltb (Text.code c) 128)
                                  (Text.nfd_ascii (String a s)) = true)
    by exact (proj1 H).
  induction s as [|b s [IH1 IH2]].
  - split; [reflexivity|]. intros a. simpl.
    destruct (N.ltb (Text.code a) 128) eqn:Ha; simpl; [rewrite Ha|]; reflexivity.
  - split; [apply IH2|]. intros a.
    change (Text.nfd_ascii (String a (String b s))) with
      (if N.ltb (Text.code a) 128 then String a (Text.nfd_ascii (String b s))
       else if N.eqb (Text.code a) 195 then
              match Text.latin1_base (Text.code b) with
              | Some c => String c (Text.nfd_ascii s)
              | None => Text.nfd_ascii s
              end
            else Text.nfd_ascii (String b s)).
    destruct (N.ltb (Text.code a) 128) eqn:Ha.
    + simpl all_bytes. rewrite Ha. apply IH2.
    + destruct (N.eqb (Text.code a) 195); [|apply IH2].
      destruct (Text.latin1_base (Text.code b)) as [c|] eqn:Hc; [|exact IH1].
      simpl all_bytes. apply latin1_base_ascii in Hc.
      apply N.ltb_lt in Hc. rewrite Hc. exact IH1.
Qed.

Lemma replace_space s :
  Text.replace s " " "" =
  match s with
  | EmptyString => EmptyString
  | String a r =>
      if Ascii.eqb " " a then Text.replace r " " ""
      else String a (Text.replace r " " "")
  end.
Proof.
  destruct s as [|a r]; [reflexivity|]. unfold Text.replace.
  cbn [Text.replace_from Text.prefix String.length Nat.pred].
  rewrite andb_true_r. destruct (Ascii.eqb " " a); reflexivity.
Qed.

Lemma space_code a : Ascii.eqb " " a = N.eqb (Text.code a) 32.
Proof.
  destruct (Ascii.eqb_spec " " a) as [<-|H]; [reflexivity|].
  symmetry. apply N.eqb_neq. intros E. apply H.
  rewrite <- (ascii_N_embedding a). unfold Text.code in E. rewrite E.
  reflexivity.
Qed.

Lemma slug_bytes s :
  all_bytes (fun c => N.ltb (Text.code c) 128) s = true ->
  all_bytes slug_byte (Text.lower (Text.replace s " " "")) = true.
Proof.
  induction s as [|a r IH]; [reflexivity|].
  simpl all_bytes. rewrite andb_true_iff. intros [Ha Hr].
  rewrite replace_space, space_code.
  destruct (N.eqb (Text.code a) 32) eqn:Hs; [apply IH; exact Hr|].
  simpl. rewrite (IH Hr), lower_slug_byte; [reflexivity | exact Ha |].
  rewrite Hs. reflexivity.
Qed.

Lemma slug_byte_fixed s :
  all_bytes slug_byte s = true ->
  Text.nfd_ascii s = s /\ Text.replace s " " "" = s /\ Text.lower s = s.
Proof.
  induction s as [|a r IH]; [repeat split|].
  simpl all_bytes. rewrite andb_true_iff. intros [Ha Hr].
  destruct (IH Hr) as (IH1 & IH2 & IH3).
  unfold slug_byte in Ha. rewrite !andb_true_iff in Ha.
  destruct Ha as [[Ha Hs] Hu].
  split; [|split].
  - destruct r as [|b r']; simpl; rewrite Ha; [reflexivity|].
    f_equal. exact IH1.
  - rewrite replace_space, space_code.
    apply negb_true_iff in Hs. rewrite Hs, IH2. reflexivity.
  - simpl. rewrite IH3. unfold Text.lower_ascii.
    apply negb_true_iff in Hu. rewrite Hu. reflexivity.
Qed.

(** X6. A slug holds ASCII bytes only, no space and no capital letter, and
    [_slug] leaves a slug as it is: the slug of a slug is the slug. *)
Theorem slug_idempotent (text : string) :
  all_bytes slug_byte (_slug text) = true /\ _slug (_slug text) = _slug text.
Proof.
  assert (H : all_bytes slug_byte (_slug text) = true)
    by (apply slug_bytes, nfd_ascii_is_ascii).
  split; [exact H|].
  destruct (slug_byte_fixed _ H) as (H1 & H2 & H3).
  unfold _slug at 1. rewrite H1, H2, H3. reflexivity.
Qed.

Lemma lower_ascii_not_upper c :
  Text.in_range 65 90 (Text.code (Text.lower_ascii c)) = false.
Proof.
  rewrite lower_ascii_code. unfold Text.in_range.
  destruct ((65 <=? Text.code c)%N && (Text.code c <=? 90)%N)%bool eqn:H;
    [|exact H].
  apply andb_true_iff in H. destruct H as [H1 H2]. apply N.leb_le in H1, H2.
  apply andb_false_iff. right. apply N.leb_gt. lia.
Qed.

Lemma lower_ascii_idem c :
  Text.lower_ascii (Text.lower_ascii c) = Text.lower_ascii c.
Proof.
  unfold Text.lower_ascii at 1. rewrite lower_ascii_not_upper. reflexivity.
Qed.

Lemma lower_ascii_high c :
  (Text.code c <? 128)%N = false -> Text.lower_ascii c = c.
Proof.
  intros H. apply N.ltb_ge in H. unfold Text.lower_ascii, Text.in_range.
  replace (Text.code c <=? 90)%N with false
    by (symmetry; apply N.leb_gt; lia).
  rewrite andb_false_r. reflexivity.
Qed.

Lemma lower_ascii_low c :
  (Text.code (Text.lower_ascii c) <? 128)%N = (Text.code c <? 128)%N.
Proof.
  destruct (Text.code c <? 128)%N eqn:H.
  - apply N.ltb_lt in H. apply N.ltb_lt. rewrite lower_ascii_code.
    unfold Text.in_range.
    destruct ((65 <=? Text.code c)%N && (Text.code c <=? 90)%N)%bool eqn:E;
      [|exact H].
    apply andb_true_iff in E. destruct E as [_ E]. apply N.leb_le in E. lia.
  - rewrite (lower_ascii_high _ H). exact H.
Qed.

Lemma lower_ascii_space c :
  Ascii.eqb " " (Text.lower_ascii c) = Ascii.eqb " " c.
Proof.
  rewrite !space_code, lower_ascii_code. unfold Text.in_range.
  destruct ((65 <=? Text.code c)%N && (Text.code c <=? 90)%N)%bool eqn:E;
    [|reflexivity].
  apply andb_true_iff in E. destruct E as [E _]. apply N.leb_le in E.
  transitivity false; [|symmetry]; apply N.eqb_neq; lia.
Qed.

Lemma latin1_base_low n : (n < 128)%N -> Text.latin1_base n = None.
Proof.
  intros H. unfold Text.latin1_base, Text.in_range.
  repeat match goal with
         | |- context [(?a <=? n)%N] =>
             replace (a <=? n)%N with false by (symmetry; apply N.leb_gt; lia)
         | |- context [(n =? ?a)%N] =>
             replace (n =? a)%N with false by (symmetry; apply N.eqb_neq; lia)
         end.
  reflexivity.
Qed.

Lemma latin1_base_lower b :
  Text.latin1_base (Text.code (Text.lower_ascii b)) =
  Text.latin1_base (Text.code b).
Proof.
  destruct (Text.code b <? 128)%N eqn:H.
  - rewrite !latin1_base_low; [reflexivity | | ].
    + apply N.ltb_lt. exact H.
    + apply N.ltb_lt. rewrite lower_ascii_low. exact H.
  - rewrite (lower_ascii_high _ H). reflexivity.
Qed.

Lemma lower_replace_space s :
  Text.lower (Text.replace s " " "") = Text.replace (Text.lower s) " " "".
Proof.
  induction s as [|a r IH]; [reflexivity|].
  rewrite replace_space. cbn [Text.lower]. rewrite (replace_space (String _ _)).
  rewrite lower_ascii_space, <- IH.
  destruct (Ascii.eqb " " a); reflexivity.
Qed.

Lemma nfd_ascii_step a b s :
  Text.nfd_ascii (String a (String b s)) =
  if N.ltb (Text.code a) 128 then String a (Text.nfd_ascii (String b s))
  else if N.eqb (Text.code a) 195 then
         match Text.latin1_base (Text.code b) with
         | Some c => String c (Text.nfd_ascii s)
         | None => Text.nfd_ascii s
         end
       else Text.nfd_ascii (String b s).
Proof. reflexivity. Qed.

Lemma lower_nfd_ascii s :
  Text.lower (Text.nfd_ascii (Text.lower s)) = Text.lower (Text.nfd_ascii s).
Proof.
  enough (H : Text.lower (Text.nfd_ascii (Text.lower s)) =
              Text.lower (Text.nfd_ascii s) /\
              forall a, Text.lower (Text.nfd_ascii (Text.lower (String a s))) =
                        Text.lower (Text.nfd_ascii (String a s)))
    by exact (proj1 H).
  induction s as [|b s [IH1 IH2]].
  - split; [reflexivity|]. intros a. cbn [Text.lower Text.nfd_ascii].
    rewrite lower_ascii_low.
    destruct (Text.code a <? 128)%N; [|reflexivity].
    cbn [Text.lower]. rewrite lower_ascii_idem. reflexivity.
  - split; [apply IH2|]. intros a.
    change (Text.lower (String a (String b s))) with
      (String (Text.lower_ascii a) (String (Text.lower_ascii b) (Text.lower s))).
    rewrite !nfd_ascii_step, lower_ascii_low, latin1_base_lower.
    destruct (Text.code a <? 128)%N eqn:Ha.
    + cbn [Text.lower]. rewrite lower_ascii_idem. f_equal.
      exact (IH2 b).
    + rewrite (lower_ascii_high _ Ha).
      destruct (Text.code a =? 195)%N; [|exact (IH2 b)].
      destruct (Text.latin1_base (Text.code b)); [|exact IH1].
      cbn [Text.lower]. f_equal. exact IH1.
Qed.

Lemma slug_lower s : _slug (Text.lower s) = _slug s.
Proof.
  unfold _slug.
  rewrite !lower_replace_space, lower_nfd_ascii. reflexivity.
Qed.

(** X7. [_slug] ignores the case of ASCII letters: two texts with the same
    lower-case form have the same slug, whatever their other bytes are. *)
Theorem slug_ignores_case (s t : string) :
  Text.lower s = Text.lower t -> _slug s = _slug t.
Proof.
  intros H. rewrite <- (slug_lower s), <- (slug_lower t), H. reflexivity.
Qed.

Lemma slug_ignores_case_witness :
  Text.lower "Fecha Emision" = Text.lower "FECHA emision" /\
  _slug "Fecha Emision" = _slug "FECHA emision".
Proof.
  split; [reflexivity|]. apply slug_ignores_case. reflexivity.
Defined.

(** ** Which rows the aggregator works on *)

Section PlanFacts.

Context {RT : Runtime}.

Variable bind_get_all : nat -> string -> value -> string -> result (list factura).
Variable get_sheet : nat -> value -> result sheet.

Lemma bind_ret {A : Type} (m : result A) : (x <- m ;; Ok x) = m.
Proof. destruct m; reflexivity. Qed.

Lemma plan_no_id cfg : plan (Some "") cfg = plan None cfg.
Proof. induction cfg as [|r cfg IH]; [reflexivity|]. cbn [plan]. rewrite IH. reflexivity. Qed.

Lemma plan_filter i cfg :
  i <> "" -> plan (Some i) cfg = plan None (filter (has_id i) cfg).
Proof.
  intros Hi. apply String.eqb_neq in Hi.
  induction cfg as [|r cfg IH]; [reflexivity|].
  cbn [plan filter]. rewrite IH.
  assert (Ho : other_row (Some i) r = negb (has_id i r)).
  { unfold other_row, has_id. rewrite Hi. reflexivity. }
  destruct (has_id i r) eqn:Hr.
  - cbn [plan]. unfold plan_row. rewrite Ho. reflexivity.
  - unfold plan_row at 1. rewrite Ho. cbn [negb bind]. apply bind_ret.
Qed.

(** X8. The [id] given to the aggregator selects rows: an empty [id] is no
    filter; another [id] gives what the rows whose [ID] is that text give
    without a filter, in push mode or not; an [id] that no row carries
    gives the empty mapping and no call, not an error. *)
Theorem id_filter_selects_rows (cfg : list config_row) (push_mode : bool) :
  _traer_facturas_por_empresas bind_get_all get_sheet cfg (Some "") push_mode =
  _traer_facturas_por_empresas bind_get_all get_sheet cfg None push_mode /\
  (forall i, i <> "" ->
     _traer_facturas_por_empresas bind_get_all get_sheet cfg (Some i) push_mode =
     _traer_facturas_por_empresas bind_get_all get_sheet
       (filter (has_id i) cfg) None push_mode) /\
  (forall i, i <> "" -> (forall r, In r cfg -> has_id i r = false) ->
     _traer_facturas_por_empresas bind_get_all get_sheet cfg (Some i) push_mode =
     Ok ([], [])).
Proof.
  split; [|split].
  - unfold _traer_facturas_por_empresas. rewrite plan_no_id. reflexivity.
  - intros i Hi. unfold _traer_facturas_por_empresas.
    rewrite (plan_filter cfg Hi). reflexivity.
  - intros i Hi Hno. unfold _traer_facturas_por_empresas.
    rewrite (plan_filter cfg Hi).
    replace (filter (has_id i) cfg) with (@nil config_row).
    + destruct push_mode; reflexivity.
    + symmetry. induction cfg as [|r cfg IH]; [reflexivity|].
      cbn [filter]. rewrite (Hno r (or_introl eq_refl)).
      apply IH. intros r' Hr'. apply Hno. right. exact Hr'.
Qed.

Lemma push_all_raise ts : forall i j t e,
  nth_error ts j = Some t ->
  (forall k t', (k < j)%nat -> nth_error ts k = Some t' ->
     exists calls,
       push_of get_sheet (i + k) t'
         (bind_get_all (i + k) (base_url t') (token t') (filtro t')) = Ok calls) ->
  push_of get_sheet (i + j) t
    (bind_get_all (i + j) (base_url t) (token t) (filtro t)) = Raise e ->
  push_all get_sheet i ts (gather bind_get_all i ts) = Raise e.
Proof.
  induction ts as [|t0 ts IH]; intros i j t e Hj Hbefore Hfail.
  - destruct j; discriminate.
  - cbn [gather push_all]. destruct j as [|j].
    + injection Hj as ->. rewrite Nat.add_0_r in Hfail.
      unfold push_of in Hfail. rewrite Hfail. reflexivity.
    + destruct (Hbefore O t0 (Nat.lt_0_succ j) eq_refl) as [calls Hc].
      rewrite Nat.add_0_r in Hc. unfold push_of in Hc. rewrite Hc.
      cbn [bind].
      rewrite (IH (S i) j t e Hj); [reflexivity | |].
      * intros k t' Hk Hn.
        replace (S i + k)%nat with (i + S k)%nat by lia.
        apply Hbefore; [lia | exact Hn].
      * replace (S i + j)%nat with (i + S j)%nat by lia. exact Hfail.
Qed.

(** X9. In push mode the writes are not isolated as the fetches are: when
    the pass of one account raises (its rules cannot be read, a total or a
    cell does not fit) after the passes of the accounts before it returned,
    the aggregator raises that exception: no mapping is returned and the
    accounts after it are not written. *)
Theorem push_failure_escapes (cfg : list config_row) (id_fila : option string)
    (ts : list task) (j : nat) (t : task) (e : exn) :
  plan id_fila cfg = Ok ts ->
  nth_error ts j = Some t ->
  (forall k t', (k < j)%nat -> nth_error ts k = Some t' ->
     exists calls,
       push_of get_sheet k t'
         (bind_get_all k (base_url t') (token t') (filtro t')) = Ok calls) ->
  push_of get_sheet j t
    (bind_get_all j (base_url t) (token t) (filtro t)) = Raise e ->
  _traer_facturas_por_empresas bind_get_all get_sheet cfg id_fila true = Raise e.
Proof.
  intros Hplan Hj Hbefore Hfail.
  unfold _traer_facturas_por_empresas. rewrite Hplan. cbn [bind].
  rewrite (@push_all_raise ts O j t e Hj Hbefore Hfail). reflexivity.
Qed.

End PlanFacts.

Lemma push_failure_escapes_witness :
  _traer_facturas_por_empresas (RT := Ref.runtime) Samples.fetched Samples.opened
    [Samples.bad_rules; Samples.good_rules] None true = Raise AttributeError /\
  exists m,
    _traer_facturas_por_empresas (RT := Ref.runtime) Samples.fetched Samples.opened
      [Samples.bad_rules; Samples.good_rules] None false = Ok ([], m).
Proof.
  split.
  - eapply (@push_failure_escapes Ref.runtime Samples.fetched Samples.opened
              [Samples.bad_rules; Samples.good_rules] None _ O).
    + reflexivity.
    + reflexivity.
    + intros k t' Hk. lia.
    + vm_compute. reflexivity.
  - eexists. vm_compute. reflexivity.
Defined.

(** ** What the pass writes *)

Section DictValues.

Variables K V : Type.
Variable keq : K -> K -> bool.

Lemma dict_get_value (d : dict K V) k v :
  dict_get keq d k = Some v -> In v (map snd d).
Proof.
  induction d as [|[k' v'] d IH]; [discriminate|]. cbn [dict_get map snd].
  destruct (keq k k'); intros H.
  - injection H as ->. left. reflexivity.
  - right. apply IH. exact H.
Qed.

Lemma dict_set_values (d : dict K V) k v v' :
  In v' (map snd (dict_set keq d k v)) -> v' = v \/ In v' (map snd d).
Proof.
  induction d as [|[k0 v0] d IH]; cbn [dict_set map snd].
  - intros [<-|[]]. left. reflexivity.
  - destruct (keq k k0); cbn [map snd]; intros [<-|H].
    + left. reflexivity.
    + right. right. exact H.
    + right. left. reflexivity.
    + destruct (IH H) as [->|H']; [left; reflexivity | right; right; exact H'].
Qed.

Lemma dict_of_values (l : list (K * V)) v :
  In v (map snd (dict_of keq l)) -> In v (map snd l).
Proof.
  unfold dict_of.
  enough (H : forall d, In v (map snd (fold_left
                 (fun d kv => dict_set keq d (fst kv) (snd kv)) l d)) ->
               In v (map snd d) \/ In v (map snd l)).
  { intros Hin. destruct (H [] Hin) as [[]|H']. exact H'. }
  induction l as [|[k0 v0] l IH]; intros d; cbn [fold_left map fst snd].
  - intros H. left. exact H.
  - intros H. destruct (IH _ H) as [H'|H'].
    + destruct (dict_set_values _ _ _ _ H') as [->|H''].
      * right. left. reflexivity.
      * left. exact H''.
    + right. right. exact H'.
Qed.

End DictValues.

Section WriteFacts.

Context {RT : Runtime}.

Lemma cells_of_columns cols items fac cw :
  In cw (cells_of (col_map_of cols) items fac) -> In (fst cw) (map col_id cols).
Proof.
  unfold cells_of. rewrite in_flat_map. intros ([src dst] & _ & Hin).
  unfold cell_of in Hin.
  destruct (dict_get String.eqb (col_map_of cols) (_slug dst)) as [cid|] eqn:Hc;
    [|destruct Hin].
  assert (Hcid : In cid (map col_id cols)).
  { apply dict_get_value in Hc. unfold col_map_of in Hc.
    apply dict_of_values in Hc. rewrite map_map in Hc. exact Hc. }
  destruct (Py.get_val fac src);
    first [destruct Hin as [<-|[]]; exact Hcid | destruct Hin].
Qed.

Lemma index_rows_ids u sc rs : forall ix0 ix,
  foldM (index_row u sc) rs ix0 = Ok ix ->
  (forall v, In v (map snd (fst ix)) ->
     In v (map snd (fst ix0)) \/ In v (map row_id rs)) /\
  (forall v, In v (map snd (snd ix)) ->
     In v (map snd (snd ix0)) \/ In v (map row_id rs)).
Proof.
  induction rs as [|r rs IH]; intros [u0 s0] ix; cbn [foldM].
  - intros H. injection H as <-. split; intros v Hv; left; exact Hv.
  - unfold index_row at 1.
    destruct (scan_row u sc r) as [row_uuid sig_vals].
    destruct (row_signature sig_vals) as [k|e]; [|discriminate].
    cbn [bind]. unfold sig_set.
    destruct (sig_hashable k); [|discriminate]. cbn [bind].
    intros H. destruct (IH _ _ H) as [H1 H2]. cbn [fst snd] in *.
    split; intros v Hv.
    + destruct (H1 v Hv) as [H'|H']; [|right; right; exact H'].
      destruct (some_text row_uuid).
      * apply dict_set_values in H'. destruct H' as [->|H''];
          [right; left; reflexivity | left; exact H''].
      * left. exact H'.
    + destruct (H2 v Hv) as [H'|H']; [|right; right; exact H'].
      apply dict_set_values in H'. destruct H' as [->|H''];
        [right; left; reflexivity | left; exact H''].
Qed.

Lemma find_row_id ix uuid_val k r :
  find_row ix uuid_val k = Ok (Some r) ->
  In r (map snd (fst ix)) \/ In r (map snd (snd ix)).
Proof.
  destruct ix as [u2r s2r]. unfold find_row. cbn [fst snd].
  destruct (if String.eqb uuid_val "" then None
            else dict_get String.eqb u2r uuid_val) as [r'|] eqn:Hu.
  - intros H. injection H as <-. left.
    destruct (String.eqb uuid_val ""); [discriminate|].
    eapply dict_get_value. exact Hu.
  - unfold sig_get. destruct (sig_hashable k); [|discriminate].
    intros H. injection H as H. right. eapply dict_get_value. exact H.
Qed.

Lemma reconcile_fac_keeps (P : insert -> Prop) (Q : update -> Prop)
    cm items ix facs :
  (forall fac, cells_of cm items fac <> [] ->
     P (mk_insert (cells_of cm items fac))) ->
  (forall fac r k, cells_of cm items fac <> [] ->
     find_row ix (uuid_of fac) k = Ok (Some r) ->
     Q (mk_update r (cells_of cm items fac))) ->
  forall acc b,
    foldM (reconcile_fac cm items ix) facs acc = Ok b ->
    Forall P (fst acc) -> Forall Q (snd acc) ->
    Forall P (fst b) /\ Forall Q (snd b).
Proof.
  intros HP HQ. induction facs as [|fac facs IH]; intros [ins upd] b; cbn [foldM].
  - intros H. injection H as <-. auto.
  - unfold reconcile_fac at 1.
    destruct (fac_signature fac) as [k|e]; [|discriminate]. cbn [bind].
    destruct (cells_of cm items fac) as [|c cs] eqn:Hc.
    + cbn [bind]. apply IH.
    + destruct (find_row ix (uuid_of fac) k) as [[r|]|e] eqn:Hf;
        [| |discriminate]; cbn [bind fst snd]; intros H Hi Hu;
        apply (IH _ _ H); cbn [fst snd]; auto.
      * apply Forall_app. split; [exact Hu|]. constructor; [|constructor].
        rewrite <- Hc. eapply HQ; [rewrite Hc; discriminate|].
        exact Hf.
      * apply Forall_app. split; [exact Hi|]. constructor; [|constructor].
        rewrite <- Hc. apply HP. rewrite Hc. discriminate.
Qed.

(** X10. What a pass sends can be taken by the sheet it read: it sends no
    empty batch, no entry without cells, no cell in a column that the sheet
    does not have, and no update of a row that the sheet does not have. *)
Theorem push_writes_well_formed (sh : sheet) (facturas : list factura)
    (rules_json : value) (calls : list api_call) :
  _push_to_sheet (Ok sh) facturas rules_json = Ok calls ->
  Forall (well_formed sh) calls.
Proof.
  unfold _push_to_sheet.
  destruct (reconcile sh facturas rules_json) as [[ins upd]|e] eqn:Hr;
    [|discriminate].
  cbn [bind]. intros H. injection H as <-.
  unfold reconcile in Hr.
  destruct (rule_items (rules_of rules_json)) as [items|e]; [|discriminate].
  cbn [bind] in Hr.
  destruct (index_rows _ _ (rows sh)) as [ix|e] eqn:Hix; [|discriminate].
  cbn [bind] in Hr.
  apply index_rows_ids in Hix. destruct Hix as [Hu Hs].
  cbn [fst snd] in Hu, Hs.
  assert (Hcells : forall fac,
            cells_of (col_map_of (columns sh)) items fac <> [] ->
            cells_in sh (cells_of (col_map_of (columns sh)) items fac)).
  { intros fac Hne. split; [exact Hne|]. apply Forall_forall.
    intros cw. apply cells_of_columns. }
  destruct (@reconcile_fac_keeps
              (fun i => cells_in sh (ins_cells i))
              (fun u => In (upd_id u) (map row_id (rows sh)) /\
                        cells_in sh (upd_cells u))
              (col_map_of (columns sh)) items ix facturas) with (3 := Hr)
    as [Hi Hup].
  - intros fac Hne. apply Hcells. exact Hne.
  - intros fac r k Hne Hf. split; [|apply Hcells; exact Hne].
    cbn [upd_id]. apply find_row_id in Hf. destruct Hf as [H|H].
    + destruct (Hu r H) as [H'|H']; [destruct H' | exact H'].
    + destruct (Hs r H) as [H'|H']; [destruct H' | exact H'].
  - constructor.
  - constructor.
  - cbn [fst snd] in Hi, Hup. apply Forall_app. split.
    + destruct ins; constructor; [|constructor]. split; [discriminate|exact Hi].
    + destruct upd; constructor; [|constructor]. split; [discriminate|exact Hup].
Qed.

End WriteFacts.

Lemma push_writes_well_formed_witness :
  Forall (well_formed Scenario.sheet3)
         [POST (fst Scenario.first_pass); PUT (snd Scenario.first_pass)].
Proof.
  apply (@push_writes_well_formed Ref.runtime Scenario.sheet3
           [Scenario.fac; Scenario.fac_new] VNone).
  vm_compute. reflexivity.
Defined.

(** ** The row of a record, from the rows of the sheet *)

Section ResolutionFacts.

Context {RT : Runtime}.

Variable uuid_col_id : option positive.
Variable sig_cols : list (option positive).

Lemma last_written_uuid rs x :
  last_written String.eqb (uuid_entries uuid_col_id sig_cols rs) x =
  option_map row_id (find (has_uuid uuid_col_id sig_cols x) (List.rev rs)).
Proof.
  unfold last_written. induction rs as [|r rs IH]; [reflexivity|].
  cbn [uuid_entries flat_map List.rev]. fold (uuid_entries uuid_col_id sig_cols rs).
  rewrite rev_app_distr, find_snoc.
  destruct (find (has_uuid uuid_col_id sig_cols x) (List.rev rs)) as [r0|] eqn:Hf.
  - cbn [option_map] in IH |- *.
    destruct (row_uuid uuid_col_id sig_cols r) as [u|]; cbn [List.rev app];
      rewrite ?app_nil_r, ?find_snoc;
      destruct (find (fun kv => String.eqb x (fst kv))
                     (List.rev (uuid_entries uuid_col_id sig_cols rs)));
      cbn [option_map] in IH |- *; solve [exact IH | discriminate IH].
  - cbn [option_map] in IH. unfold has_uuid at 1.
    destruct (row_uuid uuid_col_id sig_cols r) as [u|]; cbn [List.rev app].
    + rewrite find_snoc.
      destruct (find (fun kv => String.eqb x (fst kv))
                     (List.rev (uuid_entries uuid_col_id sig_cols rs)));
        [discriminate IH|].
      cbn [fst]. destruct (String.eqb x u); reflexivity.
    + rewrite app_nil_r.
      destruct (find (fun kv => String.eqb x (fst kv))
                     (List.rev (uuid_entries uuid_col_id sig_cols rs)));
        [discriminate IH | reflexivity].
Qed.

(** Indexing the rows and looking a record up, in terms of the rows. *)
Lemma find_row_resolved (rs : list row) (fac : factura) :
  Forall (fun r => row_typed uuid_col_id sig_cols r = true) rs ->
  fac_typed fac = true ->
  exists ix k,
    index_rows uuid_col_id sig_cols rs = Ok ix /\
    fac_signature fac = Ok k /\
    find_row ix (uuid_of fac) k =
      Ok (option_map row_id
            (resolved_row uuid_col_id sig_cols rs (uuid_of fac) k)).
Proof.
  intros Hrs Hfac.
  exists (write_all String.eqb [] (uuid_entries uuid_col_id sig_cols rs),
          write_all sig_eqb [] (sig_entries uuid_col_id sig_cols rs)).
  unfold fac_typed in Hfac. apply andb_true_iff in Hfac. destruct Hfac as [Hd Hr].
  pose proof (@make_signature_typed RT _ _ (Py.get_val fac "Total")
                (Py.get_val fac "CFDIUse") Hd Hr) as Hk.
  fold (fac_signature fac) in Hk.
  eexists. split; [exact (@index_rows_from RT uuid_col_id sig_cols rs ([], []) Hrs)|].
  split; [exact Hk|].
  assert (Hdated : text_dated
            (iso_date (Py.get_val fac "Date"),
             Text.upper (Text.strip (text_of (Py.get_val fac "RFC"))),
             _coerce_total (Py.get_val fac "Total"),
             Text.strip (str (Py.or (Py.get_val fac "CFDIUse") (VStr ""))))).
  { destruct (iso_date_text _ Hd) as [d ->]. exact I. }
  match goal with |- find_row ?ix ?u ?k = _ =>
    assert (Hfind : find_row ix u k =
              Ok (option_map row_id (resolved_row uuid_col_id sig_cols rs u k)))
  end.
  { unfold find_row, resolved_row.
    rewrite (@dict_get_write_all _ _ String.eqb (fun _ => True));
      [| | | constructor | apply Forall_forall; intros; exact I | exact I].
    - rewrite last_written_uuid. cbn [dict_get].
      destruct (String.eqb (uuid_of fac) "").
      + unfold sig_get.
        replace (sig_hashable _) with true
          by (destruct (iso_date_text _ Hd) as [d ->]; reflexivity).
        rewrite (@dict_get_write_all _ _ sig_eqb text_dated sig_eqb_sym sig_eqb_trans);
          [| constructor | apply sig_entries_dated; assumption | exact Hdated].
        rewrite last_written_sig by assumption. cbn [dict_get].
        destruct (find (has_sig uuid_col_id sig_cols _) (List.rev rs)); reflexivity.
      + destruct (find (has_uuid uuid_col_id sig_cols (uuid_of fac)) (List.rev rs));
          [reflexivity|]. cbn [option_map].
        unfold sig_get.
        replace (sig_hashable _) with true
          by (destruct (iso_date_text _ Hd) as [d ->]; reflexivity).
        rewrite (@dict_get_write_all _ _ sig_eqb text_dated sig_eqb_sym sig_eqb_trans);
          [| constructor | apply sig_entries_dated; assumption | exact Hdated].
        rewrite last_written_sig by assumption. cbn [dict_get].
        destruct (find (has_sig uuid_col_id sig_cols _) (List.rev rs)); reflexivity.
    - intros a b _ _ H. rewrite String.eqb_sym. exact H.
    - intros a b c _ _ _ H1 H2. apply String.eqb_eq in H1, H2. subst.
      apply String.eqb_refl. }
  exact Hfind.
Qed.

(** The outcome of a record whose row is known. *)
Lemma classify_found (col_map : dict string positive)
    (items : list (string * string)) (ix : indexes) (fac : factura)
    (k : signature) (found : option row) :
  fac_signature fac = Ok k ->
  find_row ix (uuid_of fac) k = Ok (option_map row_id found) ->
  classify col_map items ix fac =
    Ok (match cells_of col_map items fac with
        | [] => Skipped
        | cs =>
            match found with
            | Some r => Updated (mk_update (row_id r) cs)
            | None => Inserted (mk_insert cs)
            end
        end).
Proof.
  intros Hk Hfind. unfold classify. rewrite Hk. cbn [bind].
  destruct (cells_of col_map items fac) as [|c cs]; [reflexivity|].
  rewrite Hfind. cbn [bind]. destruct found; reflexivity.
Qed.

(** X11. The row of a record, read off the rows of the sheet. When the
    cells read as date and tax id are text or nothing in every row and in
    the record, indexing and lookup succeed and give: the last row whose
    identity is the trimmed UUID of the record, if that UUID is not empty
    and a row has it; otherwise the last row whose signature equals the one
    of the record; otherwise no row, and the record is an insert. *)
Theorem record_resolution (col_map : dict string positive)
    (items : list (string * string)) (rs : list row) (fac : factura) :
  Forall (fun r => row_typed uuid_col_id sig_cols r = true) rs ->
  fac_typed fac = true ->
  exists ix k,
    index_rows uuid_col_id sig_cols rs = Ok ix /\
    fac_signature fac = Ok k /\
    find_row ix (uuid_of fac) k =
      Ok (option_map row_id
            (resolved_row uuid_col_id sig_cols rs (uuid_of fac) k)) /\
    classify col_map items ix fac =
      Ok (match cells_of col_map items fac with
          | [] => Skipped
          | cs =>
              match resolved_row uuid_col_id sig_cols rs (uuid_of fac) k with
              | Some r => Updated (mk_update (row_id r) cs)
              | None => Inserted (mk_insert cs)
              end
          end).
Proof.
  intros Hrs Hfac.
  destruct (@find_row_resolved rs fac Hrs Hfac) as (ix & k & Hix & Hk & Hfind).
  exists ix, k. split; [exact Hix|]. split; [exact Hk|]. split; [exact Hfind|].
  apply (@classify_found col_map items ix fac k
           (resolved_row uuid_col_id sig_cols rs (uuid_of fac) k) Hk Hfind).
Qed.

End ResolutionFacts.

Lemma record_resolution_witness :
  exists ix k,
    index_rows (RT := Ref.runtime) (Some 11%positive)
      [Some 12%positive; Some 13%positive; Some 14%positive; Some 15%positive]
      (rows Scenario.sheet3) = Ok ix /\
    fac_signature (RT := Ref.runtime) Scenario.fac = Ok k /\
    find_row ix (uuid_of (RT := Ref.runtime) Scenario.fac) k =
      Ok (option_map row_id
            (resolved_row (RT := Ref.runtime) (Some 11%positive)
               [Some 12%positive; Some 13%positive; Some 14%positive;
                Some 15%positive]
               (rows Scenario.sheet3)
               (uuid_of (RT := Ref.runtime) Scenario.fac) k)) /\
    classify (RT := Ref.runtime) Scenario.col_map Scenario.items ix Scenario.fac =
      Ok (match cells_of (RT := Ref.runtime) Scenario.col_map Scenario.items
                         Scenario.fac with
          | [] => Skipped
          | cs =>
              match resolved_row (RT := Ref.runtime) (Some 11%positive)
                      [Some 12%positive; Some 13%positive; Some 14%positive;
                       Some 15%positive]
                      (rows Scenario.sheet3)
                      (uuid_of (RT := Ref.runtime) Scenario.fac) k with
              | Some r => Updated (mk_update (row_id r) cs)
              | None => Inserted (mk_insert cs)
              end
          end).
Proof.
  apply (@record_resolution Ref.runtime).
  - repeat (constructor; [vm_compute; reflexivity|]). constructor.
  - vm_compute. reflexivity.
Defined.

(** ** Rows that the scheduler passes over *)

Section IdleFacts.

Context {RT : Runtime}.

Variables col_int col_last : option positive.

Lemma scan_interval_nonpositive cs : forall st,
  fst st <= 0 ->
  (forall c, In c cs -> is_col col_int c = true -> has_value c = true ->
     try_except (Py.int (cell_value c)) 0 <= 0) ->
  fst (fold_left (scan_config_cell col_int col_last) cs st) <= 0.
Proof.
  induction cs as [|c cs IH]; intros [i u] Hst Hcs; cbn [fold_left]; [exact Hst|].
  apply IH; [|intros c' Hc'; apply Hcs; right; exact Hc'].
  cbn [scan_config_cell fst] in *.
  destruct (is_col col_int c) eqn:Hc; [|exact Hst].
  destruct (has_value c) eqn:Hv; [|exact Hst].
  cbn [andb]. apply Hcs; [left; reflexivity | exact Hc | exact Hv].
Qed.

(** X12. A row without an interval that can be used is passed over on
    every tick, whatever its last execution: when each cell of the interval
    column that has a value gives zero or less (a text that is no integer
    gives zero), and so also when the row or the sheet has no such cell,
    no cycle starts for the row. *)
Theorem no_interval_never_runs (r : row) :
  (forall c, In c (cells r) -> is_col col_int c = true -> has_value c = true ->
     try_except (Py.int (cell_value c)) 0 <= 0) ->
  forall now_aware, row_decision col_int col_last now_aware r = Idle.
Proof.
  intros Hcs now_aware. unfold row_decision, scan_config_row.
  pose proof (@scan_interval_nonpositive (cells r) (0, None) (Z.le_refl 0) Hcs) as H.
  destruct (fold_left (scan_config_cell col_int col_last) (cells r) (0, None))
    as [i u].
  cbn [fst] in H. apply Z.leb_le in H. rewrite H. reflexivity.
Qed.

End IdleFacts.

Lemma no_interval_never_runs_witness :
  row_decision (RT := Ref.runtime) (Some 21%positive) (Some 22%positive)
               (Scenario.ten_o_clock + 3600000000) Samples.no_interval = Idle.
Proof.
  apply (@no_interval_never_runs Ref.runtime).
  intros c [<-|[<-|[]]].
  - intros _ _. vm_compute. discriminate.
  - vm_compute. discriminate.
Defined.

(** ** The timestamps written and the timestamps read *)

Lemma replace_utc_suffix t :
  all_bytes plain_byte t = true ->
  Text.replace (t ++ "+00:00") "+00:00" "Z" = t ++ "Z".
Proof.
  unfold Text.replace. induction t as [|a t IH]; [reflexivity|].
  cbn [all_bytes]. rewrite andb_true_iff. intros [Ha Ht].
  unfold plain_byte in Ha. apply andb_true_iff in Ha. destruct Ha as [Ha _].
  apply negb_true_iff in Ha.
  cbn [append Text.replace_from Text.prefix]. rewrite Ha. cbn [andb].
  rewrite (IH Ht). reflexivity.
Qed.

Lemma replace_z_suffix t :
  all_bytes plain_byte t = true -> Text.replace (t ++ "Z") "Z" "" = t.
Proof.
  unfold Text.replace. induction t as [|a t IH]; [reflexivity|].
  cbn [all_bytes]. rewrite andb_true_iff. intros [Ha Ht].
  unfold plain_byte in Ha. apply andb_true_iff in Ha. destruct Ha as [_ Ha].
  apply negb_true_iff in Ha.
  cbn [append Text.replace_from Text.prefix]. rewrite Ha. cbn [andb].
  rewrite (IH Ht). reflexivity.
Qed.

(** X13. The timestamp written is not read back as the instant it was
    written at. [_actualizar_timestamps] writes the UTC clock with the
    suffix [Z]; [_parse_iso] drops the [Z] and takes the digits as the
    clock of Mexico City. So for a zone [off] away from UTC, the scheduler
    finds the row due when [intervalo] minutes minus [off] have passed
    since the write: six hours later than the interval at UTC-6. The
    premises are the behaviour of [isoformat] and [fromisoformat] on a
    UTC time without microseconds. *)
Theorem written_timestamp_read_as_local {RT : Runtime}
    (utc_isoformat : Z -> string) (now_utc : Z) (r : row)
    (col_last col_next : option positive) (intervalo : Z)
    (t : string) (sent : fila) :
  let ahora_dt := now_utc - now_utc mod 1000000 in
  utc_isoformat ahora_dt = t ++ "+00:00" ->
  all_bytes plain_byte t = true ->
  datetime_fromisoformat t = Some (mk_datetime ahora_dt None) ->
  _actualizar_timestamps utc_isoformat now_utc r col_last col_next intervalo =
    Ok sent ->
  fila_id sent = row_id r /\
  (exists prox,
     fila_cells sent = [(col_last, VStr (t ++ "Z")); (col_next, VStr prox)]) /\
  _parse_iso (VStr (t ++ "Z")) = Some ahora_dt /\
  forall later_utc off,
    due intervalo
        (mins_passed (later_utc + off) (_parse_iso (VStr (t ++ "Z")))) = true <->
    intervalo * 60000000 - off <= later_utc - ahora_dt.
Proof.
  intros ahora_dt Hiso Hplain Hparse Hsent.
  assert (Hread : _parse_iso (VStr (t ++ "Z")) = Some ahora_dt).
  { unfold _parse_iso.
    assert (Py.truthy (VStr (t ++ "Z")) = true) as ->
      by (destruct t; reflexivity).
    cbn [negb]. rewrite (replace_z_suffix _ Hplain), Hparse. reflexivity. }
  unfold _actualizar_timestamps in Hsent. fold ahora_dt in Hsent.
  destruct (add_minutes ahora_dt intervalo) as [prox_dt|e]; [|discriminate].
  cbn [bind] in Hsent. injection Hsent as <-.
  split; [reflexivity|]. split; [|split; [exact Hread|]].
  - eexists. cbn [fila_cells]. unfold stamp_text at 1.
    rewrite Hiso, (replace_utc_suffix _ Hplain). reflexivity.
  - intros later_utc off. rewrite Hread, due_spec. split.
    + intros [H|(w & E & H)]; [discriminate|]. injection E as <-. lia.
    + intros H. right. exists ahora_dt. split; [reflexivity | lia].
Qed.

Lemma written_timestamp_read_as_local_witness :
  _parse_iso (RT := Ref.runtime) (VStr "2025-07-05T16:00:00Z") =
    Some (Scenario.ten_o_clock + 6 * 3600000000) /\
  due 30 (mins_passed
            (Scenario.ten_o_clock + 6 * 3600000000 + 30 * 60000000
             + - (6 * 3600000000))
            (_parse_iso (RT := Ref.runtime) (VStr "2025-07-05T16:00:00Z")))
    = false.
Proof.
  destruct (@written_timestamp_read_as_local Ref.runtime Samples.utc_isoformat
              Samples.four_utc Samples.no_interval (Some 22%positive) None 30
              "2025-07-05T16:00:00"
              (mk_fila 202 [(Some 22%positive, VStr "2025-07-05T16:00:00Z");
                            (None, VStr "2025-07-05T16:30:00Z")]))
    as (_ & _ & Hread & Hdue).
  - vm_compute. reflexivity.
  - vm_compute. reflexivity.
  - vm_compute. reflexivity.
  - vm_compute. reflexivity.
  - split.
    + exact Hread.
    + apply not_true_is_false. intros H.
      pose proof (proj1 (Hdue (Scenario.ten_o_clock + 6 * 3600000000
                               + 30 * 60000000) (- (6 * 3600000000))) H) as Hle.
      vm_compute in Hle. apply Hle. reflexivity.
Defined.

(** ** Records that are not in the sheet *)

Section NewRecords.

Context {RT : Runtime}.

Variable col_map : dict string positive.
Variable items : list (string * string).

(** The outcome of a record that no row matches. *)
Lemma new_outcomes (facs : list factura) :
  let outs := map (fun fac => match cells_of col_map items fac with
                              | [] => Skipped
                              | cs => Inserted (mk_insert cs)
                              end) facs in
  inserts_of outs =
    map (fun fac => mk_insert (cells_of col_map items fac))
        (filter (has_cells col_map items) facs) /\
  updates_of outs = [].
Proof.
  induction facs as [|fac facs [IHi IHu]]; [split; reflexivity|].
  cbn [map filter inserts_of updates_of flat_map] in *.
  unfold has_cells at 1.
  destruct (cells_of col_map items fac) as [|c cs] eqn:Hc.
  - split; [exact IHi | exact IHu].
  - cbn [app map]. rewrite Hc. split; [f_equal; exact IHi | exact IHu].
Qed.

End NewRecords.

(** X14. Records that are in no row of the sheet are all inserted, one row
    each and in their order, also a record that stands twice in the batch:
    every record is matched against the rows of the sheet as it was read,
    not against the inserts collected before it. *)
Theorem new_records_inserted_whole {RT : Runtime}
    (dest_sheet : sheet) (facturas : list factura) (rules_json : value)
    (items : list (string * string)) :
  let col_map := col_map_of (columns dest_sheet) in
  let uuid_col_id := uuid_col_of col_map items in
  let sig_cols := sig_cols_of col_map items in
  rule_items (rules_of rules_json) = Ok items ->
  Forall (fun r => row_typed uuid_col_id sig_cols r = true) (rows dest_sheet) ->
  Forall (fun fac =>
            fac_typed fac = true /\
            forall k, fac_signature fac = Ok k ->
              resolved_row uuid_col_id sig_cols (rows dest_sheet)
                           (uuid_of fac) k = None) facturas ->
  reconcile dest_sheet facturas rules_json =
    Ok (map (fun fac => mk_insert (cells_of col_map items fac))
            (filter (has_cells col_map items) facturas), []).
Proof.
  intros col_map uuid_col_id sig_cols Hitems Hrows Hfacs.
  pose proof (@index_rows_from RT uuid_col_id sig_cols (rows dest_sheet)
                ([], []) Hrows) as Hix.
  cbn [fst snd] in Hix.
  unfold reconcile. fold col_map. rewrite Hitems. cbn [bind].
  fold uuid_col_id sig_cols. unfold index_rows. rewrite Hix. cbn [bind].
  destruct (new_outcomes col_map items facturas) as [Hi Hu].
  rewrite (@foldM_classify RT col_map items _ facturas
             (map (fun fac => match cells_of col_map items fac with
                              | [] => Skipped
                              | cs => Inserted (mk_insert cs)
                              end) facturas) ([], [])).
  - cbn [fst snd app]. cbv zeta in Hi, Hu. rewrite Hi, Hu. reflexivity.
  - clear Hi Hu. induction Hfacs as [|fac facs [Htyped Hnone] _ IH];
      [constructor|].
    cbn [map]. constructor; [|exact IH].
    destruct (@find_row_resolved RT uuid_col_id sig_cols
                (rows dest_sheet) fac Hrows Htyped) as (ix & k & Hix' & Hk & Hfind).
    unfold index_rows in Hix'. rewrite Hix in Hix'. injection Hix' as <-.
    rewrite (Hnone k Hk) in Hfind.
    rewrite (@classify_found RT col_map items _ fac k None Hk Hfind).
    reflexivity.
Qed.

Lemma new_records_inserted_whole_witness :
  reconcile (RT := Ref.runtime) Scenario.empty_sheet
            [Scenario.fac_new; Scenario.fac_unmapped; Scenario.fac_new] VNone =
  Ok ([mk_insert [(11%positive, VStr "B2"); (12%positive, VStr "2025-07-02");
                  (13%positive, VStr "def456"); (14%positive, VInt 250);
                  (15%positive, VStr "G03")];
       mk_insert [(11%positive, VStr "B2"); (12%positive, VStr "2025-07-02");
                  (13%positive, VStr "def456"); (14%positive, VInt 250);
                  (15%positive, VStr "G03")]], []).
Proof.
  apply (@new_records_inserted_whole Ref.runtime Scenario.empty_sheet
           [Scenario.fac_new; Scenario.fac_unmapped; Scenario.fac_new] VNone
           Scenario.items).
  - vm_compute. reflexivity.
  - constructor.
  - repeat (constructor; [split; [vm_compute; reflexivity | intros k _; reflexivity]|]).
    constructor.
Defined.

(** ** The accounts of a due row *)

Lemma row_json_distinct (headers : list string) (r : row) :
  NoDup headers ->
  row_json headers r = combine headers (map cell_json (cells r)).
Proof.
  intros Hnd. unfold row_json. apply dict_of_distinct.
  rewrite map_fst_combine. apply NoDup_firstn. exact Hnd.
Qed.

(** X15. The cycle of a due row, on a configuration sheet whose first
    column is titled [ID] and whose titles differ: the scheduler passes the
    text shown in the first cell of the row as the id, so the cycle works on
    the rows whose [ID] shows that text, the due row among them; and when
    the first cell shows nothing (or the row has no cell) the id is no
    filter and the cycle works on every row of the configuration. *)
Theorem due_row_accounts {RT : Runtime}
    (bind_get_all : nat -> string -> value -> string -> result (list factura))
    (get_sheet : nat -> value -> result sheet)
    (sh : sheet) (others : list string) (r : row) :
  map title (columns sh) = "ID" :: others ->
  NoDup ("ID" :: others) ->
  In r (rows sh) ->
  let cfg := rows_as_dict sh in
  (forall s, job_id r = Some s -> s <> "" ->
     In (row_json ("ID" :: others) r) (filter (has_id s) cfg) /\
     _traer_facturas_por_empresas bind_get_all get_sheet cfg (job_id r) true =
     _traer_facturas_por_empresas bind_get_all get_sheet
       (filter (has_id s) cfg) None true) /\
  (job_id r = None \/ job_id r = Some "" ->
   _traer_facturas_por_empresas bind_get_all get_sheet cfg (job_id r) true =
   _traer_facturas_por_empresas bind_get_all get_sheet cfg None true).
Proof.
  intros Htitles Hnd Hr cfg. split.
  - intros s Hs Hne. split.
    + apply filter_In. split.
      * unfold cfg, rows_as_dict, sheet_to_json. cbn [snd]. rewrite Htitles.
        apply in_map. exact Hr.
      * rewrite (row_json_distinct r Hnd). unfold job_id in Hs.
        destruct (cells r) as [|c cs]; [discriminate|].
        cbn [map combine]. unfold has_id, Py.get_val. cbn [Py.get].
        rewrite String.eqb_refl. unfold cell_json. rewrite Hs.
        apply String.eqb_refl.
    + rewrite Hs. unfold _traer_facturas_por_empresas.
      rewrite (plan_filter cfg Hne). reflexivity.
  - intros [H|H]; rewrite H; [reflexivity|].
    unfold _traer_facturas_por_empresas. rewrite plan_no_id. reflexivity.
Qed.

Lemma due_row_accounts_witness :
  In (row_json ["ID"; "API Token"; "Intervalo (minutos)"] Samples.first_account)
     (filter (has_id "1") (rows_as_dict Samples.config_sheet)) /\
  _traer_facturas_por_empresas (RT := Ref.runtime) Samples.fetched Samples.opened
    (rows_as_dict Samples.config_sheet) (job_id Samples.first_account) true =
  _traer_facturas_por_empresas (RT := Ref.runtime) Samples.fetched Samples.opened
    (filter (has_id "1") (rows_as_dict Samples.config_sheet)) None true.
Proof.
  refine (proj1 (@due_row_accounts Ref.runtime Samples.fetched Samples.opened
                   Samples.config_sheet ["API Token"; "Intervalo (minutos)"]
                   Samples.first_account _ _ _) "1" _ _).
  - reflexivity.
  - repeat constructor; simpl; intuition discriminate.
  - left. reflexivity.
  - reflexivity.
  - discriminate.
Defined.

(** ** Cycles that are recorded and cycles that are not *)

Section CycleFacts.

Context {RT : Runtime}.

Variable bind_get_all : nat -> string -> value -> string -> result (list factura).
Variable get_sheet : nat -> value -> result sheet.
Variable utc_isoformat : Z -> string.

Lemma push_all_nothing_fetched ts : forall i,
  (forall j url tok f, exists e, bind_get_all j url tok f = Raise e) ->
  push_all get_sheet i ts (gather bind_get_all i ts) = Ok [].
Proof.
  induction ts as [|t ts IH]; intros i Hfail; [reflexivity|].
  cbn [gather push_all].
  destruct (Hfail i (base_url t) (token t) (filtro t)) as [e ->].
  cbn [bind]. rewrite (IH (S i) Hfail). reflexivity.
Qed.

(** X16. A cycle is recorded whenever the aggregator returns, and the
    aggregator returns also when no fetch succeeded: on a configuration
    whose filters, URLs and clients are text or empty, a cycle in which
    every fetch raises writes nothing to any destination and still sends
    the timestamps of the row, so the row waits a whole interval before it
    is tried again. A cycle whose aggregator raises (a push that fails)
    sends no timestamps, so the row is due again on the next tick. *)
Theorem failed_fetches_are_recorded (cfg : list config_row) (now_utc : Z)
    (r : row) (col_last col_next : option positive) (intervalo prox_dt : Z) :
  Forall (fun c => cfg_typed c = true) cfg ->
  add_minutes (now_utc - now_utc mod 1000000) intervalo = Ok prox_dt ->
  ((forall j url tok f, exists e, bind_get_all j url tok f = Raise e) ->
   (exists m,
      _traer_facturas_por_empresas bind_get_all get_sheet cfg (job_id r) true =
      Ok ([], m)) /\
   cycle bind_get_all get_sheet utc_isoformat cfg now_utc r col_last col_next
         intervalo =
   Some (mk_fila (row_id r)
           [(col_last,
             VStr (stamp_text utc_isoformat (now_utc - now_utc mod 1000000)));
            (col_next, VStr (stamp_text utc_isoformat prox_dt))])) /\
  (forall e,
     _traer_facturas_por_empresas bind_get_all get_sheet cfg (job_id r) true =
     Raise e ->
     cycle bind_get_all get_sheet utc_isoformat cfg now_utc r col_last col_next
           intervalo = None).
Proof.
  intros Htyped Hadd. split.
  - intros Hfail.
    destruct (plan_typed (job_id r) Htyped) as (ts & Hplan & Htext).
    destruct (@mapping_spec bind_get_all ts O [] Htext (Forall_nil _))
      as (m & Hm & _).
    assert (Hagg : _traer_facturas_por_empresas bind_get_all get_sheet cfg
                     (job_id r) true = Ok ([], m)).
    { unfold _traer_facturas_por_empresas. rewrite Hplan. cbn [bind].
      rewrite (push_all_nothing_fetched ts O Hfail). cbn [bind].
      rewrite Hm. reflexivity. }
    split; [exists m; exact Hagg|].
    unfold cycle. rewrite Hagg. cbn [bind].
    unfold _actualizar_timestamps. rewrite Hadd. reflexivity.
  - intros e He. unfold cycle. rewrite He. reflexivity.
Qed.

End CycleFacts.

Lemma failed_fetches_are_recorded_witness :
  cycle (RT := Ref.runtime) Samples.all_time_out Samples.opened
        Samples.utc_isoformat [Samples.bad_rules; Samples.good_rules]
        Samples.four_utc Samples.first_account (Some 22%positive)
        (Some 24%positive) 30 =
  Some (mk_fila 201 [(Some 22%positive, VStr "2025-07-05T16:00:00Z");
                     (Some 24%positive, VStr "2025-07-05T16:30:00Z")]) /\
  cycle (RT := Ref.runtime) Samples.fetched Samples.opened
        Samples.utc_isoformat [Samples.bad_rules; Samples.good_rules]
        Samples.four_utc Samples.first_account (Some 22%positive)
        (Some 24%positive) 30 = None.
Proof.
  split.
  - refine (proj2 (proj1 (@failed_fetches_are_recorded Ref.runtime
              Samples.all_time_out Samples.opened Samples.utc_isoformat
              [Samples.bad_rules; Samples.good_rules] Samples.four_utc
              Samples.first_account (Some 22%positive) (Some 24%positive) 30
              (Samples.four_utc - Samples.four_utc mod 1000000 + 30 * 60000000)
              _ _) _)).
    + repeat constructor.
    + vm_compute. reflexivity.
    + intros j url tok f. exists TimeoutError. reflexivity.
  - refine (proj2 (@failed_fetches_are_recorded Ref.runtime
              Samples.fetched Samples.opened Samples.utc_isoformat
              [Samples.bad_rules; Samples.good_rules] Samples.four_utc
              Samples.first_account (Some 22%positive) (Some 24%positive) 30
              (Samples.four_utc - Samples.four_utc mod 1000000 + 30 * 60000000)
              _ _) AttributeError _).
    + repeat constructor.
    + vm_compute. reflexivity.
    + vm_compute. reflexivity.
Defined.

(** * The due rows and the timestamps of the code *)

Lemma mins_passed64_shift (w x : Z) :
  mins_passed64 (w + x) (Some w) = mins_passed64 x (Some 0).
Proof.
  unfold mins_passed64. replace (w + x - w) with (x - 0) by lia. reflexivity.
Qed.

(** The three ticks, for every interval up to a day. *)
Lemma late_by_six_hours_day (n : Z) :
  1 <= n <= 1440 -> late_by_six_hours n = true.
Proof.
  intros Hn.
  assert (H : forallb late_by_six_hours (map Z.of_nat (seq 1 1440)) = true)
    by (vm_compute; reflexivity).
  rewrite forallb_forall in H. apply H.
  replace n with (Z.of_nat (Z.to_nat n)) by lia.
  apply in_map. apply in_seq. lia.
Qed.

(** The timestamp sent, and what [_parse_iso] makes of it. *)
Lemma stamp_read_back {RT : Runtime} (utc_isoformat : Z -> string)
    (now_utc : Z) (r : row) (col_last col_next : option positive)
    (intervalo : Z) (t : string) (sent : fila) :
  utc_isoformat (now_utc - now_utc mod 1000000) = t ++ "+00:00" ->
  all_bytes plain_byte t = true ->
  datetime_fromisoformat t =
    Some (mk_datetime (now_utc - now_utc mod 1000000) None) ->
  _actualizar_timestamps utc_isoformat now_utc r col_last col_next intervalo =
    Ok sent ->
  hd (None, VNone) (fila_cells sent) = (col_last, VStr (t ++ "Z")) /\
  _parse_iso (VStr (t ++ "Z")) = Some (now_utc - now_utc mod 1000000).
Proof.
  intros Hiso Hplain Hparse Hsent. split.
  - unfold _actualizar_timestamps in Hsent.
    destruct (add_minutes _ intervalo) as [prox_dt|e]; [|discriminate].
    cbn [bind] in Hsent. injection Hsent as <-. cbn [fila_cells hd].
    unfold stamp_text. rewrite Hiso, (replace_utc_suffix _ Hplain). reflexivity.
  - unfold _parse_iso.
    assert (Py.truthy (VStr (t ++ "Z")) = true) as ->
      by (destruct t; reflexivity).
    cbn [negb]. rewrite (replace_z_suffix _ Hplain), Hparse. reflexivity.
Qed.

(** C5. The claim does not hold of the rows that the scheduler stamps
    itself. After a cycle, [_actualizar_timestamps] writes the UTC clock
    with the suffix [Z] as the last execution; on the later ticks
    [_parse_iso] drops the [Z] and reads the digits as the clock of Mexico
    City, which is six hours behind UTC. So for a row [r'] that holds an
    interval of [n] minutes and the timestamp sent, on the tick [n] minutes
    after the write, when the last execution is exactly [n] minutes ago,
    the row waits; it waits until one microsecond before the local clock
    reaches the digits written plus [n] minutes, and runs from then on,
    six hours after the interval has elapsed. This holds with the minutes
    computed as doubles, as line 441 does, for every interval up to a day,
    and with the exact quotient. [local] is the clock of the zone at a UTC
    time; the premises on [isoformat] and [fromisoformat] are their
    behaviour on a UTC time without microseconds. *)
Theorem stamped_row_due_six_hours_late {RT : Runtime}
    (utc_isoformat : Z -> string) (now_utc : Z) (r r' : row)
    (col_int col_last col_next : option positive) (n : Z)
    (t : string) (sent : fila) :
  let ahora_dt := now_utc - now_utc mod 1000000 in
  let local (utc : Z) := utc - 21600000000 in
  utc_isoformat ahora_dt = t ++ "+00:00" ->
  all_bytes plain_byte t = true ->
  datetime_fromisoformat t = Some (mk_datetime ahora_dt None) ->
  _actualizar_timestamps utc_isoformat now_utc r col_last col_next n = Ok sent ->
  scan_config_row col_int col_last r' =
    (n, _parse_iso (snd (hd (None, VNone) (fila_cells sent)))) ->
  1 <= n <= 1440 ->
  row_decision64 col_int col_last (local (ahora_dt + n * 60000000)) r' = Waiting /\
  row_decision64 col_int col_last
    (local (ahora_dt + n * 60000000 + 21600000000 - 1)) r' = Waiting /\
  row_decision64 col_int col_last
    (local (ahora_dt + n * 60000000 + 21600000000)) r' = Run /\
  row_decision col_int col_last (local (ahora_dt + n * 60000000)) r' = Waiting /\
  row_decision col_int col_last
    (local (ahora_dt + n * 60000000 + 21600000000 - 1)) r' = Waiting /\
  row_decision col_int col_last
    (local (ahora_dt + n * 60000000 + 21600000000)) r' = Run.
Proof.
  intros ahora_dt local Hiso Hplain Hparse Hsent Hscan Hn.
  destruct (@stamp_read_back RT utc_isoformat now_utc r col_last col_next n t
              sent Hiso Hplain Hparse Hsent) as [Hcell Hread].
  fold ahora_dt in Hread. rewrite Hcell in Hscan. cbn [snd] in Hscan.
  rewrite Hread in Hscan.
  pose proof (@late_by_six_hours_day n Hn) as Hlate.
  unfold late_by_six_hours in Hlate. rewrite !andb_true_iff in Hlate.
  destruct Hlate as [[H1 H2] H3].
  apply negb_true_iff in H1, H2.
  assert (Hpos : (n <=? 0) = false) by (apply Z.leb_gt; lia).
  unfold row_decision64, row_decision, local. rewrite Hscan, Hpos.
  replace (ahora_dt + n * 60000000 - 21600000000)
    with (ahora_dt + (n * 60000000 - 21600000000)) by lia.
  replace (ahora_dt + n * 60000000 + 21600000000 - 1 - 21600000000)
    with (ahora_dt + (n * 60000000 - 1)) by lia.
  replace (ahora_dt + n * 60000000 + 21600000000 - 21600000000)
    with (ahora_dt + n * 60000000) by lia.
  rewrite !mins_passed64_shift, H1, H2, H3.
  split; [reflexivity|]. split; [reflexivity|]. split; [reflexivity|].
  pose proof (due_spec n (ahora_dt + (n * 60000000 - 21600000000))
                       (Some ahora_dt)) as D1.
  pose proof (due_spec n (ahora_dt + (n * 60000000 - 1)) (Some ahora_dt)) as D2.
  pose proof (due_spec n (ahora_dt + n * 60000000) (Some ahora_dt)) as D3.
  destruct (due n (mins_passed (ahora_dt + (n * 60000000 - 21600000000))
                               (Some ahora_dt))).
  { destruct D1 as [D1 _]. destruct (D1 eq_refl) as [E|(w & E & H)];
      [discriminate | injection E as <-; lia]. }
  destruct (due n (mins_passed (ahora_dt + (n * 60000000 - 1)) (Some ahora_dt))).
  { destruct D2 as [D2 _]. destruct (D2 eq_refl) as [E|(w & E & H)];
      [discriminate | injection E as <-; lia]. }
  destruct (due n (mins_passed (ahora_dt + n * 60000000) (Some ahora_dt))).
  - repeat split.
  - destruct D3 as [_ D3]. discriminate D3. right. exists ahora_dt.
    split; [reflexivity | lia].
Qed.

(** The row stamped at 16:00 UTC with an interval of 30: at 16:30 UTC the
    clock of Mexico City shows 10:30 and the row waits; it runs at 22:30
    UTC. *)
Lemma stamped_row_due_six_hours_late_witness :
  row_decision64 (RT := Ref.runtime) (Some 21%positive) (Some 22%positive)
    (Scenario.ten_o_clock + 30 * 60000000) Samples.stamped_row = Waiting /\
  row_decision64 (RT := Ref.runtime) (Some 21%positive) (Some 22%positive)
    (Scenario.ten_o_clock + 30 * 60000000 + 21600000000) Samples.stamped_row = Run.
Proof.
  destruct (@stamped_row_due_six_hours_late Ref.runtime Samples.utc_isoformat
              Samples.four_utc Samples.first_account Samples.stamped_row
              (Some 21%positive) (Some 22%positive) None 30
              "2025-07-05T16:00:00"
              (mk_fila 201 [(Some 22%positive, VStr "2025-07-05T16:00:00Z");
                            (None, VStr "2025-07-05T16:30:00Z")]))
    as (H1 & _ & H3 & _).
  - vm_compute. reflexivity.
  - vm_compute. reflexivity.
  - vm_compute. reflexivity.
  - vm_compute. reflexivity.
  - vm_compute. reflexivity.
  - lia.
  - split; [exact H1 | exact H3].
Defined.
